(** * Pose2Fit: body measurement, size recommendation and try-on studio

    A shallow embedding of the client code of the repository
    ([backend/static/js/script.js], [backend/static/js/size_recommendations.js],
    [backend/static/js/auth.js], [frontend/src/components/TryOn.tsx],
    [SizeRecommendations.tsx], [VirtualTryOnStudio.tsx], [ClothCatalog.tsx],
    [BookDemoModal.tsx], [services/api.ts]) and of the size-fit engine that
    serves it.

    Part I holds the definitions, one module per source file.  Part II holds
    the theorems. *)

From Stdlib Require Import List String Ascii Bool Arith ZArith NArith QArith Lia.
From Stdlib Require Import DecimalString Sorted Permutation.
From Stdlib Require Import Reals Lra.
Import ListNotations.

Set Warnings "-register-all".

Close Scope Q_scope.
Close Scope R_scope.
Close Scope Z_scope.
Open Scope nat_scope.

(* ================================================================== *)
(** * Part I: the model *)
(* ================================================================== *)

(** ** The JavaScript runtime

    The built-ins the sources call, on strings, numbers and values.  A
    JavaScript string is a sequence of UTF-16 code units.  The model keeps
    the code units below 256 ([ascii]); every literal the sources compare
    against is written in that range. *)
Module JS.

Local Open Scope string_scope.

(** *** Strings *)

(** [s.startsWith(p)] *)
Definition startsWith (s p : string) : bool := String.prefix p s.

(** [s.includes(sub)]: [sub] occurs at some position of [s]. *)
Fixpoint includes (s sub : string) : bool :=
  String.prefix sub s ||
  match s with
  | EmptyString => false
  | String _ rest => includes rest sub
  end.

(** [s === t] on strings. *)
Definition strictEq (s t : string) : bool := String.eqb s t.

(** [xs.includes(s)] on an array of strings. *)
Definition arrayIncludes (xs : list string) (s : string) : bool :=
  existsb (fun x => strictEq x s) xs.

(** One code unit of [toLowerCase]: A-Z, and the Latin-1 capitals
    U+00C0..U+00DE except the multiplication sign U+00D7, move up by 32. *)
Definition lowerUnit (c : ascii) : ascii :=
  let n := nat_of_ascii c in
  if (((65 <=? n) && (n <=? 90)) ||
      ((192 <=? n) && (n <=? 222) && negb (n =? 215)))%nat
  then ascii_of_nat (n + 32) else c.

Fixpoint toLowerCase (s : string) : string :=
  match s with
  | EmptyString => EmptyString
  | String c rest => String (lowerUnit c) (toLowerCase rest)
  end.

(** White space and line terminators removed by [trim]: TAB, LF, VT, FF, CR,
    SPACE and NO-BREAK SPACE. *)
Definition isWhiteSpace (c : ascii) : bool :=
  let n := nat_of_ascii c in
  (((9 <=? n) && (n <=? 13)) || (n =? 32) || (n =? 160))%nat.

Fixpoint trimStart (s : string) : string :=
  match s with
  | EmptyString => EmptyString
  | String c rest => if isWhiteSpace c then trimStart rest else s
  end.

(** [trimEnd] keeps a code unit when it is no white space or when something
    is kept after it. *)
Fixpoint trimEnd (s : string) : string :=
  match s with
  | EmptyString => EmptyString
  | String c rest =>
      match trimEnd rest with
      | EmptyString => if isWhiteSpace c then EmptyString else String c EmptyString
      | kept => String c kept
      end
  end.

Definition trim (s : string) : string := trimEnd (trimStart s).

(** The two characters of the class in [/^["']|["']$/g]. *)
Definition isQuote (c : ascii) : bool :=
  let n := nat_of_ascii c in ((n =? 34) || (n =? 39))%nat.

Definition dropLeadingQuote (s : string) : string :=
  match s with
  | String c rest => if isQuote c then rest else s
  | EmptyString => EmptyString
  end.

Fixpoint dropTrailingQuote (s : string) : string :=
  match s with
  | EmptyString => EmptyString
  | String c EmptyString => if isQuote c then EmptyString else s
  | String c rest => String c (dropTrailingQuote rest)
  end.

(** [s.replace(/^["']|["']$/g, '')]: the global replace removes a quote at
    the start, then, scanning on, a quote at the end of what is left. *)
Definition stripQuotes (s : string) : string :=
  dropTrailingQuote (dropLeadingQuote s).

(** *** Numbers and values *)

(** A JavaScript number: NaN, the two infinities, or a finite value. *)
Inductive number : Type :=
| NaN
| NegInfinity
| PosInfinity
| Finite (q : Q).

(** [a > b] and [a <= b]: every comparison with NaN is false. *)
Definition gt (a b : number) : bool :=
  match a, b with
  | NaN, _ | _, NaN => false
  | NegInfinity, _ => false
  | _, PosInfinity => false
  | PosInfinity, _ => true
  | Finite _, NegInfinity => true
  | Finite x, Finite y => negb (Qle_bool x y)
  end.

Definition le (a b : number) : bool :=
  match a, b with
  | NaN, _ | _, NaN => false
  | NegInfinity, _ => true
  | _, PosInfinity => true
  | PosInfinity, _ => false
  | Finite _, NegInfinity => false
  | Finite x, Finite y => Qle_bool x y
  end.

Definition zero : number := Finite 0.

(** [Math.max(a, b)]: NaN when either is NaN. *)
Definition max (a b : number) : number :=
  match a, b with
  | NaN, _ | _, NaN => NaN
  | _, _ => if gt a b then a else b
  end.

(** The values a parsed JSON document or any other [any] can hold.  The
    properties of an object are listed in the order [Object.keys] gives
    them. *)
Inductive Value : Type :=
| Undefined
| Null
| Bool (b : bool)
| Num (n : number)
| Str (s : string)
| Array (elems : list Value)
| Object (props : list (string * Value)).

(** What a call does: it returns, or it throws. *)
Inductive Error : Type := TypeError | SyntaxError.

Inductive Completion (A : Type) : Type :=
| Return (a : A)
| Throw (e : Error).
Arguments Return {A} a.
Arguments Throw {A} e.

Definition bind {A B : Type} (c : Completion A) (k : A -> Completion B)
  : Completion B :=
  match c with
  | Return a => k a
  | Throw e => Throw e
  end.

(** ToBoolean: what [if (v)], [!v] and [a || b] test. *)
Definition truthy (v : Value) : bool :=
  match v with
  | Undefined | Null => false
  | Bool b => b
  | Num NaN => false
  | Num (Finite q) => negb (Qeq_bool q 0)
  | Num _ => true
  | Str s => negb (strictEq s "")
  | Array _ | Object _ => true
  end.

(** [typeof v] *)
Definition typeof (v : Value) : string :=
  match v with
  | Undefined => "undefined"
  | Null | Array _ | Object _ => "object"
  | Bool _ => "boolean"
  | Num _ => "number"
  | Str _ => "string"
  end.

(** The key of an array index: its decimal numeral. *)
Definition indexKey (i : nat) : string :=
  NilEmpty.string_of_uint (Nat.to_uint i).

(** The own enumerable properties of an object or an array, in the order of
    [Object.keys] and [Object.values]. *)
Definition entries (v : Value) : list (string * Value) :=
  match v with
  | Object props => props
  | Array elems => combine (map indexKey (seq 0 (List.length elems))) elems
  | _ => []
  end.

Definition keys (v : Value) : list string := map fst (entries v).
Definition values (v : Value) : list Value := map snd (entries v).

Fixpoint lookup (k : string) (props : list (string * Value)) : Value :=
  match props with
  | [] => Undefined
  | (k', v) :: rest => if strictEq k' k then v else lookup k rest
  end.

(** [v[k]] for a property name [k] that is no member of a prototype:
    reading a property of [null] or [undefined] throws a TypeError, a
    property that is not there reads as [undefined]. *)
Definition get (v : Value) (k : string) : Completion Value :=
  match v with
  | Undefined | Null => Throw TypeError
  | _ => Return (lookup k (entries v))
  end.

(** [a || b] *)
Definition or (a b : Value) : Value := if truthy a then a else b.

End JS.

(** ** Garment categories and the gender filter

    [frontend/src/components/SizeRecommendations.tsx] ([fetchCategories]) and
    [backend/static/js/size_recommendations.js] ([loadGarmentCategories]). *)
Module Categories.

Local Open Scope string_scope.

(** [GarmentCategoryInfo] of [services/api.ts]. *)
Record GarmentCategoryInfo : Type := {
  key : string;
  name : string
}.

(** The prop [gender: 'male' | 'female'] of the React component. *)
Inductive Gender : Type := male | female.

(** The callback of [data.filter] in [fetchCategories]. *)
Definition fetchCategories_keeps (gender : Gender) (cat : GarmentCategoryInfo) : bool :=
  match gender with
  | male => JS.startsWith (key cat) "MENS_"
  | female => JS.startsWith (key cat) "WOMENS_" || JS.strictEq (key cat) "DRESS"
  end.

(** [const filtered = data.filter(...)] of [fetchCategories]. *)
Definition fetchCategories (gender : Gender) (data : list GarmentCategoryInfo)
  : list GarmentCategoryInfo :=
  filter (fetchCategories_keeps gender) data.

(** The callback of [allCategories.filter] in [loadGarmentCategories]; the
    gender is the value of the select element, a string. *)
Definition loadGarmentCategories_keeps (selectedGender : string)
    (category : GarmentCategoryInfo) : bool :=
  if JS.strictEq selectedGender "male" then
    JS.startsWith (key category) "MENS_"
  else if JS.strictEq selectedGender "female" then
    JS.startsWith (key category) "WOMENS_" || JS.strictEq (key category) "DRESS"
  else true.

(** [const categories = allCategories.filter(...)] of [loadGarmentCategories]. *)
Definition loadGarmentCategories (selectedGender : string)
    (allCategories : list GarmentCategoryInfo) : list GarmentCategoryInfo :=
  filter (loadGarmentCategories_keeps selectedGender) allCategories.

(** The keys the naming convention gives to each gender: a key that starts
    with MENS_; a key that starts with WOMENS_ or is the literal DRESS. *)
Definition mens_key (k : string) : Prop := exists rest, k = "MENS_" ++ rest.
Definition womens_key (k : string) : Prop :=
  (exists rest, k = "WOMENS_" ++ rest) \/ k = "DRESS".

End Categories.

(** ** The virtual try-on studio

    [frontend/src/components/VirtualTryOnStudio.tsx] and the [ClothItem]
    interface of [ClothCatalog.tsx]. *)
Module Studio.

Local Open Scope string_scope.

(** [ClothItem] of [ClothCatalog.tsx]. *)
Record ClothItem : Type := {
  id : string;
  title : string;
  brand : string;
  category : string;
  image : string
}.

(** The updater [handleToggleCloth] hands to [setSelectedClothes]:
    [prev.find(i => i.id === item.id)] is an item (truthy) or [undefined]. *)
Definition handleToggleCloth (item : ClothItem) (prev : list ClothItem)
  : list ClothItem :=
  match find (fun i => JS.strictEq (id i) (id item)) prev with
  | Some isSelected => filter (fun i => negb (JS.strictEq (id i) (id item))) prev
  | None => prev ++ [item]
  end.

(** [selectedItems.some(i => i.id === item.id)]: how [ClothCatalog.tsx]
    decides that an item is selected. *)
Definition isSelected (selectedItems : list ClothItem) (item : ClothItem) : bool :=
  existsb (fun i => JS.strictEq (id i) (id item)) selectedItems.

(** The names [extractImageUrl] looks a key up in. *)
Definition urlKeyNames : list string :=
  ["avatar_url"; "output_image"; "image_url"; "url"; "output"; "result"].

(** The callback of [keys.find] in [extractImageUrl]. *)
Definition isUrlKey (k : string) : bool :=
  JS.arrayIncludes urlKeyNames (JS.toLowerCase k) ||
  JS.includes (JS.toLowerCase k) "url" ||
  JS.includes (JS.toLowerCase k) "avatar".

(** [v.startsWith('http') || v.startsWith('data:')] *)
Definition isImageLink (v : string) : bool :=
  JS.startsWith v "http" || JS.startsWith v "data:".

(** The callback of [Object.values(data).find] in [extractImageUrl]. *)
Definition isImageLinkValue (v : JS.Value) : bool :=
  match v with
  | JS.Str s => isImageLink s
  | _ => false
  end.

Section ExtractImageUrl.

(** [JSON.parse] of the runtime: the parsed value, or [None] when it throws
    a SyntaxError. *)
Variable JSON_parse : string -> option JS.Value.

(** [if (Array.isArray(data) && data.length > 0) data = data[0].json || data[0]] *)
Definition unwrapFirstItem (data : JS.Value) : JS.Completion JS.Value :=
  match data with
  | JS.Array (first :: _) =>
      JS.bind (JS.get first "json") (fun json => JS.Return (JS.or json first))
  | _ => JS.Return data
  end.

(** [if (typeof data === 'string' && data.trim().startsWith('{'))
       try { data = JSON.parse(data) } catch (e) {}] *)
Definition parseIfJsonText (data : JS.Value) : JS.Value :=
  match data with
  | JS.Str s =>
      if JS.startsWith (JS.trim s) "{" then
        match JSON_parse s with
        | Some parsed => parsed
        | None => data
        end
      else data
  | _ => data
  end.

(** The value [result] holds before the final test. *)
Definition pickResult (data : JS.Value) : JS.Value :=
  match data with
  | JS.Str _ => data
  | JS.Array _ | JS.Object _ =>
      match find isUrlKey (JS.keys data) with
      | Some urlKey =>
          if JS.truthy (JS.Str urlKey) then JS.lookup urlKey (JS.entries data)
          else
            match find isImageLinkValue (JS.values data) with
            | Some v => v
            | None => JS.Undefined
            end
      | None =>
          match find isImageLinkValue (JS.values data) with
          | Some v => v
          | None => JS.Undefined
          end
      end
  | _ => JS.Null
  end.

(** [if (result && typeof result === 'string' && (...)) return
       result.trim().replace(/^["']|["']$/g, ''); return null] *)
Definition finish (result : JS.Value) : option string :=
  match result with
  | JS.Str s =>
      if JS.truthy result && isImageLink s
      then Some (JS.stripQuotes (JS.trim s))
      else None
  | _ => None
  end.

(** [extractImageUrl(data)]: [Return None] is [null]. *)
Definition extractImageUrl (data : JS.Value) : JS.Completion (option string) :=
  JS.bind (unwrapFirstItem data) (fun data =>
  JS.Return (finish (pickResult (parseIfJsonText data)))).

End ExtractImageUrl.

End Studio.

(** ** The interfaces of the React client's API layer

    [frontend/src/services/api.ts] *)
Module Api.

Inductive Units : Type := metric | imperial.

(** [MeasurementRequest] *)
Record MeasurementRequest : Type := {
  front_image : string;
  side_image : option string;
  calibration_height : JS.number;
  units : Units;
  gender : Categories.Gender
}.

(** The [measurements] object of a response; [None] is [null]. *)
Record Measurements : Type := {
  shoulder_width : option Q;
  chest : option Q;
  waist : option Q;
  hip : option Q;
  height : option Q;
  inseam : option Q;
  measurement_units : string   (* [units]; the request holds that name *)
}.

(** [MeasurementResponse] *)
Record MeasurementResponse : Type := {
  success : bool;
  measurements : Measurements;
  front_landmarks : option JS.Value;
  side_landmarks : option JS.Value;
  message : option string
}.

(** How the promise of [measurementApi.calculate] settles: it resolves with
    the response, or it rejects with an error whose
    [err.response?.data?.detail] is the given text, if any. *)
Inductive Settled : Type :=
| Resolved (data : MeasurementResponse)
| Rejected (detail : option string).

End Api.

(** ** The static page

    [backend/static/js/script.js]: the upload form, its validation and the
    skeleton overlay. *)
Module Script.

Local Open Scope string_scope.

(** A [File] of the browser: its name, MIME type and size in bytes. *)
Record File : Type := {
  file_name : string;
  type : string;
  size : N
}.

(** The image fields of the page's [state] object. *)
Record State : Type := {
  frontImage : option File;
  sideImage : option File;
  frontImageData : option string;
  sideImageData : option string
}.

(** The properties of the page's [elements] the form code reads or writes. *)
Record Elements : Type := {
  frontPreview_src : string;
  frontPreview_display : string;
  frontPlaceholder_display : string;
  frontRemove_display : string;
  sidePreview_src : string;
  sidePreview_display : string;
  sidePlaceholder_display : string;
  sideRemove_display : string;
  heightInput_value : string;
  calculateBtn_disabled : bool;
  errorText_textContent : string;
  errorMessage_display : string
}.

Record Page : Type := {
  state : State;
  elements : Elements
}.

Definition set_calculateBtn_disabled (b : bool) (e : Elements) : Elements :=
  {| frontPreview_src := frontPreview_src e;
     frontPreview_display := frontPreview_display e;
     frontPlaceholder_display := frontPlaceholder_display e;
     frontRemove_display := frontRemove_display e;
     sidePreview_src := sidePreview_src e;
     sidePreview_display := sidePreview_display e;
     sidePlaceholder_display := sidePlaceholder_display e;
     sideRemove_display := sideRemove_display e;
     heightInput_value := heightInput_value e;
     calculateBtn_disabled := b;
     errorText_textContent := errorText_textContent e;
     errorMessage_display := errorMessage_display e |}.

Definition set_error (text : string) (display : string) (e : Elements) : Elements :=
  {| frontPreview_src := frontPreview_src e;
     frontPreview_display := frontPreview_display e;
     frontPlaceholder_display := frontPlaceholder_display e;
     frontRemove_display := frontRemove_display e;
     sidePreview_src := sidePreview_src e;
     sidePreview_display := sidePreview_display e;
     sidePlaceholder_display := sidePlaceholder_display e;
     sideRemove_display := sideRemove_display e;
     heightInput_value := heightInput_value e;
     calculateBtn_disabled := calculateBtn_disabled e;
     errorText_textContent := text;
     errorMessage_display := display |}.

Definition show_front_preview (imageData : string) (e : Elements) : Elements :=
  {| frontPreview_src := imageData;
     frontPreview_display := "block";
     frontPlaceholder_display := "none";
     frontRemove_display := "flex";
     sidePreview_src := sidePreview_src e;
     sidePreview_display := sidePreview_display e;
     sidePlaceholder_display := sidePlaceholder_display e;
     sideRemove_display := sideRemove_display e;
     heightInput_value := heightInput_value e;
     calculateBtn_disabled := calculateBtn_disabled e;
     errorText_textContent := errorText_textContent e;
     errorMessage_display := errorMessage_display e |}.

Definition show_side_preview (imageData : string) (e : Elements) : Elements :=
  {| frontPreview_src := frontPreview_src e;
     frontPreview_display := frontPreview_display e;
     frontPlaceholder_display := frontPlaceholder_display e;
     frontRemove_display := frontRemove_display e;
     sidePreview_src := imageData;
     sidePreview_display := "block";
     sidePlaceholder_display := "none";
     sideRemove_display := "flex";
     heightInput_value := heightInput_value e;
     calculateBtn_disabled := calculateBtn_disabled e;
     errorText_textContent := errorText_textContent e;
     errorMessage_display := errorMessage_display e |}.

(** [showError(message)] *)
Definition showError (message : string) (p : Page) : Page :=
  {| state := state p; elements := set_error message "flex" (elements p) |}.

(** [hideError()] *)
Definition hideError (p : Page) : Page :=
  {| state := state p;
     elements := set_error (errorText_textContent (elements p)) "none" (elements p) |}.

Section Form.

(** [parseFloat] of the runtime. *)
Variable parseFloat : string -> JS.number.

(** [hasFrontImage] of [validateForm] *)
Definition hasFrontImage (p : Page) : bool :=
  match frontImageData (state p) with
  | Some _ => true
  | None => false
  end.

(** [hasHeight] of [validateForm], as the [!(... && hasHeight)] reads it. *)
Definition hasHeight (p : Page) : bool :=
  JS.truthy (JS.Str (heightInput_value (elements p))) &&
  JS.gt (parseFloat (heightInput_value (elements p))) JS.zero.

(** [validateForm()] *)
Definition validateForm (p : Page) : Page :=
  {| state := state p;
     elements :=
       set_calculateBtn_disabled (negb (hasFrontImage p && hasHeight p)) (elements p) |}.

(** [validTypes] and [maxSize] of [processFile] *)
Definition validTypes : list string := ["image/jpeg"; "image/jpg"; "image/png"].
Definition maxSize : N := 10 * 1024 * 1024.

(** A read handed to a [FileReader] by [reader.readAsDataURL(file)]; its
    [onload] callback runs later, with the data URL. *)
Record PendingRead : Type := {
  read_file : File;
  read_type : string
}.

(** [processFile(file, type)] up to its return: the page it leaves, and the
    read it has started, if any. *)
Definition processFile (file : File) (type_ : string) (p : Page)
  : Page * option PendingRead :=
  if negb (JS.arrayIncludes validTypes (type file)) then
    (showError "Please upload a JPEG or PNG image" p, None)
  else if (maxSize <? size file)%N then
    (showError "Image size must be less than 10MB" p, None)
  else
    (p, Some {| read_file := file; read_type := type_ |}).

(** The [reader.onload] callback of [processFile], run with the data URL
    [e.target.result]. *)
Definition onload (r : PendingRead) (imageData : string) (p : Page) : Page :=
  let stored :=
    if JS.strictEq (read_type r) "front" then
      {| state := {| frontImage := Some (read_file r);
                     sideImage := sideImage (state p);
                     frontImageData := Some imageData;
                     sideImageData := sideImageData (state p) |};
         elements := show_front_preview imageData (elements p) |}
    else
      {| state := {| frontImage := frontImage (state p);
                     sideImage := Some (read_file r);
                     frontImageData := frontImageData (state p);
                     sideImageData := Some imageData |};
         elements := show_side_preview imageData (elements p) |} in
  hideError (validateForm stored).

(** The form of [script.js] holds no valid request: the front image is
    missing, or the height is empty or not a strictly positive number. *)
Definition invalid (page : Page) : Prop :=
  frontImageData (state page) = None \/
  heightInput_value (elements page) = "" \/
  JS.gt (parseFloat (heightInput_value (elements page))) JS.zero
    = false.

End Form.

(** *** The measurement cards *)

(** [measurementLabels] of [displayResults], each key with the field of
    the response it reads. *)
Definition measurementLabels : list ((Api.Measurements -> option Q) * string) :=
  [ (Api.shoulder_width, "Shoulder Width");
    (Api.chest, "Chest");
    (Api.waist, "Waist");
    (Api.hip, "Hip");
    (Api.height, "Height");
    (Api.inseam, "Inseam") ].

(** [Math.max(...values)] over the values of the response that are numbers;
    the maximum of no value is [-Infinity]. *)
Definition maxValue (measurements : Api.Measurements) : JS.number :=
  fold_right
    (fun field acc =>
       match fst field measurements with
       | Some v => JS.max (JS.Finite v) acc
       | None => acc
       end)
    JS.NegInfinity measurementLabels.

(** The arguments of one [createMeasurementCard(label, value, units, maxValue)]. *)
Record MeasurementCard : Type := {
  card_label : string;
  card_value : Q;
  card_units : string;
  card_maxValue : JS.number
}.

(** The cards [displayResults] appends to the grid: one for each label
    whose value is neither [null] nor [undefined]. *)
Definition displayResults (measurements : Api.Measurements) : list MeasurementCard :=
  flat_map
    (fun field =>
       match fst field measurements with
       | Some value =>
           [ {| card_label := snd field;
                card_value := value;
                card_units := Api.measurement_units measurements;
                card_maxValue := maxValue measurements |} ]
       | None => []
       end)
    measurementLabels.

(** *** The skeleton overlay *)

Local Open Scope Q_scope.

(** A landmark of the response: [{x, y, visibility}], three JSON numbers. *)
Record Landmark : Type := {
  x : Q;
  y : Q;
  visibility : Q
}.

(** What [drawSkeleton] paints on the canvas. *)
Inductive CanvasOp : Type :=
| fillRect (left top width height : Q)
| strokeLine (x0 y0 x1 y1 : Q)
| fillCircle (cx cy radius : Q).

Definition canvas_width : Q := 600.
Definition canvas_height : Q := 800.

(** [connections] of [drawSkeleton] *)
Definition connections : list (nat * nat) :=
  [ (11, 12);
    (11, 13); (13, 15);
    (12, 14); (14, 16);
    (11, 23); (12, 24);
    (23, 24);
    (23, 25); (25, 27);
    (24, 26); (26, 28) ]%nat.

(** [v > 0.5] *)
Definition above_half (v : Q) : bool := negb (Qle_bool v (1 # 2)).

(** The callback of [connections.forEach]. *)
Definition drawConnection (landmarks : list Landmark) (c : nat * nat)
  : list CanvasOp :=
  match nth_error landmarks (fst c), nth_error landmarks (snd c) with
  | Some startLm, Some endLm =>
      if above_half (visibility startLm) && above_half (visibility endLm) then
        [ strokeLine (x startLm * canvas_width) (y startLm * canvas_height)
                     (x endLm * canvas_width) (y endLm * canvas_height) ]
      else []
  | _, _ => []
  end.

(** The callback of [landmarks.forEach]. *)
Definition drawLandmark (lm : Landmark) : list CanvasOp :=
  if above_half (visibility lm) then
    [ fillCircle (x lm * canvas_width) (y lm * canvas_height) 5 ]
  else [].

(** [drawSkeleton(landmarks)] *)
Definition drawSkeleton (landmarks : list Landmark) : list CanvasOp :=
  fillRect 0 0 canvas_width canvas_height ::
  flat_map (drawConnection landmarks) connections ++
  flat_map drawLandmark landmarks.

(** The usability threshold of the landmark validator, in the words of the
    specification: a joint is usable when its confidence is at least 0.5. *)
Definition meets_confidence_threshold (confidence : Q) : bool :=
  Qle_bool (1 # 2) confidence.

End Script.

(** ** The measurement form of the React client

    [frontend/src/components/TryOn.tsx] *)
Module TryOn.

Local Open Scope string_scope.

(** The [useState] cells of the component. *)
Record State : Type := {
  frontImage : option string;
  sideImage : option string;
  height : string;
  units : Api.Units;
  gender : Categories.Gender;
  loading : bool;
  error : option string;
  results : option Api.MeasurementResponse;
  showRecommendations : bool
}.

Definition setLoading (b : bool) (st : State) : State :=
  {| frontImage := frontImage st; sideImage := sideImage st;
     height := height st; units := units st; gender := gender st;
     loading := b; error := error st;
     results := results st; showRecommendations := showRecommendations st |}.

Definition setError (e : option string) (st : State) : State :=
  {| frontImage := frontImage st; sideImage := sideImage st;
     height := height st; units := units st; gender := gender st;
     loading := loading st; error := e;
     results := results st; showRecommendations := showRecommendations st |}.

Definition setResults (r : option Api.MeasurementResponse) (st : State) : State :=
  {| frontImage := frontImage st; sideImage := sideImage st;
     height := height st; units := units st; gender := gender st;
     loading := loading st; error := error st;
     results := r; showRecommendations := showRecommendations st |}.

(** [text || fallback] for an optional string. *)
Definition orElse (text : option string) (fallback : string) : string :=
  match text with
  | Some t => if JS.truthy (JS.Str t) then t else fallback
  | None => fallback
  end.

(** [!frontImage] for [string | null] *)
Definition absent (image : option string) : bool :=
  match image with
  | Some t => negb (JS.truthy (JS.Str t))
  | None => true
  end.

Section CalculateMeasurements.

(** [Number] of the runtime, applied to the text of the height field. *)
Variable Number : string -> JS.number.

(** The server behind [measurementApi.calculate]. *)
Variable calculate : Api.MeasurementRequest -> Api.Settled.

(** [!height || Number(height) <= 0] *)
Definition heightRejected (st : State) : bool :=
  negb (JS.truthy (JS.Str (height st))) ||
  JS.le (Number (height st)) JS.zero.

(** The request the form sends. *)
Definition requestOf (front : string) (st : State) : Api.MeasurementRequest :=
  {| Api.front_image := front;
     Api.side_image := sideImage st;
     Api.calibration_height := Number (height st);
     Api.units := units st;
     Api.gender := gender st |}.

(** [calculateMeasurements()] run to the end of its [finally]: the state it
    leaves and the requests it has sent to the server. *)
Definition calculateMeasurements (st : State)
  : State * list Api.MeasurementRequest :=
  match frontImage st with
  | Some front =>
      if absent (frontImage st) then
        (setError (Some "Front image is required") st, [])
      else if heightRejected st then
        (setError (Some "Please enter a valid height") st, [])
      else
        let req := requestOf front st in
        let started := setError None (setLoading true st) in
        let settled :=
          match calculate req with
          | Api.Resolved data =>
              if Api.success data then setResults (Some data) started
              else setError
                     (Some (orElse (Api.message data)
                                   "Failed to calculate measurements"))
                     started
          | Api.Rejected detail =>
              setError (Some (orElse detail "An error occurred during calculation"))
                       started
          end in
        (setLoading false settled, [req])
  | None => (setError (Some "Front image is required") st, [])
  end.

(** The form of [tsx] holds no valid request: the front image is
    missing, or the height is empty or a number that is not strictly
    positive. *)
Definition invalid (st : State) : Prop :=
  frontImage st = None \/ frontImage st = Some "" \/
  height st = "" \/
  JS.le (Number (height st)) JS.zero = true.

End CalculateMeasurements.

End TryOn.

(** ** The client of the size recommendations

    [backend/static/js/size_recommendations.js]: what the page shows of a
    response.  The functions read the order of [data.recommendations] and
    nothing of a recommendation but the fields they print, so the record of
    a recommendation is left open. *)
Module SizeRecs.

Section Display.

Variable Recommendation : Type.

(** [displayBestSizeUnderPoseDetection(data)]: the recommendation it prints
    as the recommended size, [data.recommendations[0]], or nothing when the
    list is missing or empty. *)
Definition displayBestSizeUnderPoseDetection
    (recommendations : option (list Recommendation)) : option Recommendation :=
  match recommendations with
  | Some (bestFit :: _) => Some bestFit
  | _ => None
  end.

(** [displaySizeRecommendations(data)]: one card per recommendation, in
    order, each with its [isBestFit] flag [index === 0]. *)
Definition displaySizeRecommendations (recommendations : list Recommendation)
  : list (Recommendation * bool) :=
  map (fun entry => (snd entry, Nat.eqb (fst entry) 0))
      (combine (seq 0 (List.length recommendations)) recommendations).

End Display.

End SizeRecs.

(** ** The size-fit engine

    The engine runs on the server ([/api/size-recommendations/recommend]);
    its code is not among the sources, so every definition of this module
    follows the specification, sections 3 and 4.5 to 4.7.  Lengths are real
    numbers. *)
Module Engine.

Local Open Scope R_scope.

(** Modelled from the spec: the engine's code is missing.  Section 7's
    flat enumeration of failure states. *)
Inductive Failure : Type :=
| ValidationError
| PoseDetectionFailure
| CalibrationError
| CategoryNotFound.

(** Modelled from the spec: the engine's code is missing.  Section 3, the
    measurement profile; only [chest] is nullable. *)
Record MeasurementProfile : Type := {
  shoulder_width : R;
  chest : option R;
  waist : R;
  hip : R;
  height : R;
  inseam : R;
  units : Api.Units
}.

(** Modelled from the spec: the engine's code is missing.  Section 4.7: a
    stage ends with its result or with one of the failures. *)
Inductive Outcome (A : Type) : Type :=
| Succeeded (result : A)
| Failed (failure : Failure).
Arguments Succeeded {A} result.
Arguments Failed {A} failure.

(** Modelled from the spec: the engine's code is missing.  Section 6,
    [success] of a response. *)
Definition success {A : Type} (o : Outcome A) : bool :=
  match o with
  | Succeeded _ => true
  | Failed _ => false
  end.

(** The test [a < b] on lengths. *)
Definition ltb (a b : R) : bool := if Rlt_dec a b then true else false.

(** *** 4.5 Garment catalog *)

(** Modelled from the spec: the engine's code is missing.  Section 3,
    the six measurements. *)
Inductive Measurement : Type :=
| ShoulderWidth | Chest | Waist | Hip | Height | Inseam.

(** Modelled from the spec: the engine's code is missing.  The value
    a profile holds for a measurement; [None] for a null chest. *)
Definition actual (p : MeasurementProfile) (m : Measurement) : option R :=
  match m with
  | ShoulderWidth => Some (shoulder_width p)
  | Chest => chest p
  | Waist => Some (waist p)
  | Hip => Some (hip p)
  | Height => Some (height p)
  | Inseam => Some (inseam p)
  end.

(** Modelled from the spec: the engine's code is missing.  Section 3, a
    size band: a label and the (min, max) range of each measurement
    relevant to the category. *)
Record Range : Type := { measurement : Measurement; range_min : R; range_max : R }.

Record SizeBand : Type := {
  label : string;
  ranges : list Range
}.

(** Modelled from the spec: the engine's code is missing.  Section 4.5, a
    catalog entry: the display name and the size bands, smallest first. *)
Record GarmentCategory : Type := {
  key : string;
  display_name : string;
  bands : list SizeBand
}.

(** Modelled from the spec: the engine's code is missing.  Section 4.5:
    the table keyed by category, and its lookup. *)
Definition Catalog : Type := list GarmentCategory.

Fixpoint find_category (k : string) (catalog : Catalog) : option GarmentCategory :=
  match catalog with
  | [] => None
  | c :: rest => if String.eqb (key c) k then Some c else find_category k rest
  end.

(** *** 4.6 Size fit scorer *)

(** Modelled from the spec: the engine's code is missing.  Section 4.6,
    step 1: [d = (actual - center) / halfwidth]. *)
Definition deviation (value : R) (r : Range) : R :=
  let center := (range_min r + range_max r) / 2 in
  let halfwidth := (range_max r - range_min r) / 2 in
  (value - center) / halfwidth.

(** Modelled from the spec: the engine's code is missing.  Section 4.6:
    the deviations of the relevant measurements of a band; a measurement the
    profile holds no value for (a null chest) gives none. *)
Definition deviations (p : MeasurementProfile) (b : SizeBand) : list R :=
  flat_map (fun r => match actual p (measurement r) with
                     | Some v => [deviation v r]
                     | None => []
                     end) (ranges b).

Definition sum (l : list R) : R := fold_right Rplus 0 l.

(** Modelled from the spec: the engine's code is missing.  Section 4.6,
    step 2: the root mean square of the deviations. *)
Definition root_mean_square (ds : list R) : R :=
  sqrt (sum (map (fun d => d * d) ds) / INR (List.length ds)).

(** Modelled from the spec: the engine's code is missing.  Section 4.6,
    [clamp(v, lo, hi)]. *)
Definition clamp (v lo hi : R) : R := Rmax lo (Rmin hi v).

(** Modelled from the spec: the engine's code is missing.  Section 4.6,
    step 3: [fit_score = clamp(1 - aggregate_deviation, 0, 1)]. *)
Definition fit_score_of (p : MeasurementProfile) (b : SizeBand) : R :=
  clamp (1 - root_mean_square (deviations p b)) 0 1.

(** Modelled from the spec: the engine's code is missing.  Section 3, a
    size recommendation, with the fields the ranking reads. *)
Record SizeRecommendation : Type := {
  size : string;
  fit_score : R
}.

(** Modelled from the spec: the engine's code is missing.  Section 4.6:
    the recommendation made for one band. *)
Definition score_band (p : MeasurementProfile) (b : SizeBand) : SizeRecommendation :=
  {| size := label b; fit_score := fit_score_of p b |}.

(** *** 4.7 Recommendation assembler *)

(** Modelled from the spec: the engine's code is missing.  Sections 4.6 and
    4.7: a recommendation goes before the first one that does not score
    strictly higher, so of two bands with the same score the one that
    comes first in the catalog, the smaller size, stays first. *)
Fixpoint insert_by_score (r : SizeRecommendation) (sorted : list SizeRecommendation)
  : list SizeRecommendation :=
  match sorted with
  | [] => [r]
  | s :: rest =>
      if ltb (fit_score r) (fit_score s) then s :: insert_by_score r rest
      else r :: s :: rest
  end.

(** Modelled from the spec: the engine's code is missing.  Section 4.7:
    the bands sorted by fit score, descending. *)
Definition sort_by_score (l : list SizeRecommendation) : list SizeRecommendation :=
  fold_right insert_by_score [] l.

(** Modelled from the spec: the engine's code is missing.  Section 3:
    the order of the recommendations, fit score descending. *)
Definition scores_descend (a b : SizeRecommendation) : Prop :=
  fit_score b <= fit_score a.

(** Modelled from the spec: the engine's code is missing.  Section 3, the
    recommendation response. *)
Record RecommendationResponse : Type := {
  garment_category : string;
  garment_name : string;
  recommendations : list SizeRecommendation
}.

(** Modelled from the spec: the engine's code is missing.  Section 4.7:
    every band of the category is scored, the scores are sorted descending
    and packaged with the catalog's display name and the requested
    category; an unknown category fails. *)
Definition recommend (catalog : Catalog) (category : string) (p : MeasurementProfile)
  : Outcome RecommendationResponse :=
  match find_category category catalog with
  | None => Failed CategoryNotFound
  | Some c =>
      Succeeded {| garment_category := category;
                   garment_name := display_name c;
                   recommendations := sort_by_score (map (score_band p) (bands c)) |}
  end.

End Engine.

(** ** The outfit gallery

    [frontend/src/components/ClothCatalog.tsx] *)
Module ClothCatalog.

Local Open Scope string_scope.

(** [CLOTH_DATA] *)
Definition CLOTH_DATA : list Studio.ClothItem :=
  [
    {| Studio.id := "15"; Studio.title := "Casual Autumn Combo";
       Studio.brand := "Metro vibe"; Studio.category := "Casual";
       Studio.image := "/mustard-jacket-outfit.jpg" |};
    {| Studio.id := "14"; Studio.title := "Classic Black Formal Suit";
       Studio.brand := "Aristocrat"; Studio.category := "Formal";
       Studio.image := "/black-formal-suit.png" |};
    {| Studio.id := "13"; Studio.title := "Urban Comfort Brown Set";
       Studio.brand := "Metro vibe"; Studio.category := "Casual";
       Studio.image := "/brown-ribbed-set.png" |};
    {| Studio.id := "12"; Studio.title := "Classic Checkered Casual";
       Studio.brand := "Executive"; Studio.category := "Casual";
       Studio.image := "/blue-check-outfit.png" |};
    {| Studio.id := "11"; Studio.title := "Smart Casual Maroon Combo";
       Studio.brand := "Executive"; Studio.category := "Casual";
       Studio.image := "/burgundy-outfit.jpg" |};
    {| Studio.id := "1"; Studio.title := "Executive Navy Suit";
       Studio.brand := "Aristocrat"; Studio.category := "Formal";
       Studio.image := "https://images.unsplash.com/photo-1507679799987-c7377ec48696?auto=format&fit=crop&q=80&w=800" |};
    {| Studio.id := "2"; Studio.title := "Floral Spring Dress";
       Studio.brand := "Bloom"; Studio.category := "Summer";
       Studio.image := "https://images.unsplash.com/photo-1539008835279-43467f5303a9?auto=format&fit=crop&q=80&w=800" |};
    {| Studio.id := "3"; Studio.title := "Urban Streetwear Combo";
       Studio.brand := "Metro vibe"; Studio.category := "Streetwear";
       Studio.image := "https://images.unsplash.com/photo-1523381210434-271e8be1f52b?auto=format&fit=crop&q=80&w=800" |};
    {| Studio.id := "4"; Studio.title := "Premium Gym Set";
       Studio.brand := "Active Pro"; Studio.category := "Sportswear";
       Studio.image := "https://images.unsplash.com/photo-1483721310020-03333e577078?auto=format&fit=crop&q=80&w=800" |};
    {| Studio.id := "5"; Studio.title := "Linen Summer Set";
       Studio.brand := "Coastal"; Studio.category := "Summer";
       Studio.image := "https://images.unsplash.com/photo-1469334031218-e382a71b716b?auto=format&fit=crop&q=80&w=800" |};
    {| Studio.id := "6"; Studio.title := "Casual Weekend Look";
       Studio.brand := "Daily Wear"; Studio.category := "Casual";
       Studio.image := "https://images.unsplash.com/photo-1515886657613-9f3515b0c78f?auto=format&fit=crop&q=80&w=800" |};
    {| Studio.id := "7"; Studio.title := "Modern Tuxedo";
       Studio.brand := "Black Tie"; Studio.category := "Formal";
       Studio.image := "https://images.unsplash.com/photo-1593032465106-47eb04433695?auto=format&fit=crop&q=80&w=800" |};
    {| Studio.id := "8"; Studio.title := "Vintage Denim Look";
       Studio.brand := "Indigo Heritage"; Studio.category := "Streetwear";
       Studio.image := "https://images.unsplash.com/photo-1516762689617-e1cffcef479d?auto=format&fit=crop&q=80&w=800" |};
    {| Studio.id := "9"; Studio.title := "Boho Chic Outfit";
       Studio.brand := "Free Spirit"; Studio.category := "Style";
       Studio.image := "https://images.unsplash.com/photo-1520975954732-45dd21d83192?auto=format&fit=crop&q=80&w=800" |};
    {| Studio.id := "10"; Studio.title := "Work From Home Classic";
       Studio.brand := "Relaxed"; Studio.category := "Casual";
       Studio.image := "https://images.unsplash.com/photo-1552374196-1ab2a1c593e8?auto=format&fit=crop&q=80&w=800" |}
  ].

(** [CATEGORIES] *)
Definition CATEGORIES : list string :=
  ["All"; "Formal"; "Casual"; "Streetwear"; "Sportswear"; "Summer"; "Style"].

(** [matchesSearch] of the callback of [CLOTH_DATA.filter] *)
Definition matchesSearch (searchQuery : string) (item : Studio.ClothItem) : bool :=
  JS.includes (JS.toLowerCase (Studio.title item)) (JS.toLowerCase searchQuery) ||
  JS.includes (JS.toLowerCase (Studio.brand item)) (JS.toLowerCase searchQuery).

(** [matchesCategory] of the callback of [CLOTH_DATA.filter] *)
Definition matchesCategory (activeCategory : string) (item : Studio.ClothItem) : bool :=
  JS.strictEq activeCategory "All" ||
  JS.strictEq (Studio.category item) activeCategory.

(** [filteredItems] for the state [searchQuery], [activeCategory] *)
Definition filteredItems (searchQuery activeCategory : string)
  : list Studio.ClothItem :=
  filter (fun item => matchesSearch searchQuery item &&
                      matchesCategory activeCategory item)
         CLOTH_DATA.

End ClothCatalog.

(** ** The two requests of the studio

    [handleSimulate] and [handleClothTryOn] of
    [frontend/src/components/VirtualTryOnStudio.tsx], each run to the end of
    its [finally]. *)
Module StudioHandlers.

Local Open Scope string_scope.

(** The [useState] cells of [VirtualTryOnStudio]. *)
Record State : Type := {
  loading : bool;
  tryOnLoading : bool;
  resultImage : option string;
  baseAvatar : option string;
  error : option string;
  selectedClothes : list Studio.ClothItem
}.

Definition setLoading (b : bool) (st : State) : State :=
  {| loading := b; tryOnLoading := tryOnLoading st;
     resultImage := resultImage st; baseAvatar := baseAvatar st;
     error := error st; selectedClothes := selectedClothes st |}.

Definition setTryOnLoading (b : bool) (st : State) : State :=
  {| loading := loading st; tryOnLoading := b;
     resultImage := resultImage st; baseAvatar := baseAvatar st;
     error := error st; selectedClothes := selectedClothes st |}.

Definition setResultImage (u : option string) (st : State) : State :=
  {| loading := loading st; tryOnLoading := tryOnLoading st;
     resultImage := u; baseAvatar := baseAvatar st;
     error := error st; selectedClothes := selectedClothes st |}.

Definition setBaseAvatar (u : option string) (st : State) : State :=
  {| loading := loading st; tryOnLoading := tryOnLoading st;
     resultImage := resultImage st; baseAvatar := u;
     error := error st; selectedClothes := selectedClothes st |}.

Definition setError (e : option string) (st : State) : State :=
  {| loading := loading st; tryOnLoading := tryOnLoading st;
     resultImage := resultImage st; baseAvatar := baseAvatar st;
     error := e; selectedClothes := selectedClothes st |}.

(** The body a [fetch(url)] followed by [.blob()] yields. *)
Inductive Blob : Type := blobOf (url : string).

(** How [fetch(url)] and [.blob()] settle. *)
Inductive Fetched : Type :=
| FetchedBlob (b : Blob)
| FetchRejected (message : string).

(** A field of a [FormData]: a blob with its file name, or a text. *)
Inductive FormValue : Type :=
| FilePart (b : Blob) (filename : string)
| TextPart (value : string).

Definition FormData : Type := list (string * FormValue).

(** How [axios.post] settles: with [response.data], or rejected with an
    error of the given [message]. *)
Inductive Posted : Type :=
| Responded (data : JS.Value)
| PostRejected (message : string).

(** What a handler did besides setting state: the forms it posted, with
    their URLs, and the alerts it raised. *)
Record Effects : Type := {
  posts : list (string * FormData);
  alerts : list string
}.

Definition N8N_AVATAR_WEBHOOK : string := "https://n8n.intelligens.app/webhook/avatar_url".
Definition N8N_CLOTH_WEBHOOK : string := "https://n8n.intelligens.app/webhook/cloth_json_data".

(** [message || fallback] *)
Definition orFallback (message fallback : string) : string :=
  if JS.truthy (JS.Str message) then message else fallback.

(** [image || ''] for [string | null] *)
Definition orEmpty (image : option string) : string :=
  match image with
  | Some u => u
  | None => ""
  end.

Section Handlers.

(** The runtime and the network: [JSON.parse], the outcome of fetching a
    URL as a blob, the outcome of a post, the [message] of a runtime error,
    [JSON.stringify] of the selection and [new Date().toISOString()]. *)
Variable JSON_parse : string -> option JS.Value.
Variable fetchBlob : string -> Fetched.
Variable post : string -> FormData -> Posted.
Variable messageOf : JS.Error -> string.
Variable stringify : list Studio.ClothItem -> string.
Variable timestamp : string.

(** The [outfit] field of [handleSimulate]. *)
Definition outfit (st : State) : string :=
  match selectedClothes st with
  | first :: _ => Studio.title first
  | [] => "Casual Suit"
  end.

(** What [handleSimulate] does with [response.data]. *)
Definition receiveAvatar (data : JS.Value) (st : State) : State :=
  if JS.truthy data then
    match Studio.extractImageUrl JSON_parse data with
    | JS.Return (Some imageUrl) =>
        if JS.truthy (JS.Str imageUrl) then
          setBaseAvatar (Some imageUrl) (setResultImage (Some imageUrl) st)
        else
          setError (Some "Webhook response did not contain a valid image link.") st
    | JS.Return None =>
        setError (Some "Webhook response did not contain a valid image link.") st
    | JS.Throw e =>
        setError (Some (orFallback (messageOf e) "Failed to process virtual try-on.")) st
    end
  else setError (Some "Webhook response was empty.") st.

(** [handleSimulate()] for the prop [userImage]. *)
Definition handleSimulate (userImage : string) (st : State) : State * Effects :=
  let started := setError None (setLoading true st) in
  match fetchBlob userImage with
  | FetchRejected message =>
      (setLoading false
         (setError (Some (orFallback message "Failed to process virtual try-on."))
                   started),
       {| posts := []; alerts := [] |})
  | FetchedBlob b =>
      let formData := [ ("image", FilePart b "image.png");
                        ("outfit", TextPart (outfit st)) ] in
      let settled :=
        match post N8N_AVATAR_WEBHOOK formData with
        | Responded data => receiveAvatar data started
        | PostRejected message =>
            setError (Some (orFallback message "Failed to process virtual try-on."))
                     started
        end in
      (setLoading false settled,
       {| posts := [(N8N_AVATAR_WEBHOOK, formData)]; alerts := [] |})
  end.

(** The fields [handleClothTryOn] appends after the avatar: the avatar URL,
    the image of the first selected cloth when it can be fetched, the
    selection and the time. *)
Definition clothFields (st : State) : FormData :=
  ([ ("avatar_url", TextPart (orEmpty (resultImage st))) ] ++
  match selectedClothes st with
  | first :: _ =>
      match fetchBlob (Studio.image first) with
      | FetchedBlob b => [ ("cloth_image", FilePart b "cloth.png") ]
      | FetchRejected _ => []
      end
  | [] => []
  end ++
  [ ("selected_clothes", TextPart (stringify (selectedClothes st)));
    ("timestamp", TextPart timestamp) ])%list.

(** What [handleClothTryOn] does once its form is complete. *)
Definition sendCloth (formData : FormData) (st : State) : State * Effects :=
  match post N8N_CLOTH_WEBHOOK formData with
  | Responded data =>
      if JS.truthy data then
        match Studio.extractImageUrl JSON_parse data with
        | JS.Return (Some imageUrl) =>
            if JS.truthy (JS.Str imageUrl) then
              (setResultImage (Some imageUrl) st,
               {| posts := [(N8N_CLOTH_WEBHOOK, formData)];
                  alerts := ["Cloth Try-On updated successfully!"] |})
            else
              (st,
               {| posts := [(N8N_CLOTH_WEBHOOK, formData)];
                  alerts := ["Cloth Try-On request sent, but no image URL was returned."] |})
        | JS.Return None =>
            (st,
             {| posts := [(N8N_CLOTH_WEBHOOK, formData)];
                alerts := ["Cloth Try-On request sent, but no image URL was returned."] |})
        | JS.Throw e =>
            (setError (Some (orFallback (messageOf e)
                                        "Failed to send cloth try-on request.")) st,
             {| posts := [(N8N_CLOTH_WEBHOOK, formData)]; alerts := [] |})
        end
      else (st, {| posts := [(N8N_CLOTH_WEBHOOK, formData)]; alerts := [] |})
  | PostRejected message =>
      (setError (Some (orFallback message "Failed to send cloth try-on request.")) st,
       {| posts := [(N8N_CLOTH_WEBHOOK, formData)]; alerts := [] |})
  end.

(** [handleClothTryOn()] *)
Definition handleClothTryOn (st : State) : State * Effects :=
  match selectedClothes st with
  | [] =>
      (setError (Some "Please select at least one item of clothing.") st,
       {| posts := []; alerts := [] |})
  | _ :: _ =>
      let started := setError None (setTryOnLoading true st) in
      let avatar :=
        if JS.truthy (JS.Str (orEmpty (baseAvatar st))) then
          match fetchBlob (orEmpty (baseAvatar st)) with
          | FetchedBlob b => Some [ ("image", FilePart b "avatar.png") ]
          | FetchRejected _ => None
          end
        else Some [] in
      match avatar with
      | None =>
          (setTryOnLoading false
             (setError
                (Some (orFallback "Could not process original avatar image for try-on."
                                  "Failed to send cloth try-on request."))
                started),
           {| posts := []; alerts := [] |})
      | Some avatarField =>
          let sent := sendCloth (avatarField ++ clothFields st)%list started in
          (setTryOnLoading false (fst sent), snd sent)
      end
  end.

End Handlers.

(** An image cell holds nothing or a link. *)
Definition linkOrNull (image : option string) : Prop :=
  match image with
  | Some u => Studio.isImageLink u = true
  | None => True
  end.

End StudioHandlers.

(** ** The login and registration page

    [backend/static/js/auth.js] *)
Module Auth.

Local Open Scope string_scope.

(** A tab of [.auth-tab]: its [data-tab] attribute, if any, and whether it
    carries the class [active]. *)
Record Tab : Type := {
  dataset_tab : option string;
  active : bool
}.

(** A submit button with its text and its spinner. *)
Record Button : Type := {
  disabled : bool;
  text_display : string;
  spinner_display : string
}.

(** The two message boxes. *)
Record Messages : Type := {
  errorMessage_display : string;
  errorText_textContent : string;
  successMessage_display : string;
  successText_textContent : string
}.

(** What the code of the page reads or writes: the document, the local
    storage and the address. *)
Record Page : Type := {
  authTabs : list Tab;
  loginForm_display : string;
  registerForm_display : string;
  messages : Messages;
  loginBtn : Button;
  registerBtn : Button;
  localStorage : list (string * string);
  location_href : string
}.

Definition set_authTabs (tabs : list Tab) (p : Page) : Page :=
  {| authTabs := tabs;
     loginForm_display := loginForm_display p;
     registerForm_display := registerForm_display p;
     messages := messages p; loginBtn := loginBtn p;
     registerBtn := registerBtn p; localStorage := localStorage p;
     location_href := location_href p |}.

Definition set_forms (login register : string) (p : Page) : Page :=
  {| authTabs := authTabs p;
     loginForm_display := login;
     registerForm_display := register;
     messages := messages p; loginBtn := loginBtn p;
     registerBtn := registerBtn p; localStorage := localStorage p;
     location_href := location_href p |}.

Definition set_messages (m : Messages) (p : Page) : Page :=
  {| authTabs := authTabs p;
     loginForm_display := loginForm_display p;
     registerForm_display := registerForm_display p;
     messages := m; loginBtn := loginBtn p;
     registerBtn := registerBtn p; localStorage := localStorage p;
     location_href := location_href p |}.

Definition set_loginBtn (b : Button) (p : Page) : Page :=
  {| authTabs := authTabs p;
     loginForm_display := loginForm_display p;
     registerForm_display := registerForm_display p;
     messages := messages p; loginBtn := b;
     registerBtn := registerBtn p; localStorage := localStorage p;
     location_href := location_href p |}.

Definition set_registerBtn (b : Button) (p : Page) : Page :=
  {| authTabs := authTabs p;
     loginForm_display := loginForm_display p;
     registerForm_display := registerForm_display p;
     messages := messages p; loginBtn := loginBtn p;
     registerBtn := b; localStorage := localStorage p;
     location_href := location_href p |}.

Definition set_location_href (href : string) (p : Page) : Page :=
  {| authTabs := authTabs p;
     loginForm_display := loginForm_display p;
     registerForm_display := registerForm_display p;
     messages := messages p; loginBtn := loginBtn p;
     registerBtn := registerBtn p; localStorage := localStorage p;
     location_href := href |}.

(** [localStorage.getItem(key)]: [None] is [null]. *)
Fixpoint getItem (key : string) (store : list (string * string)) : option string :=
  match store with
  | [] => None
  | (k, v) :: rest => if JS.strictEq k key then Some v else getItem key rest
  end.

(** [localStorage.setItem(key, value)] *)
Definition setItem (key value : string) (p : Page) : Page :=
  {| authTabs := authTabs p;
     loginForm_display := loginForm_display p;
     registerForm_display := registerForm_display p;
     messages := messages p; loginBtn := loginBtn p;
     registerBtn := registerBtn p;
     localStorage :=
       (key, value)
         :: filter (fun kv => negb (JS.strictEq (fst kv) key)) (localStorage p);
     location_href := location_href p |}.

(** [showError(message)] *)
Definition showError (message : string) (p : Page) : Page :=
  set_messages
    {| errorText_textContent := message;
       errorMessage_display := "flex";
       successMessage_display := "none";
       successText_textContent := successText_textContent (messages p) |} p.

(** [showSuccess(message)] *)
Definition showSuccess (message : string) (p : Page) : Page :=
  set_messages
    {| successText_textContent := message;
       successMessage_display := "flex";
       errorMessage_display := "none";
       errorText_textContent := errorText_textContent (messages p) |} p.

(** [hideMessages()] *)
Definition hideMessages (p : Page) : Page :=
  set_messages
    {| errorMessage_display := "none";
       successMessage_display := "none";
       errorText_textContent := errorText_textContent (messages p);
       successText_textContent := successText_textContent (messages p) |} p.

(** The button while a request runs, and after it failed. *)
Definition busy : Button :=
  {| disabled := true; text_display := "none"; spinner_display := "block" |}.
Definition idle : Button :=
  {| disabled := false; text_display := "inline"; spinner_display := "none" |}.

(** The class [active] moved to the tab of index [i]. *)
Definition activate (i : nat) (tabs : list Tab) : list Tab :=
  map (fun entry =>
         {| dataset_tab := dataset_tab (snd entry);
            active := Nat.eqb (fst entry) i |})
      (combine (seq 0 (List.length tabs)) tabs).

(** The click listener of a tab, run by [authTabs[i].click()]; without a
    tab of that index the call throws a TypeError. *)
Definition clickTab (i : nat) (p : Page) : JS.Completion Page :=
  match nth_error (authTabs p) i with
  | None => JS.Throw JS.TypeError
  | Some tab =>
      let shown :=
        match dataset_tab tab with
        | Some tabName =>
            if JS.strictEq tabName "login" then set_forms "block" "none"
            else set_forms "none" "block"
        | None => set_forms "none" "block"
        end in
      JS.Return (hideMessages (shown (set_authTabs (activate i (authTabs p)) p)))
  end.

(** The two requests of the page, each with the fields of its JSON body:
    a POST to [/api/auth/login] and a POST to [/api/auth/register]. *)
Inductive Request : Type :=
| PostLogin (username password : string)
| PostRegister (email username password confirm_password : string).

Definition API_BASE : string := "/api/auth".

Definition url (req : Request) : string :=
  match req with
  | PostLogin _ _ => API_BASE ++ "/login"
  | PostRegister _ _ _ _ => API_BASE ++ "/register"
  end.

(** What [response.json()] settles to: the parsed body, or a rejection. *)
Inductive Body : Type :=
| Json (result : JS.Value)
| NotJson (message : string).

(** How [fetch] settles: rejected, or a response with its [ok] flag and
    its body. *)
Inductive Fetched : Type :=
| Rejected (message : string)
| Responded (ok : bool) (body : Body).

(** What a submit handler leaves for later with [setTimeout]. *)
Inductive Timer : Type :=
| Redirect
| AutoLogin (email password : string).

Section Handlers.

(** The network and the runtime: how a request settles, the [message] of a
    runtime error, the text of a value that is no string (what [new Error]
    and [localStorage.setItem] make of it) and [JSON.stringify]. *)
Variable fetch : Request -> Fetched.
Variable messageOf : JS.Error -> string.
Variable toString : JS.Value -> string.
Variable stringify : JS.Value -> string.

(** ToString *)
Definition text (v : JS.Value) : string :=
  match v with
  | JS.Str s => s
  | _ => toString v
  end.

(** [throw new Error(result.detail || fallback)], as the message the
    [catch] block receives. *)
Definition detailOr (result : JS.Value) (fallback : string) : string :=
  match JS.get result "detail" with
  | JS.Return detail => text (JS.or detail (JS.Str fallback))
  | JS.Throw e => messageOf e
  end.

(** The [catch] block of the login handler. *)
Definition loginFailed (message : string) (p : Page) : Page :=
  set_loginBtn idle (showError message p).

(** The submit listener of the login form, for the values of its two
    fields: the page it leaves, the requests it sent, and its timer. *)
Definition loginSubmit (username_field password_field : string) (p : Page)
  : Page * list Request * option Timer :=
  let p := hideMessages p in
  let username := JS.trim username_field in
  let password := password_field in
  if negb (JS.truthy (JS.Str username)) || negb (JS.truthy (JS.Str password)) then
    (showError "Please fill in all fields" p, [], None)
  else
    let p := set_loginBtn busy p in
    let req := PostLogin username password in
    match fetch req with
    | Rejected message => (loginFailed message p, [req], None)
    | Responded _ (NotJson message) => (loginFailed message p, [req], None)
    | Responded ok (Json result) =>
        if negb ok then
          (loginFailed (detailOr result "Login failed") p, [req], None)
        else
          match JS.get result "access_token" with
          | JS.Throw e => (loginFailed (messageOf e) p, [req], None)
          | JS.Return access_token =>
              let p := setItem "auth_token" (text access_token) p in
              let p := setItem "user" (stringify (JS.lookup "user" (JS.entries result))) p in
              (showSuccess "Login successful! Redirecting..." p, [req], Some Redirect)
          end
    end.

(** The [catch] block of the registration handler. *)
Definition registerFailed (message : string) (p : Page) : Page :=
  set_registerBtn idle (showError message p).

(** The submit listener of the registration form, for the values of its
    four fields. *)
Definition registerSubmit
    (email_field username_field password_field confirm_field : string) (p : Page)
  : Page * list Request * option Timer :=
  let p := hideMessages p in
  let email := JS.trim email_field in
  let username := JS.trim username_field in
  let password := password_field in
  let confirm_password := confirm_field in
  if negb (JS.truthy (JS.Str email)) || negb (JS.truthy (JS.Str username))
     || negb (JS.truthy (JS.Str password))
     || negb (JS.truthy (JS.Str confirm_password)) then
    (showError "Please fill in all fields" p, [], None)
  else if negb (JS.strictEq password confirm_password) then
    (showError "Passwords do not match" p, [], None)
  else if (String.length password <? 8)%nat then
    (showError "Password must be at least 8 characters" p, [], None)
  else if (String.length username <? 3)%nat then
    (showError "Username must be at least 3 characters" p, [], None)
  else
    let p := set_registerBtn busy p in
    let req := PostRegister email username password confirm_password in
    match fetch req with
    | Rejected message => (registerFailed message p, [req], None)
    | Responded _ (NotJson message) => (registerFailed message p, [req], None)
    | Responded ok (Json result) =>
        if negb ok then
          (registerFailed (detailOr result "Registration failed") p, [req], None)
        else
          (showSuccess "Account created! Logging you in..." p, [req],
           Some (AutoLogin email password))
    end.

(** The [catch] block of the automatic login: [authTabs[0].click()], then
    the message; when the click throws, the message is not shown. *)
Definition autoLoginFailed (p : Page) : Page :=
  match clickTab 0 p with
  | JS.Return p => showSuccess "Account created! Please login." p
  | JS.Throw _ => p
  end.

(** A timer's callback: the redirect of the login handler, or the automatic
    login of the registration handler. *)
Definition runTimer (t : Timer) (p : Page) : Page * list Request :=
  match t with
  | Redirect => (set_location_href "/app" p, [])
  | AutoLogin email password =>
      let req := PostLogin email password in
      match fetch req with
      | Rejected _ => (autoLoginFailed p, [req])
      | Responded _ (NotJson _) => (autoLoginFailed p, [req])
      | Responded ok (Json loginResult) =>
          if ok then
            match JS.get loginResult "access_token" with
            | JS.Throw _ => (autoLoginFailed p, [req])
            | JS.Return access_token =>
                let p := setItem "auth_token" (text access_token) p in
                let p := setItem "user"
                           (stringify (JS.lookup "user" (JS.entries loginResult))) p in
                (set_location_href "/app" p, [req])
            end
          else (p, [req])
      end
  end.

(** A submit handler followed by its timer, if it left one. *)
Definition settle (run : Page * list Request * option Timer)
  : Page * list Request :=
  match run with
  | (p, sent, Some t) =>
      (fst (runTimer t p), (sent ++ snd (runTimer t p))%list)
  | (p, sent, None) => (p, sent)
  end.

End Handlers.

(** At most one of the two message boxes is displayed. *)
Definition atMostOneMessage (p : Page) : Prop :=
  errorMessage_display (messages p) = "none" \/
  successMessage_display (messages p) = "none".

(** The fields of a registration form that passes every check of the
    submit listener. *)
Definition validRegistration
    (email_field username_field password_field confirm_field : string) : Prop :=
  JS.trim email_field <> "" /\ password_field <> "" /\
  password_field = confirm_field /\
  8 <= String.length password_field /\
  3 <= String.length (JS.trim username_field).

(** The last statement of the script: a page opened with a token in the
    storage leaves for [/app]. *)
Definition openPage (p : Page) : Page :=
  match getItem "auth_token" (localStorage p) with
  | Some token => if JS.truthy (JS.Str token) then set_location_href "/app" p else p
  | None => p
  end.

End Auth.

(** ** The session and the history of the static page

    [backend/static/js/script.js]: [auth], [checkAuth], [logout],
    [fetchHistory] and [displayHistory]. *)
Module History.

Local Open Scope string_scope.

(** The [auth] object, read from the storage when the script loads, with
    the storage and the address. *)
Record Session : Type := {
  token : option string;
  user : JS.Value;
  localStorage : list (string * string);
  location_href : string
}.

(** [localStorage.removeItem(key)] *)
Definition removeItem (key : string) (store : list (string * string))
  : list (string * string) :=
  filter (fun kv => negb (JS.strictEq (fst kv) key)) store.

(** [!auth.token] *)
Definition noToken (s : Session) : bool :=
  match token s with
  | Some t => negb (JS.truthy (JS.Str t))
  | None => true
  end.

(** [logout()] *)
Definition logout (s : Session) : Session :=
  {| token := token s; user := user s;
     localStorage := removeItem "user" (removeItem "auth_token" (localStorage s));
     location_href := "/" |}.

(** [checkAuth()]: its result, and the session it leaves. *)
Definition checkAuth (s : Session) : bool * Session :=
  if noToken s || negb (JS.truthy (user s)) then
    (false,
     {| token := token s; user := user s; localStorage := localStorage s;
        location_href := "/" |})
  else (true, s).

(** An entry of [data.history], as the server's schema has it; [None] is
    [null]. *)
Record HistoryItem : Type := {
  created_at : string;
  item_measurements : option Api.Measurements;
  item_units : string;
  item_gender : option string;
  item_height : JS.Value
}.

(** What [displayHistory] prints of an entry: the date, the gender with its
    first letter in upper case, the height and the unit, and the chest,
    waist and hip that [toFixed(1)] formats. *)
Record HistoryRow : Type := {
  row_date : string;
  row_gender : string;
  row_height : JS.Value;
  row_units : string;
  row_chest : Q;
  row_waist : Q;
  row_hip : Q
}.

(** The content of [elements.historyList]: the markup of the document, the
    notice of class [history-empty] that reads [No measurements yet.], or the
    rows appended after [innerHTML = '']. *)
Inductive HistoryList : Type :=
| Markup (html : string)
| EmptyNotice
| Rows (rows : list HistoryRow).

(** The history section: [elements.historyList], if the page has one, and
    the [display] of [elements.historySection]. *)
Record Section_ : Type := {
  historyList : option HistoryList;
  historySection_display : string
}.

Record Page : Type := {
  session : Session;
  section : Section_
}.

(** The header of a request: [`Bearer ${auth.token}`]. *)
Definition bearer (s : Session) : string :=
  "Bearer " ++ match token s with
               | Some t => t
               | None => "null"
               end.

(** How the request for the history settles: rejected, or a response with
    its status and what [response.json()] gives: the fields [success] and
    [history] of the body, or a rejection. *)
Inductive Body : Type :=
| Json (success : bool) (history : option (list HistoryItem))
| NotJson.

Inductive Fetched : Type :=
| Rejected
| Responded (status : nat) (body : Body).

Section Display.

(** [new Date(created_at).toLocaleString()] and
    [gender.charAt(0).toUpperCase() + gender.slice(1)] of the runtime. *)
Variable toLocaleString : string -> string.
Variable capitalize : string -> string.

(** [x.toFixed(1)] for a measurement: on [null] it throws. *)
Definition toFixed (x : option Q) : JS.Completion Q :=
  match x with
  | Some q => JS.Return q
  | None => JS.Throw JS.TypeError
  end.

(** The callback of [history.forEach], up to [appendChild]. *)
Definition historyRow (item : HistoryItem) : JS.Completion HistoryRow :=
  let date := toLocaleString (created_at item) in
  let units := if JS.strictEq (item_units item) "imperial" then "in" else "cm" in
  match item_gender item with
  | None => JS.Throw JS.TypeError
  | Some gender =>
      match item_measurements item with
      | None => JS.Throw JS.TypeError
      | Some m =>
          JS.bind (toFixed (Api.chest m)) (fun chest =>
          JS.bind (toFixed (Api.waist m)) (fun waist =>
          JS.bind (toFixed (Api.hip m)) (fun hip =>
          JS.Return {| row_date := date;
                       row_gender := capitalize gender;
                       row_height := item_height item;
                       row_units := units;
                       row_chest := chest;
                       row_waist := waist;
                       row_hip := hip |})))
      end
  end.

(** [history.forEach(...)]: the rows appended so far, and the error that
    ended the loop, if any. *)
Fixpoint appendRows (history : list HistoryItem) (shown : list HistoryRow)
  : list HistoryRow * option JS.Error :=
  match history with
  | [] => (shown, None)
  | item :: rest =>
      match historyRow item with
      | JS.Return row => appendRows rest (shown ++ [row])
      | JS.Throw e => (shown, Some e)
      end
  end.

(** [displayHistory(history)]: the section it leaves, and the error it
    throws, if any. *)
Definition displayHistory (history : option (list HistoryItem)) (sec : Section_)
  : Section_ * option JS.Error :=
  match historyList sec with
  | None => (sec, None)
  | Some _ =>
      match history with
      | None | Some [] =>
          ({| historyList := Some EmptyNotice;
              historySection_display := "block" |}, None)
      | Some items =>
          ({| historyList := Some (Rows (fst (appendRows items [])));
              historySection_display := "block" |},
           snd (appendRows items []))
      end
  end.

(** The network: how the request for the history settles, given its
    [Authorization] header. *)
Variable fetch : string -> Fetched.

(** [fetchHistory()]: the page it leaves and the [Authorization] headers of
    the requests it sent.  What [displayHistory] throws is caught and
    logged. *)
Definition fetchHistory (p : Page) : Page * list string :=
  if noToken (session p) then (p, [])
  else
    let header := bearer (session p) in
    match fetch header with
    | Rejected => (p, [header])
    | Responded status body =>
        if Nat.eqb status 401 then
          ({| session := logout (session p); section := section p |}, [header])
        else
          match body with
          | NotJson => (p, [header])
          | Json success history =>
              if success then
                ({| session := session p;
                    section := fst (displayHistory history (section p)) |},
                 [header])
              else (p, [header])
          end
    end.

End Display.

(** An entry that [displayHistory] can print. *)
Definition printable (item : HistoryItem) : Prop :=
  item_gender item <> None /\
  exists m, item_measurements item = Some m /\
            Api.chest m <> None /\ Api.waist m <> None /\ Api.hip m <> None.

End History.

(** ** The calculation of the static page

    [backend/static/js/script.js]: [removeImage], [calculateMeasurements]
    and what [displayResults] does to the page. *)
Module Measure.

Local Open Scope string_scope.

(** The controls of the form that [Script.Elements] leaves out. *)
Record Controls : Type := {
  frontInput_value : string;
  sideInput_value : string;
  unitsSelect_value : string;
  btnText_textContent : string;
  loadingSpinner_display : string
}.

(** The results: [state.measurements], [state.landmarks], the cards of the
    measurements grid, the landmarks last handed to [drawSkeleton] (whether
    or not it painted them to the end) and the [display] of the results
    section. *)
Record Results : Type := {
  measurements : option Api.Measurements;
  landmarks : option (option JS.Value * option JS.Value);
  measurementsGrid : list Script.MeasurementCard;
  skeleton : option JS.Value;
  resultsSection_display : string
}.

(** The category select: the values of its options and its value. *)
Record Select : Type := {
  options : list string;
  value : string
}.

Record App : Type := {
  form : Script.Page;
  controls : Controls;
  results : Results;
  session : History.Session;
  garmentCategories : list Categories.GarmentCategoryInfo;
  garmentCategorySelect : Select
}.

Definition set_form (f : Script.Page) (app : App) : App :=
  {| form := f; controls := controls app; results := results app;
     session := session app; garmentCategories := garmentCategories app;
     garmentCategorySelect := garmentCategorySelect app |}.

Definition set_controls (c : Controls) (app : App) : App :=
  {| form := form app; controls := c; results := results app;
     session := session app; garmentCategories := garmentCategories app;
     garmentCategorySelect := garmentCategorySelect app |}.

Definition set_results (r : Results) (app : App) : App :=
  {| form := form app; controls := controls app; results := r;
     session := session app; garmentCategories := garmentCategories app;
     garmentCategorySelect := garmentCategorySelect app |}.

Definition set_session (s : History.Session) (app : App) : App :=
  {| form := form app; controls := controls app; results := results app;
     session := s; garmentCategories := garmentCategories app;
     garmentCategorySelect := garmentCategorySelect app |}.

Definition set_garmentCategorySelect (sel : Select) (app : App) : App :=
  {| form := form app; controls := controls app; results := results app;
     session := session app; garmentCategories := garmentCategories app;
     garmentCategorySelect := sel |}.

(** [select.value = v]: the option of that value is selected; without one,
    none is and the value reads as the empty string. *)
Definition selectValue (v : string) (sel : Select) : Select :=
  {| options := options sel;
     value := if JS.arrayIncludes (options sel) v then v else "" |}.

(** The button while a request runs, and as [finally] leaves it. *)
Definition set_button (disabled : bool) (text display : string) (app : App) : App :=
  set_controls
    {| frontInput_value := frontInput_value (controls app);
       sideInput_value := sideInput_value (controls app);
       unitsSelect_value := unitsSelect_value (controls app);
       btnText_textContent := text;
       loadingSpinner_display := display |}
    (set_form
       {| Script.state := Script.state (form app);
          Script.elements :=
            Script.set_calculateBtn_disabled disabled (Script.elements (form app)) |}
       app).

(** The previews of [removeImage]. *)
Definition hide_front_preview (e : Script.Elements) : Script.Elements :=
  {| Script.frontPreview_src := Script.frontPreview_src e;
     Script.frontPreview_display := "none";
     Script.frontPlaceholder_display := "flex";
     Script.frontRemove_display := "none";
     Script.sidePreview_src := Script.sidePreview_src e;
     Script.sidePreview_display := Script.sidePreview_display e;
     Script.sidePlaceholder_display := Script.sidePlaceholder_display e;
     Script.sideRemove_display := Script.sideRemove_display e;
     Script.heightInput_value := Script.heightInput_value e;
     Script.calculateBtn_disabled := Script.calculateBtn_disabled e;
     Script.errorText_textContent := Script.errorText_textContent e;
     Script.errorMessage_display := Script.errorMessage_display e |}.

Definition hide_side_preview (e : Script.Elements) : Script.Elements :=
  {| Script.frontPreview_src := Script.frontPreview_src e;
     Script.frontPreview_display := Script.frontPreview_display e;
     Script.frontPlaceholder_display := Script.frontPlaceholder_display e;
     Script.frontRemove_display := Script.frontRemove_display e;
     Script.sidePreview_src := Script.sidePreview_src e;
     Script.sidePreview_display := "none";
     Script.sidePlaceholder_display := "flex";
     Script.sideRemove_display := "none";
     Script.heightInput_value := Script.heightInput_value e;
     Script.calculateBtn_disabled := Script.calculateBtn_disabled e;
     Script.errorText_textContent := Script.errorText_textContent e;
     Script.errorMessage_display := Script.errorMessage_display e |}.

(** The body of a request to [/api/measurements/calculate], with its
    [Authorization] header. *)
Record Request : Type := {
  front_image : option string;
  side_image : option string;
  calibration_height : JS.number;
  units : string;
  authorization : string
}.

(** What [response.json()] settles to. *)
Inductive Body (A : Type) : Type :=
| Json (data : A)
| NotJson (message : string).
Arguments Json {A} data.
Arguments NotJson {A} message.

(** How the request settles, as the handler tells the cases apart: [fetch]
    rejects; the status is 401; another status that is not [ok], with the
    error the body holds; or [ok], with the response of the server's
    schema. *)
Inductive Fetched : Type :=
| Rejected (message : string)
| Unauthorized
| Failed (body : Body JS.Value)
| Succeeded (body : Body Api.MeasurementResponse).

(** What a handler starts and does not wait for: the call of
    [fetchHistory] and the two timers of [displayResults], each of which
    reads the category select when it fires. *)
Inductive Pending : Type :=
| FetchHistory
| GetSizeRecommendationsOfSelect
| HandleCategoryChange.

Section Handlers.

Variable parseFloat : string -> JS.number.
Variable messageOf : JS.Error -> string.
Variable toString : JS.Value -> string.

(** [removeImage(event, type)] *)
Definition removeImage (type_ : string) (app : App) : App :=
  let p := form app in
  let cleared :=
    if JS.strictEq type_ "front" then
      set_controls
        {| frontInput_value := "";
           sideInput_value := sideInput_value (controls app);
           unitsSelect_value := unitsSelect_value (controls app);
           btnText_textContent := btnText_textContent (controls app);
           loadingSpinner_display := loadingSpinner_display (controls app) |}
        (set_form
           {| Script.state :=
                {| Script.frontImage := None;
                   Script.sideImage := Script.sideImage (Script.state p);
                   Script.frontImageData := None;
                   Script.sideImageData := Script.sideImageData (Script.state p) |};
              Script.elements := hide_front_preview (Script.elements p) |}
           app)
    else
      set_controls
        {| frontInput_value := frontInput_value (controls app);
           sideInput_value := "";
           unitsSelect_value := unitsSelect_value (controls app);
           btnText_textContent := btnText_textContent (controls app);
           loadingSpinner_display := loadingSpinner_display (controls app) |}
        (set_form
           {| Script.state :=
                {| Script.frontImage := Script.frontImage (Script.state p);
                   Script.sideImage := None;
                   Script.frontImageData := Script.frontImageData (Script.state p);
                   Script.sideImageData := None |};
              Script.elements := hide_side_preview (Script.elements p) |}
           app) in
  set_form (Script.validateForm parseFloat (form cleared)) cleared.

(** [requestData] with the header of the request. *)
Definition requestOf (app : App) : Request :=
  {| front_image := Script.frontImageData (Script.state (form app));
     side_image :=
       match Script.sideImageData (Script.state (form app)) with
       | Some data => if JS.truthy (JS.Str data) then Some data else None
       | None => None
       end;
     calibration_height :=
       parseFloat (Script.heightInput_value (Script.elements (form app)));
     units := unitsSelect_value (controls app);
     authorization := History.bearer (session app) |}.

(** Whether [drawSkeleton(landmarks)] throws, for a truthy [landmarks]:
    [landmarks.forEach] is no function unless [landmarks] is an array, and
    [lm.visibility] throws on an entry that is [null] or [undefined].  The
    error is a TypeError either way. *)
Definition drawSkeleton_throws (landmarks : JS.Value) : bool :=
  match landmarks with
  | JS.Array elems =>
      existsb (fun lm => match lm with
                         | JS.Null | JS.Undefined => true
                         | _ => false
                         end)
              elems
  | _ => true
  end.

(** [displayResults(data)] from the line after [drawSkeleton] on: the
    results section is displayed and the timer is set. *)
Definition showResultsSection (app : App) : App * list Pending :=
  let shown :=
    set_results
      {| measurements := measurements (results app);
         landmarks := landmarks (results app);
         measurementsGrid := measurementsGrid (results app);
         skeleton := skeleton (results app);
         resultsSection_display := "block" |}
      app in
  match garmentCategories app with
  | [] => (shown, [])
  | first :: _ =>
      if JS.truthy (JS.Str (value (garmentCategorySelect app))) then
        (shown, [GetSizeRecommendationsOfSelect])
      else
        (set_garmentCategorySelect
           (selectValue (Categories.key first) (garmentCategorySelect app)) shown,
         [HandleCategoryChange])
  end.

(** [displayResults(data)]: the page it leaves, the timer it sets, and the
    error it throws, if any.  The cards are in the grid before
    [drawSkeleton] runs; when [drawSkeleton] throws, nothing after it does. *)
Definition displayResults (data : Api.MeasurementResponse) (app : App)
  : App * list Pending * option JS.Error :=
  let carded (handed : option JS.Value) :=
    set_results
      {| measurements := measurements (results app);
         landmarks := landmarks (results app);
         measurementsGrid := Script.displayResults (Api.measurements data);
         skeleton := handed;
         resultsSection_display := resultsSection_display (results app) |}
      app in
  match Api.front_landmarks data with
  | Some front =>
      if JS.truthy front then
        if drawSkeleton_throws front then
          (carded (Some front), [], Some JS.TypeError)
        else (showResultsSection (carded (Some front)), None)
      else (showResultsSection (carded (skeleton (results app))), None)
  | None => (showResultsSection (carded (skeleton (results app))), None)
  end.

(** [showError(message)] on the form of the page. *)
Definition showError (message : string) (app : App) : App :=
  set_form (Script.showError message (form app)) app.

(** [calculateMeasurements()] up to its [await fetch(...)]: the page it
    leaves while the request runs, and the request. *)
Definition start (app : App) : App * Request :=
  let busy := set_button true "Processing..." "inline-block" app in
  (set_form (Script.hideError (form busy)) busy, requestOf app).

(** [calculateMeasurements()] from the point where it is resumed with the
    settled request, through [finally], on the page as it is by then. *)
Definition resume (settled : Fetched) (app : App) : App * list Pending :=
  let outcome :=
    match settled with
    | Rejected message => (showError message app, [])
    | Unauthorized => (set_session (History.logout (session app)) app, [])
    | Failed (Json error) =>
        (showError
           (Auth.detailOr messageOf toString error "Failed to calculate measurements")
           app, [])
    | Failed (NotJson message) => (showError message app, [])
    | Succeeded (NotJson message) => (showError message app, [])
    | Succeeded (Json data) =>
        if negb (Api.success data) then
          (showError (TryOn.orElse (Api.message data) "Failed to detect pose in image")
                     app, [])
        else
          let stored :=
            set_results
              {| measurements := Some (Api.measurements data);
                 landmarks := Some (Api.front_landmarks data, Api.side_landmarks data);
                 measurementsGrid := measurementsGrid (results app);
                 skeleton := skeleton (results app);
                 resultsSection_display := resultsSection_display (results app) |}
              app in
          match snd (displayResults data stored) with
          | None =>
              (fst (fst (displayResults data stored)),
               (snd (fst (displayResults data stored)) ++ [FetchHistory])%list)
          | Some e =>
              (showError (messageOf e) (fst (fst (displayResults data stored))), [])
          end
    end in
  (set_button false "Calculate Measurements" "none" (fst outcome), snd outcome).

(** The network: how a request settles. *)
Variable fetch : Request -> Fetched.

(** [calculateMeasurements()] when nothing else runs while it waits. *)
Definition calculateMeasurements (app : App) : App * list Request * list Pending :=
  let started := start app in
  let ended := resume (fetch (snd started)) (fst started) in
  (fst ended, [snd started], snd ended).

End Handlers.

(** The response has landmarks of the front image on which
    [drawSkeleton] throws. *)
Definition skeletonThrows (data : Api.MeasurementResponse) : bool :=
  match Api.front_landmarks data with
  | Some front => JS.truthy front && drawSkeleton_throws front
  | None => false
  end.

(** The Calculate button is enabled exactly when the form is valid. *)
Definition inStep (parseFloat : string -> JS.number) (p : Script.Page) : Prop :=
  Script.calculateBtn_disabled (Script.elements p)
  = negb (Script.hasFrontImage p && Script.hasHeight parseFloat p).

End Measure.

(** ** The size panel of the static page

    [backend/static/js/size_recommendations.js]: [loadGarmentCategories],
    [handleCategoryChange] and [getSizeRecommendations], with what they do
    to the page. *)
Module SizePanel.

Local Open Scope string_scope.

(** An [option] element: its [value] and its text. *)
Record OptionElement : Type := {
  option_value : string;
  option_text : string
}.

(** The category select and [state.garmentCategories]. *)
Record Chooser : Type := {
  garmentCategories : list Categories.GarmentCategoryInfo;
  select_options : list OptionElement;
  select_value : string
}.

(** The select after [innerHTML] is set to one option without a value. *)
Definition notice (text : string) (categories : list Categories.GarmentCategoryInfo)
  : Chooser :=
  {| garmentCategories := categories;
     select_options := [ {| option_value := ""; option_text := text |} ];
     select_value := "" |}.

(** How the request for the categories settles. *)
Inductive CategoriesFetched : Type :=
| CategoriesRejected
| CategoriesResponded (ok : bool) (body : option (list Categories.GarmentCategoryInfo)).

(** [loadGarmentCategories()], for the value the gender select has when the
    response has arrived; a body that is [None] is one that
    [response.json()] rejects. *)
Definition loadGarmentCategories (settled : CategoriesFetched)
    (selectedGender : string) (c : Chooser) : Chooser :=
  match settled with
  | CategoriesRejected => notice "Error loading categories" (garmentCategories c)
  | CategoriesResponded ok body =>
      if negb ok then c
      else
        match body with
        | None => notice "Error loading categories" (garmentCategories c)
        | Some allCategories =>
            let categories :=
              Categories.loadGarmentCategories selectedGender allCategories in
            match categories with
            | [] => notice "No categories available for this gender" categories
            | first :: _ =>
                {| garmentCategories := categories;
                   select_options :=
                     map (fun category =>
                            {| option_value := Categories.key category;
                               option_text := Categories.name category |})
                         categories;
                   select_value := Categories.key first |}
            end
        end
  end.

Section Panel.

(** A recommendation of the response; the functions print its fields and
    read nothing else of it. *)
Variable Recommendation : Type.

(** The body of a response of [/api/size-recommendations/recommend]. *)
Record Response : Type := {
  success : bool;
  recommendations : option (list Recommendation);
  garment_name : string
}.

(** The content of [elements.sizeRecGrid]: the markup of the document, the
    cards with their [isBestFit] flags, the paragraph that says that no
    recommendation is available, or the paragraph with an error. *)
Inductive Grid : Type :=
| GridMarkup (html : string)
| Cards (cards : list (Recommendation * bool))
| NoRecommendations
| ErrorText (message : string).

(** The content of [recommendedSizeContent]: the markup of the document, or
    the best fit that was printed with the name of its garment. *)
Inductive BestSize : Type :=
| BestMarkup (html : string)
| BestFit (bestFit : Recommendation) (name : string).

Record Panel : Type := {
  sizeRecGrid : Grid;
  sizeRecommendationSection_display : string;
  recommendedSizeDisplay_display : string;
  recommendedSizeContent : BestSize
}.

(** The body of a request. *)
Record Request : Type := {
  garment_category : string;
  request_measurements : Api.Measurements
}.

Inductive Fetched : Type :=
| Rejected (message : string)
| Responded (ok : bool) (body : Measure.Body Response).

Variable fetch : Request -> Fetched.

(** [displayBestSizeUnderPoseDetection(data)] on the page. *)
Definition showBestSize (data : Response) (panel : Panel) : Panel :=
  match SizeRecs.displayBestSizeUnderPoseDetection Recommendation
          (recommendations data) with
  | None =>
      {| sizeRecGrid := sizeRecGrid panel;
         sizeRecommendationSection_display := sizeRecommendationSection_display panel;
         recommendedSizeDisplay_display := "none";
         recommendedSizeContent := recommendedSizeContent panel |}
  | Some bestFit =>
      {| sizeRecGrid := sizeRecGrid panel;
         sizeRecommendationSection_display := sizeRecommendationSection_display panel;
         recommendedSizeDisplay_display := "block";
         recommendedSizeContent := BestFit bestFit (garment_name data) |}
  end.

Definition set_grid (grid : Grid) (panel : Panel) : Panel :=
  {| sizeRecGrid := grid;
     sizeRecommendationSection_display := sizeRecommendationSection_display panel;
     recommendedSizeDisplay_display := recommendedSizeDisplay_display panel;
     recommendedSizeContent := recommendedSizeContent panel |}.

Definition show_section (panel : Panel) : Panel :=
  {| sizeRecGrid := sizeRecGrid panel;
     sizeRecommendationSection_display := "block";
     recommendedSizeDisplay_display := recommendedSizeDisplay_display panel;
     recommendedSizeContent := recommendedSizeContent panel |}.

(** [data.success && data.recommendations && data.recommendations.length > 0] *)
Definition hasRecommendations (data : Response) : bool :=
  success data &&
  match recommendations data with
  | Some (_ :: _) => true
  | _ => false
  end.

(** [getSizeRecommendations(category)], for [state.measurements]: the panel
    it leaves and the requests it sent. *)
Definition getSizeRecommendations (category : string)
    (measurements : option Api.Measurements) (panel : Panel)
  : Panel * list Request :=
  match measurements with
  | None => (panel, [])
  | Some m =>
      let req := {| garment_category := category; request_measurements := m |} in
      match fetch req with
      | Rejected message => (set_grid (ErrorText message) panel, [req])
      | Responded ok body =>
          if negb ok then
            (set_grid (ErrorText "Failed to get size recommendations") panel, [req])
          else
            match body with
            | Measure.NotJson message => (set_grid (ErrorText message) panel, [req])
            | Measure.Json data =>
                if hasRecommendations data then
                  let cards :=
                    match recommendations data with
                    | Some recs =>
                        SizeRecs.displaySizeRecommendations Recommendation recs
                    | None => []
                    end in
                  (show_section (showBestSize data (set_grid (Cards cards) panel)),
                   [req])
                else (show_section (set_grid NoRecommendations panel), [req])
            end
      end
  end.

(** [handleCategoryChange()] *)
Definition handleCategoryChange (c : Chooser)
    (measurements : option Api.Measurements) (panel : Panel)
  : Panel * list Request :=
  if negb (JS.truthy (JS.Str (select_value c))) then (panel, [])
  else
    match measurements with
    | None => (panel, [])
    | Some _ => getSizeRecommendations (select_value c) measurements panel
    end.

End Panel.

End SizePanel.

(** ** The size recommendations of the React client

    [frontend/src/components/SizeRecommendations.tsx]: [fetchCategories],
    [fetchRecommendation] and [handleCategoryChange]. *)
Module RecommendationsView.

Local Open Scope string_scope.

Section Component.

(** [SizeRecommendationResponse]; the handlers store it and read nothing
    of it. *)
Variable Response : Type.

(** The [useState] cells of the component. *)
Record State : Type := {
  categories : list Categories.GarmentCategoryInfo;
  selectedCategory : string;
  recommendation : option Response;
  loading : bool;
  error : option string
}.

Definition setCategories (c : list Categories.GarmentCategoryInfo) (st : State) : State :=
  {| categories := c; selectedCategory := selectedCategory st;
     recommendation := recommendation st; loading := loading st;
     error := error st |}.

Definition setSelectedCategory (k : string) (st : State) : State :=
  {| categories := categories st; selectedCategory := k;
     recommendation := recommendation st; loading := loading st;
     error := error st |}.

Definition setRecommendation (r : option Response) (st : State) : State :=
  {| categories := categories st; selectedCategory := selectedCategory st;
     recommendation := r; loading := loading st; error := error st |}.

Definition setLoading (b : bool) (st : State) : State :=
  {| categories := categories st; selectedCategory := selectedCategory st;
     recommendation := recommendation st; loading := b; error := error st |}.

Definition setError (e : option string) (st : State) : State :=
  {| categories := categories st; selectedCategory := selectedCategory st;
     recommendation := recommendation st; loading := loading st; error := e |}.

(** The body of [recommendationsApi.getRecommendation]. *)
Record Request : Type := {
  measurements : Api.Measurements;
  garment_category : string
}.

(** How [getRecommendation] settles: resolved, or rejected with the text
    of [err.response?.data?.detail], if any. *)
Inductive Settled : Type :=
| Resolved (data : Response)
| Rejected (detail : option string).

(** How [getCategories] settles. *)
Inductive CategoriesSettled : Type :=
| CategoriesResolved (data : list Categories.GarmentCategoryInfo)
| CategoriesRejected.

Variable getRecommendation : Request -> Settled.

(** [fetchRecommendation(category)], for the prop [measurements]: the state
    it leaves and the requests it sent. *)
Definition fetchRecommendation (category : string) (m : Api.Measurements)
    (st : State) : State * list Request :=
  let req := {| measurements := m; garment_category := category |} in
  let started := setError None (setLoading true st) in
  let settled :=
    match getRecommendation req with
    | Resolved data => setRecommendation (Some data) started
    | Rejected detail =>
        setError (Some (TryOn.orElse detail "Failed to get recommendation")) started
    end in
  (setLoading false settled, [req]).

(** [fetchCategories()], for the props [gender] and [measurements]. *)
Definition fetchCategories (settled : CategoriesSettled)
    (gender : Categories.Gender) (m : Api.Measurements) (st : State)
  : State * list Request :=
  match settled with
  | CategoriesRejected =>
      (setError (Some "Failed to load garment categories") st, [])
  | CategoriesResolved data =>
      let filtered := Categories.fetchCategories gender data in
      let listed := setCategories filtered st in
      match filtered with
      | first :: _ =>
          fetchRecommendation (Categories.key first) m
            (setSelectedCategory (Categories.key first) listed)
      | [] => (listed, [])
      end
  end.

(** [handleCategoryChange(category)] *)
Definition handleCategoryChange (category : string) (m : Api.Measurements)
    (st : State) : State * list Request :=
  fetchRecommendation category m (setSelectedCategory category st).

End Component.

End RecommendationsView.

(** ** The measurement cards of the React client

    [frontend/src/components/TryOn.tsx]: the cards under "Body
    Measurements". *)
Module ResultCards.

Local Open Scope string_scope.

(** [key.replace('_', ' ')]: the first underscore becomes a space. *)
Fixpoint replaceUnderscore (key : string) : string :=
  match key with
  | EmptyString => EmptyString
  | String c rest =>
      if Ascii.eqb c "_"%char then String " "%char rest
      else String c (replaceUnderscore rest)
  end.

(** The entries of [results.measurements] other than [units], in the order
    of the interface [MeasurementResponse]. *)
Definition measurementEntries : list (string * (Api.Measurements -> option Q)) :=
  [ ("shoulder_width", Api.shoulder_width);
    ("chest", Api.chest);
    ("waist", Api.waist);
    ("hip", Api.hip);
    ("height", Api.height);
    ("inseam", Api.inseam) ].

(** [Number(value)] for a number or [null]: [Number(null)] is 0. *)
Definition NumberOf (value : option Q) : Q :=
  match value with
  | Some q => q
  | None => 0%Q
  end.

(** What a card prints: its caption, the number that [toFixed(1)] formats,
    and the units. *)
Record Card : Type := {
  caption : string;
  number : Q;
  card_units : string
}.

(** The cards of [Object.entries(results.measurements).map(...)]; the entry
    [units] renders nothing. *)
Definition cards (m : Api.Measurements) : list Card :=
  map (fun entry =>
         {| caption := replaceUnderscore (fst entry);
            number := NumberOf (snd entry m);
            card_units := Api.measurement_units m |})
      measurementEntries.

End ResultCards.

(** ** The demo request of the React client

    [frontend/src/components/BookDemoModal.tsx] *)
Module BookDemo.

Local Open Scope string_scope.

(** [DemoRequest], the [formData] cell. *)
Record DemoRequest : Type := {
  name : string;
  email : string;
  company : string;
  phone : string;
  message : string
}.

Definition emptyForm : DemoRequest :=
  {| name := ""; email := ""; company := ""; phone := ""; message := "" |}.

(** The cells of the modal, with [isDemoModalOpen] of [App], which
    [onClose] clears. *)
Record State : Type := {
  formData : DemoRequest;
  loading : bool;
  submitted : bool;
  error : option string;
  isOpen : bool
}.

(** How [demoApi.submitRequest] settles: resolved with a [DemoResponse], or
    rejected with the text of [err.response?.data?.detail], if any. *)
Inductive Settled : Type :=
| Resolved (success : bool) (response_message : option string)
| Rejected (detail : option string).

(** The timer a successful submit sets. *)
Inductive Timer : Type := CloseAndReset.

Section Handlers.

Variable submitRequest : DemoRequest -> Settled.

(** [handleSubmit(e)]: the state it leaves, the requests it sent and the
    timer it set. *)
Definition handleSubmit (st : State) : State * list DemoRequest * option Timer :=
  let outcome :=
    match submitRequest (formData st) with
    | Resolved success response_message =>
        if success then (true, None, Some CloseAndReset)
        else (submitted st,
              Some (TryOn.orElse response_message "Failed to submit request"),
              None)
    | Rejected detail =>
        (submitted st,
         Some (TryOn.orElse detail "An unexpected error occurred. Please try again."),
         None)
    end in
  ({| formData := formData st;
      loading := false;
      submitted := fst (fst outcome);
      error := snd (fst outcome);
      isOpen := isOpen st |},
   [formData st], snd outcome).

(** The callback of the timer. *)
Definition runTimer (t : Timer) (st : State) : State :=
  {| formData := emptyForm;
     loading := loading st;
     submitted := false;
     error := error st;
     isOpen := false |}.

(** A submit followed by its timer, if it set one. *)
Definition settle (run : State * list DemoRequest * option Timer) : State :=
  match snd run with
  | Some t => runTimer t (fst (fst run))
  | None => fst (fst run)
  end.

End Handlers.

End BookDemo.

(** ** Sample inputs

    Concrete forms, requests and catalogs the theorems of Part II are run
    on. *)
Module Samples.

Local Open Scope string_scope.





(** A [JSON.parse] that throws on every text. *)
Definition rejectJson (text : string) : option JS.Value := None.


Local Open Scope R_scope.

(** A profile with a waist of 80 cm. *)
Definition waist80 : Engine.MeasurementProfile :=
  {| Engine.shoulder_width := 42; Engine.chest := None; Engine.waist := 80;
     Engine.hip := 95; Engine.height := 170; Engine.inseam := 78;
     Engine.units := Api.metric |}.

Definition waistBand (name : string) (lo hi : R) : Engine.SizeBand :=
  {| Engine.label := name;
     Engine.ranges := [ {| Engine.measurement := Engine.Waist;
                           Engine.range_min := lo; Engine.range_max := hi |} ] |}.

(** A catalog of one category with three bands, smallest first. *)
Definition pants : Engine.Catalog :=
  [ {| Engine.key := "MENS_PANTS";
       Engine.display_name := "Men's Pants";
       Engine.bands := [ waistBand "S" 70 80; waistBand "M" 75 85;
                         waistBand "L" 80 90 ] |} ].

(** Two items of the outfit gallery. *)
Definition suit : Studio.ClothItem :=
  {| Studio.id := "1"; Studio.title := "Executive Navy Suit";
     Studio.brand := "Aristocrat"; Studio.category := "Formal";
     Studio.image := "/suit.png" |}%string.

Definition dress : Studio.ClothItem :=
  {| Studio.id := "2"; Studio.title := "Floral Spring Dress";
     Studio.brand := "Bloom"; Studio.category := "Summer";
     Studio.image := "/dress.png" |}%string.

(** A network for the studio: every URL fetches as a blob, every post is
    answered with a link as text. *)
Definition fetched (url : string) : StudioHandlers.Fetched :=
  StudioHandlers.FetchedBlob (StudioHandlers.blobOf url).

Definition answerWithLink (url : string) (formData : StudioHandlers.FormData)
  : StudioHandlers.Posted :=
  StudioHandlers.Responded (JS.Str " https://cdn.example.com/look.png ").

Definition errorText (e : JS.Error) : string :=
  match e with
  | JS.TypeError => "Cannot read properties of null"
  | JS.SyntaxError => "Unexpected token"
  end.

Definition listing (items : list Studio.ClothItem) : string :=
  String.concat "," (map Studio.id items).

(** A studio that shows an earlier try-on over a generated avatar. *)
Definition dressedStudio : StudioHandlers.State :=
  {| StudioHandlers.loading := false;
     StudioHandlers.tryOnLoading := false;
     StudioHandlers.resultImage := Some "https://cdn.example.com/tried.png";
     StudioHandlers.baseAvatar := Some "data:image/png;base64,iVBORw0KGgo=";
     StudioHandlers.error := None;
     StudioHandlers.selectedClothes := [suit] |}.

(** An authentication server that creates the account and then refuses
    the login by e-mail address. *)
Definition account : JS.Value :=
  JS.Object [("id", JS.Str "42"); ("email", JS.Str "ada@example.com")].

Definition creatingOnly (req : Auth.Request) : Auth.Fetched :=
  match req with
  | Auth.PostRegister _ _ _ _ => Auth.Responded true (Auth.Json account)
  | Auth.PostLogin _ _ =>
      Auth.Responded false
        (Auth.Json (JS.Object [("detail", JS.Str "Incorrect username or password")]))
  end.

Definition plainText (v : JS.Value) : string := "[object Object]".

(** The page as it is first shown: the login tab active, no message. *)
Definition authPage : Auth.Page :=
  {| Auth.authTabs := [ {| Auth.dataset_tab := Some "login"; Auth.active := true |};
                        {| Auth.dataset_tab := Some "register"; Auth.active := false |} ];
     Auth.loginForm_display := "block";
     Auth.registerForm_display := "none";
     Auth.messages := {| Auth.errorMessage_display := "none";
                         Auth.errorText_textContent := "";
                         Auth.successMessage_display := "none";
                         Auth.successText_textContent := "" |};
     Auth.loginBtn := Auth.idle;
     Auth.registerBtn := Auth.idle;
     Auth.localStorage := [];
     Auth.location_href := "/" |}.

(** Two entries of a history: one measured with a side image, one without,
    whose chest is [null]. *)
Definition fullProfile : Api.Measurements :=
  {| Api.shoulder_width := Some 42%Q; Api.chest := Some 96%Q; Api.waist := Some 80%Q;
     Api.hip := Some 98%Q; Api.height := Some 175%Q; Api.inseam := Some 81%Q;
     Api.measurement_units := "cm" |}.

Definition chestlessProfile : Api.Measurements :=
  {| Api.shoulder_width := Some 42%Q; Api.chest := None; Api.waist := Some 80%Q;
     Api.hip := Some 98%Q; Api.height := Some 175%Q; Api.inseam := Some 81%Q;
     Api.measurement_units := "cm" |}.

Definition entryOf (m : Api.Measurements) : History.HistoryItem :=
  {| History.created_at := "2024-05-01T10:00:00";
     History.item_measurements := Some m;
     History.item_units := "metric";
     History.item_gender := Some "female";
     History.item_height := JS.Num (JS.Finite 175%Q) |}.

Definition twoEntries (header : string) : History.Fetched :=
  History.Responded 200
    (History.Json true
       (Some [entryOf fullProfile; entryOf chestlessProfile; entryOf fullProfile])).

Definition asWritten (text : string) : string := text.

Definition historyPage : History.Page :=
  {| History.session :=
       {| History.token := Some "t0k3n";
          History.user := JS.Object [("username", JS.Str "ada")];
          History.localStorage := [("auth_token", "t0k3n")];
          History.location_href := "/app" |};
     History.section :=
       {| History.historyList := Some (History.Markup "");
          History.historySection_display := "none" |} |}.




End Samples.

(* ================================================================== *)
(** * Part II: the theorems *)
(* ================================================================== *)

(** ** Strings *)

Lemma startsWith_spec (s p : string) :
  JS.startsWith s p = true <-> exists rest, s = (p ++ rest)%string.
Proof.
  unfold JS.startsWith. revert s.
  induction p as [|c p IH]; intros s; simpl.
  - split; [intros _; exists s; reflexivity | intros _; now destruct s].
  - destruct s as [|d s]; simpl.
    + split; [discriminate | intros [rest H]; discriminate].
    + destruct (Ascii.ascii_dec c d) as [->|Hne].
      * rewrite IH. split; intros [rest H]; exists rest.
        -- now rewrite H.
        -- now inversion H.
      * split; [discriminate | intros [rest H]; simpl in H; congruence].
Qed.

Lemma strictEq_spec (s t : string) : JS.strictEq s t = true <-> s = t.
Proof. unfold JS.strictEq. apply String.eqb_eq. Qed.

(** ** The gender filter *)

Section GenderFilter.

Import Categories.
Local Open Scope string_scope.


(** C2. For every list of categories, the gender filter keeps exactly the
    categories whose key starts with MENS_ for a male query, and exactly
    those whose key starts with WOMENS_ or is the literal DRESS for a female
    query; this holds for the React component ([fetchCategories]) and for
    the static page ([loadGarmentCategories]), and the kept categories stay
    in catalog order. *)
Theorem gender_filter_keeps_exactly (data : list GarmentCategoryInfo) :
  (forall cat, In cat (fetchCategories male data) <->
               In cat data /\ mens_key (key cat)) /\
  (forall cat, In cat (fetchCategories female data) <->
               In cat data /\ womens_key (key cat)) /\
  (forall cat, In cat (loadGarmentCategories "male" data) <->
               In cat data /\ mens_key (key cat)) /\
  (forall cat, In cat (loadGarmentCategories "female" data) <->
               In cat data /\ womens_key (key cat)) /\
  (forall g, exists keep, fetchCategories g data = filter keep data) /\
  (forall g, exists keep, loadGarmentCategories g data = filter keep data).
Proof.
  assert (Hm : forall cat, JS.startsWith (key cat) "MENS_" = true <-> mens_key (key cat))
    by (intros; apply startsWith_spec).
  assert (Hw : forall cat,
             JS.startsWith (key cat) "WOMENS_" || JS.strictEq (key cat) "DRESS" = true
             <-> womens_key (key cat)).
  { intros cat. rewrite orb_true_iff, startsWith_spec, strictEq_spec. reflexivity. }
  unfold fetchCategories, loadGarmentCategories.
  split; [|split; [|split; [|split; [|split]]]].
  - intros cat. rewrite filter_In. simpl. now rewrite Hm.
  - intros cat. rewrite filter_In. simpl. now rewrite Hw.
  - intros cat. rewrite filter_In. unfold loadGarmentCategories_keeps. simpl.
    now rewrite Hm.
  - intros cat. rewrite filter_In. unfold loadGarmentCategories_keeps. simpl.
    now rewrite Hw.
  - intros g. now exists (fetchCategories_keeps g).
  - intros g. now exists (loadGarmentCategories_keeps g).
Qed.

End GenderFilter.

(** ** The selection of the try-on studio *)

Section ToggleCloth.

Import Studio.

Lemma find_none_existsb (A : Type) (p : A -> bool) (l : list A) :
  find p l = None <-> existsb p l = false.
Proof.
  induction l as [|a l IH]; simpl; [tauto|].
  destruct (p a); simpl; [split; discriminate | exact IH].
Qed.

Lemma existsb_filter (A : Type) (p q : A -> bool) (l : list A) :
  existsb p (filter q l) = existsb (fun a => q a && p a) l.
Proof.
  induction l as [|a l IH]; simpl; [reflexivity|].
  destruct (q a); simpl; now rewrite IH.
Qed.

Lemma existsb_ext_pointwise (A : Type) (p q : A -> bool) (l : list A) :
  (forall a, p a = q a) -> existsb p l = existsb q l.
Proof.
  intros H. induction l as [|a l IH]; simpl; [reflexivity|].
  now rewrite H, IH.
Qed.

Lemma existsb_never (A : Type) (l : list A) : existsb (fun _ => false) l = false.
Proof. induction l; simpl; auto. Qed.

Lemma strictEq_refl (s : string) : JS.strictEq s s = true.
Proof. apply String.eqb_refl. Qed.

Lemma strictEq_sym (s t : string) : JS.strictEq s t = JS.strictEq t s.
Proof. apply String.eqb_sym. Qed.

(** Toggling an item flips the answer for its own id. *)
Lemma handleToggleCloth_self (prev : list ClothItem) (item : ClothItem) :
  isSelected (handleToggleCloth item prev) item = negb (isSelected prev item).
Proof.
  unfold handleToggleCloth, isSelected.
  destruct (find _ prev) as [found|] eqn:Hfind.
  - rewrite existsb_filter.
    assert (Hex : existsb (fun i => JS.strictEq (id i) (id item)) prev = true).
    { destruct (existsb _ prev) eqn:E; [reflexivity|].
      apply find_none_existsb in E. congruence. }
    rewrite Hex. simpl.
    rewrite (existsb_ext_pointwise _ _ (fun _ => false)); [apply existsb_never|].
    intros i. now destruct (JS.strictEq (id i) (id item)).
  - apply find_none_existsb in Hfind. rewrite Hfind.
    rewrite existsb_app. simpl. rewrite strictEq_refl. now rewrite orb_true_r.
Qed.

(** Toggling an item leaves the answer for every other id as it was. *)
Lemma handleToggleCloth_other (prev : list ClothItem) (item other : ClothItem) :
  id other <> id item ->
  isSelected (handleToggleCloth item prev) other = isSelected prev other.
Proof.
  intros Hne. unfold handleToggleCloth, isSelected.
  assert (Hoff : JS.strictEq (id item) (id other) = false).
  { apply String.eqb_neq. congruence. }
  destruct (find _ prev) as [found|].
  - rewrite existsb_filter. apply existsb_ext_pointwise. intros i.
    destruct (JS.strictEq (id i) (id other)) eqn:E.
    + apply strictEq_spec in E. rewrite E.
      rewrite strictEq_sym, Hoff. reflexivity.
    + apply andb_false_r.
  - rewrite existsb_app. simpl. rewrite Hoff. now rewrite !orb_false_r.
Qed.

Lemma isSelected_by_id (l : list ClothItem) (a b : ClothItem) :
  id a = id b -> isSelected l a = isSelected l b.
Proof. intros H. unfold isSelected. now rewrite H. Qed.

(** C10. Applying the updater of [handleToggleCloth] negates the membership
    of the toggled item (membership is by id, as the catalog tests it),
    leaves the membership of every item with another id unchanged, and
    applied twice gives back the membership the selection started with. *)
Theorem handleToggleCloth_negates_membership
    (prev : list ClothItem) (item : ClothItem) :
  isSelected (handleToggleCloth item prev) item = negb (isSelected prev item) /\
  (forall other, id other <> id item ->
     isSelected (handleToggleCloth item prev) other = isSelected prev other) /\
  (forall any,
     isSelected (handleToggleCloth item (handleToggleCloth item prev)) any
     = isSelected prev any).
Proof.
  split; [apply handleToggleCloth_self|].
  split; [intros other; apply handleToggleCloth_other|].
  intros any. destruct (string_dec (id any) (id item)) as [Heq|Hne].
  - rewrite !(isSelected_by_id _ any item Heq).
    rewrite !handleToggleCloth_self. apply negb_involutive.
  - now rewrite !handleToggleCloth_other.
Qed.

End ToggleCloth.

(** ** The image link of a webhook response *)

Section ExtractImageUrlFacts.

Import Studio.
Local Open Scope string_scope.

Variable JSON_parse : string -> option JS.Value.

Lemma trimEnd_keeps_head (c : ascii) (rest : string) :
  JS.isWhiteSpace c = false ->
  JS.trimEnd (String c rest) = String c (JS.trimEnd rest).
Proof.
  intros Hc. simpl. rewrite Hc. now destruct (JS.trimEnd rest).
Qed.

Lemma dropTrailingQuote_keeps_head (c : ascii) (rest : string) :
  JS.isQuote c = false ->
  JS.dropTrailingQuote (String c rest) = String c (JS.dropTrailingQuote rest).
Proof.
  intros Hc. simpl. rewrite Hc. now destruct rest.
Qed.

Lemma trimStart_keeps_head (c : ascii) (rest : string) :
  JS.isWhiteSpace c = false -> JS.trimStart (String c rest) = String c rest.
Proof. intros Hc. simpl. now rewrite Hc. Qed.

Lemma dropLeadingQuote_keeps_head (c : ascii) (rest : string) :
  JS.isQuote c = false -> JS.dropLeadingQuote (String c rest) = String c rest.
Proof. intros Hc. simpl. now rewrite Hc. Qed.

(** A link keeps its scheme through [trim] and the quote stripping: no
    code unit of [http] or [data:] is white space or a quote. *)
Lemma isImageLink_cleaned (raw : string) :
  isImageLink raw = true ->
  isImageLink (JS.stripQuotes (JS.trim raw)) = true.
Proof.
  unfold isImageLink. rewrite !orb_true_iff, !startsWith_spec.
  intros [[rest ->]|[rest ->]]; [left|right];
    unfold JS.trim, JS.stripQuotes; cbn [append];
    rewrite trimStart_keeps_head by reflexivity;
    rewrite !trimEnd_keeps_head by reflexivity;
    rewrite dropLeadingQuote_keeps_head by reflexivity;
    rewrite !dropTrailingQuote_keeps_head by reflexivity;
    eexists; reflexivity.
Qed.

Lemma finish_links_only (result : JS.Value) (url : string) :
  finish result = Some url ->
  exists raw, result = JS.Str raw /\ isImageLink raw = true /\
              url = JS.stripQuotes (JS.trim raw).
Proof.
  unfold finish. destruct result; try discriminate.
  destruct (JS.truthy (JS.Str s) && isImageLink s) eqn:E; [|discriminate].
  intros [= <-]. apply andb_true_iff in E. exists s. tauto.
Qed.

(** Whatever [extractImageUrl] returns is [null] or a cleaned link, and it
    throws only on an array whose first element is [null] or [undefined]. *)
Lemma extractImageUrl_outcomes (data : JS.Value) :
  match extractImageUrl JSON_parse data with
  | JS.Return None => True
  | JS.Return (Some url) =>
      isImageLink url = true /\
      exists raw, isImageLink raw = true /\ url = JS.stripQuotes (JS.trim raw)
  | JS.Throw e =>
      e = JS.TypeError /\
      exists first rest, data = JS.Array (first :: rest) /\
                         (first = JS.Undefined \/ first = JS.Null)
  end.
Proof.
  unfold extractImageUrl.
  destruct (unwrapFirstItem data) as [unwrapped|e] eqn:Hu; simpl.
  - destruct (finish _) as [url|] eqn:Hf; [|exact I].
    apply finish_links_only in Hf. destruct Hf as [raw [_ [Hraw ->]]].
    split; [now apply isImageLink_cleaned | now exists raw].
  - unfold unwrapFirstItem in Hu.
    destruct data; try discriminate.
    destruct elems as [|first rest]; [discriminate|].
    destruct first; simpl in Hu; try discriminate;
      injection Hu as <-; (split; [reflexivity|]);
      eexists _, _; (split; [reflexivity|]); tauto.
Qed.

(** C9. On the JSON array [[null]] the call [data[0].json] throws a
    TypeError: [extractImageUrl] returns neither [null] nor a link. *)
Theorem extractImageUrl_throws_on_null_item :
  extractImageUrl JSON_parse (JS.Array [JS.Null]) = JS.Throw JS.TypeError.
Proof. reflexivity. Qed.

End ExtractImageUrlFacts.

(** An item of an n8n response, a link with a stray quote and blank at its
    end, and an object without a link. *)
Example extractImageUrl_of_n8n_item :
  Studio.extractImageUrl Samples.rejectJson
    (JS.Array
       [JS.Object
          [("json"%string,
            JS.Object [("output_image"%string,
                        JS.Str "https://cdn.example/look.png")])]])
  = JS.Return (Some "https://cdn.example/look.png"%string).
Proof. reflexivity. Qed.

Example extractImageUrl_of_quoted_link :
  Studio.extractImageUrl Samples.rejectJson (JS.Str "http://host/a.png' ")
  = JS.Return (Some "http://host/a.png"%string).
Proof. reflexivity. Qed.

Example extractImageUrl_of_status_object :
  Studio.extractImageUrl Samples.rejectJson
    (JS.Object [("status"%string, JS.Str "ok")])
  = JS.Return None.
Proof. reflexivity. Qed.

(** ** The upload form of the static page *)

Section UploadForm.

Import Script.
Local Open Scope string_scope.

Lemma arrayIncludes_spec (xs : list string) (s : string) :
  JS.arrayIncludes xs s = true <-> In s xs.
Proof.
  unfold JS.arrayIncludes. rewrite existsb_exists. split.
  - intros [x [Hin Heq]]. apply strictEq_spec in Heq. now subst.
  - intros Hin. exists s. split; [exact Hin | apply strictEq_refl].
Qed.

(** Whether [processFile] hands the file to a reader. *)
Lemma processFile_starts_read_iff (file : File) (type_ : string) (page : Page) :
  snd (processFile file type_ page) <> None <->
  In (type file) ["image/jpeg"; "image/jpg"; "image/png"] /\
  (size file <= 10 * 1024 * 1024)%N.
Proof.
  unfold processFile.
  change ["image/jpeg"; "image/jpg"; "image/png"] with validTypes.
  change (10 * 1024 * 1024)%N with maxSize.
  rewrite <- arrayIncludes_spec.
  destruct (JS.arrayIncludes validTypes (type file)); simpl.
  - destruct (N.ltb_spec maxSize (size file)); simpl.
    + split; [congruence | intros [_ Hle]; lia].
    + split; [intros _; split; [reflexivity | lia] | discriminate].
  - split; [congruence | intros [Hno _]; discriminate].
Qed.

(** C8. [processFile] accepts a file (hands it to the reader, leaving the
    page as it is) only if its MIME type is image/jpeg, image/jpg or
    image/png and its size is at most 10*1024*1024 bytes; otherwise it shows
    one of its two error messages and returns with the stored front and side
    image state unmodified. *)
Theorem processFile_accepts_only_valid_images
    (file : File) (type_ : string) (page : Page) :
  (snd (processFile file type_ page) <> None <->
     In (type file) ["image/jpeg"; "image/jpg"; "image/png"] /\
     (size file <= 10 * 1024 * 1024)%N) /\
  (snd (processFile file type_ page) = None ->
     state (fst (processFile file type_ page)) = state page /\
     errorMessage_display (elements (fst (processFile file type_ page))) = "flex" /\
     (errorText_textContent (elements (fst (processFile file type_ page)))
        = "Please upload a JPEG or PNG image" \/
      errorText_textContent (elements (fst (processFile file type_ page)))
        = "Image size must be less than 10MB")) /\
  (forall r, snd (processFile file type_ page) = Some r ->
     fst (processFile file type_ page) = page /\
     read_file r = file /\ read_type r = type_).
Proof.
  split; [apply processFile_starts_read_iff|].
  unfold processFile.
  destruct (JS.arrayIncludes validTypes (type file)); simpl.
  - destruct (maxSize <? size file)%N; simpl.
    + split; [intros _; auto | discriminate].
    + split; [discriminate | intros r [= <-]; auto].
  - split; [intros _; auto | discriminate].
Qed.

(** When the read of a front image completes, [onload] stores the file and
    its data URL in the front fields, leaves the side fields as they were,
    and hides the error; the read of a side image fills the side fields and
    leaves the front fields. *)
Lemma onload_stores_one_image
    (parseFloat : string -> JS.number)
    (file : File) (imageData : string) (page : Page) :
  let front := onload parseFloat {| read_file := file; read_type := "front" |}
                 imageData page in
  let side := onload parseFloat {| read_file := file; read_type := "side" |}
                imageData page in
  (frontImage (state front) = Some file /\
   frontImageData (state front) = Some imageData /\
   sideImage (state front) = sideImage (state page) /\
   sideImageData (state front) = sideImageData (state page) /\
   errorMessage_display (elements front) = "none") /\
  (sideImage (state side) = Some file /\
   sideImageData (state side) = Some imageData /\
   frontImage (state side) = frontImage (state page) /\
   frontImageData (state side) = frontImageData (state page) /\
   errorMessage_display (elements side) = "none").
Proof. simpl. repeat split. Qed.

(** [validateForm] enables the Calculate button exactly when a front image
    is stored, the height field is not empty and [parseFloat] reads a number
    above zero from it. *)
Lemma validateForm_enables_iff (parseFloat : string -> JS.number) (page : Page) :
  calculateBtn_disabled (elements (validateForm parseFloat page)) = false <->
  frontImageData (state page) <> None /\
  heightInput_value (elements page) <> "" /\
  JS.gt (parseFloat (heightInput_value (elements page))) JS.zero = true.
Proof.
  simpl. rewrite negb_false_iff, andb_true_iff.
  unfold hasFrontImage, hasHeight. rewrite andb_true_iff.
  simpl JS.truthy. rewrite negb_true_iff.
  assert (Hne : JS.strictEq (heightInput_value (elements page)) "" = false <->
                heightInput_value (elements page) <> "")
    by apply String.eqb_neq.
  rewrite Hne.
  destruct (frontImageData (state page)); split.
  - intros [_ H]. split; [discriminate | exact H].
  - intros [_ H]. split; [reflexivity | exact H].
  - intros [H _]. discriminate.
  - intros [H _]. congruence.
Qed.

(** For a response whose chest is [null] and whose other measurements are
    numbers, [displayResults] shows the five other cards, in the order of
    its labels, and no chest card. *)
Lemma displayResults_skips_null_chest
    (shoulders waistline hipline tall leg : Q) (unit_name : string) :
  map (fun card => (card_label card, card_value card))
      (displayResults
         {| Api.shoulder_width := Some shoulders;
            Api.chest := None;
            Api.waist := Some waistline;
            Api.hip := Some hipline;
            Api.height := Some tall;
            Api.inseam := Some leg;
            Api.measurement_units := unit_name |})
  = [ ("Shoulder Width", shoulders); ("Waist", waistline); ("Hip", hipline);
      ("Height", tall); ("Inseam", leg) ].
Proof. reflexivity. Qed.

End UploadForm.

(** ** The skeleton overlay *)

Section Skeleton.

Import Script.
Local Open Scope Q_scope.

Lemma above_half_spec (v : Q) : above_half v = true <-> 1 # 2 < v.
Proof.
  unfold above_half. rewrite negb_true_iff.
  destruct (Qle_bool v (1 # 2)) eqn:E.
  - apply Qle_bool_iff in E. split; [discriminate|].
    intros H. exfalso. now apply (Qlt_not_le _ _ H).
  - split; [intros _ | reflexivity].
    apply Qnot_le_lt. intros H. apply Qle_bool_iff in H. congruence.
Qed.

Lemma meets_confidence_threshold_spec (c : Q) :
  meets_confidence_threshold c = true <-> 1 # 2 <= c.
Proof. apply Qle_bool_iff. Qed.

Lemma drawLandmark_drawn_iff (lm : Landmark) :
  drawLandmark lm <> [] <-> 1 # 2 < visibility lm.
Proof.
  rewrite <- above_half_spec. unfold drawLandmark.
  destruct (above_half (visibility lm)).
  - split; [reflexivity | discriminate].
  - split; [congruence | discriminate].
Qed.

Lemma drawConnection_drawn_iff (landmarks : list Landmark) (s e : nat) :
  drawConnection landmarks (s, e) <> [] <->
  exists startLm endLm,
    nth_error landmarks s = Some startLm /\
    nth_error landmarks e = Some endLm /\
    1 # 2 < visibility startLm /\ 1 # 2 < visibility endLm.
Proof.
  unfold drawConnection. simpl.
  destruct (nth_error landmarks s) as [a|];
    [destruct (nth_error landmarks e) as [b|]|].
  - destruct (above_half (visibility a) && above_half (visibility b)) eqn:E.
    + apply andb_true_iff in E. rewrite !above_half_spec in E.
      split; [intros _; now exists a, b | discriminate].
    + split; [congruence|].
      intros [a' [b' [[= <-] [[= <-] [Ha Hb]]]]].
      apply above_half_spec in Ha, Hb. rewrite Ha, Hb in E. discriminate.
  - split; [congruence | intros [? [? [_ [H _]]]]; discriminate].
  - split; [congruence | intros [? [? [H _]]]; discriminate].
Qed.

(** C6, as stated: a landmark would be drawn exactly when its visibility
    meets the threshold of at least 0.5.  A landmark whose visibility is
    exactly 0.5 meets the threshold and is not drawn. *)
Lemma drawSkeleton_skips_joint_at_threshold :
  ~ (forall lm : Landmark,
       drawLandmark lm <> [] <->
       meets_confidence_threshold (visibility lm) = true).
Proof.
  intros claim.
  specialize (claim {| x := 1 # 2; y := 1 # 2; visibility := 1 # 2 |}).
  apply claim; reflexivity.
Qed.

(** C6, amended. The overlay draws a landmark exactly when its visibility is
    strictly above 0.5, and a connection exactly when both of its end
    points are in the landmark array with visibility strictly above 0.5; so
    every joint it draws meets the usability threshold of at least 0.5, and
    every joint below that threshold stays undrawn. *)
Theorem drawSkeleton_renders_strictly_above_half (landmarks : list Landmark) :
  (forall lm, drawLandmark lm <> [] <-> 1 # 2 < visibility lm) /\
  (forall s e,
     drawConnection landmarks (s, e) <> [] <->
     exists startLm endLm,
       nth_error landmarks s = Some startLm /\
       nth_error landmarks e = Some endLm /\
       1 # 2 < visibility startLm /\ 1 # 2 < visibility endLm) /\
  (forall lm, drawLandmark lm <> [] ->
     meets_confidence_threshold (visibility lm) = true) /\
  (forall lm, meets_confidence_threshold (visibility lm) = false ->
     drawLandmark lm = []) /\
  drawSkeleton landmarks =
    fillRect 0 0 600 800 ::
    flat_map (drawConnection landmarks) connections ++
    flat_map drawLandmark landmarks.
Proof.
  split; [apply drawLandmark_drawn_iff|].
  split; [apply drawConnection_drawn_iff|].
  split; [|split; [|reflexivity]].
  - intros lm H. apply drawLandmark_drawn_iff in H.
    apply meets_confidence_threshold_spec. now apply Qlt_le_weak.
  - intros lm H. unfold drawLandmark.
    destruct (above_half (visibility lm)) eqn:E; [|reflexivity].
    apply above_half_spec, Qlt_le_weak, meets_confidence_threshold_spec in E.
    congruence.
Qed.

End Skeleton.

(** ** Validation of a measurement request *)

Section MeasurementForm.

Local Open Scope string_scope.

Variable Number : string -> JS.number.
Variable parseFloat : string -> JS.number.
Variable calculate : Api.MeasurementRequest -> Api.Settled.



Lemma truthy_Str (t : string) : JS.truthy (JS.Str t) = false <-> t = "".
Proof.
  simpl. rewrite negb_false_iff. apply strictEq_spec.
Qed.




End MeasurementForm.


(** ** The size fit scorer and the recommendation assembler *)

Section SizeFit.

Import Engine.
Local Open Scope R_scope.

Lemma clamp_within (v lo hi : R) : lo <= hi -> lo <= clamp v lo hi <= hi.
Proof.
  intros Hle. unfold clamp. split.
  - apply Rmax_l.
  - apply Rmax_lub; [exact Hle | apply Rmin_l].
Qed.

Lemma fit_score_of_within (p : MeasurementProfile) (b : SizeBand) :
  0 <= fit_score_of p b <= 1.
Proof. unfold fit_score_of. apply clamp_within. lra. Qed.

Lemma ltb_spec (a b : R) : ltb a b = true <-> a < b.
Proof. unfold ltb. destruct (Rlt_dec a b); split; auto; discriminate. Qed.

Lemma ltb_false (a b : R) : ltb a b = false <-> b <= a.
Proof.
  unfold ltb. destruct (Rlt_dec a b); split; auto; try discriminate; lra.
Qed.


Lemma insert_by_score_perm (r : SizeRecommendation) (l : list SizeRecommendation) :
  Permutation (insert_by_score r l) (r :: l).
Proof.
  induction l as [|s l IH]; simpl; [reflexivity|].
  destruct (ltb (fit_score r) (fit_score s)); [|reflexivity].
  rewrite IH. apply perm_swap.
Qed.

Lemma sort_by_score_perm (l : list SizeRecommendation) :
  Permutation (sort_by_score l) l.
Proof.
  induction l as [|r l IH]; simpl; [reflexivity|].
  rewrite insert_by_score_perm. now constructor.
Qed.

Lemma insert_by_score_sorted (r : SizeRecommendation) (l : list SizeRecommendation) :
  StronglySorted scores_descend l ->
  StronglySorted scores_descend (insert_by_score r l).
Proof.
  induction 1 as [|s l Hsorted IH Hall]; simpl.
  - repeat constructor.
  - destruct (ltb (fit_score r) (fit_score s)) eqn:E.
    + constructor; [exact IH|].
      eapply Permutation_Forall.
      * symmetry. apply insert_by_score_perm.
      * constructor; [|exact Hall].
        apply ltb_spec in E. unfold scores_descend. lra.
    + apply ltb_false in E.
      constructor; [now constructor|].
      constructor; [exact E|].
      eapply Forall_impl; [|exact Hall].
      intros t Ht. unfold scores_descend in *. lra.
Qed.

Lemma sort_by_score_sorted (l : list SizeRecommendation) :
  StronglySorted scores_descend (sort_by_score l).
Proof.
  induction l as [|r l IH]; simpl; [constructor|].
  now apply insert_by_score_sorted.
Qed.

(** C5. The fit score of the recommendation made for any size band lies in
    the closed interval from 0 to 1, and so does the score of every
    recommendation of a response. *)
Theorem fit_score_in_unit_interval
    (catalog : Catalog) (category : string)
    (p : MeasurementProfile) (b : SizeBand) :
  0 <= fit_score (score_band p b) <= 1 /\
  match recommend catalog category p with
  | Succeeded response =>
      Forall (fun r => 0 <= fit_score r <= 1) (recommendations response)
  | Failed _ => True
  end.
Proof.
  split; [apply fit_score_of_within|].
  unfold recommend. destruct (find_category category catalog) as [c|]; [|exact I].
  simpl. eapply Permutation_Forall.
  - symmetry. apply sort_by_score_perm.
  - apply Forall_forall. intros r Hin. apply in_map_iff in Hin.
    destruct Hin as [band [<- _]]. apply fit_score_of_within.
Qed.

(** C1. A request for a category of the catalog succeeds, and in every
    successful response the recommendations are sorted non-increasing by
    fit score and hold one entry per size band of the category; so the first
    element, the one the page prints as the recommended size, scores at
    least as high as every other. *)
Theorem recommendations_sorted_best_first
    (catalog : Catalog) (category : string) (p : MeasurementProfile) :
  match recommend catalog category p with
  | Succeeded response =>
      StronglySorted scores_descend (recommendations response) /\
      (exists c, find_category category catalog = Some c /\
                 Permutation (recommendations response)
                             (map (score_band p) (bands c))) /\
      match SizeRecs.displayBestSizeUnderPoseDetection _
              (Some (recommendations response)) with
      | Some bestFit =>
          nth_error (recommendations response) 0 = Some bestFit /\
          Forall (fun r => fit_score r <= fit_score bestFit)
                 (recommendations response)
      | None => recommendations response = []
      end
  | Failed failure =>
      failure = CategoryNotFound /\ find_category category catalog = None
  end.
Proof.
  unfold recommend. destruct (find_category category catalog) as [c|]; [|auto].
  simpl recommendations.
  pose proof (sort_by_score_sorted (map (score_band p) (bands c))) as Hsorted.
  split; [exact Hsorted|].
  split; [exists c; split; [reflexivity | apply sort_by_score_perm]|].
  destruct (sort_by_score (map (score_band p) (bands c))) as [|bestFit rest];
    simpl; [reflexivity|].
  split; [reflexivity|].
  constructor; [unfold scores_descend; lra|].
  inversion Hsorted; subst. assumption.
Qed.

End SizeFit.

(** ** The cards of the recommendations *)

Lemma combine_seq_flags (A : Type) (l : list A) (start : nat) :
  map (fun entry => (snd entry, Nat.eqb (fst entry) 0))
      (combine (seq (S start) (List.length l)) l)
  = map (fun r => (r, false)) l.
Proof.
  revert start. induction l as [|a l IH]; intros start; simpl; [reflexivity|].
  now rewrite IH.
Qed.

(** [displaySizeRecommendations] makes one card per recommendation, in the
    order of the response, and flags the first card, and no other, as the
    best fit. *)
Lemma displaySizeRecommendations_flags_first (A : Type) (first : A) (others : list A) :
  SizeRecs.displaySizeRecommendations A [] = [] /\
  SizeRecs.displaySizeRecommendations A (first :: others)
  = (first, true) :: map (fun r => (r, false)) others.
Proof.
  split; [reflexivity|].
  unfold SizeRecs.displaySizeRecommendations. simpl.
  now rewrite combine_seq_flags.
Qed.

(** Whatever the record of a recommendation and its score: when the list of
    a response is sorted non-increasing by score, the recommendation the
    page prints as the recommended size scores at least as high as every
    recommendation of the list. *)
Lemma displayed_best_size_scores_highest
    (A : Type) (score : A -> Q) (recommendations : list A) (bestFit : A) :
  StronglySorted (fun a b => (score b <= score a)%Q) recommendations ->
  SizeRecs.displayBestSizeUnderPoseDetection A (Some recommendations)
    = Some bestFit ->
  Forall (fun r => (score r <= score bestFit)%Q) recommendations.
Proof.
  intros Hsorted Hbest.
  destruct recommendations as [|first rest]; [discriminate|].
  simpl in Hbest. injection Hbest as <-.
  constructor; [apply Qle_refl|].
  now inversion Hsorted.
Qed.

Lemma displayed_best_size_witness :
  Forall (fun r : string * Q => (snd r <= snd ("M"%string, 1%Q))%Q)
         [("M"%string, 1%Q); ("S"%string, (1 # 2)%Q); ("L"%string, 0%Q)].
Proof.
  apply (displayed_best_size_scores_highest (string * Q) snd
           [("M"%string, 1%Q); ("S"%string, (1 # 2)%Q); ("L"%string, 0%Q)]
           ("M"%string, 1%Q)).
  - repeat constructor; simpl; discriminate.
  - reflexivity.
Defined.

(** *** The scorer and the assembler on the sample catalog *)

Lemma sqrt_of_square (a v : R) : (0 <= v -> a = v * v -> sqrt a = v)%R.
Proof. intros Hv ->. now apply sqrt_square. Qed.

Lemma clamp_inside (v : R) : (0 <= v <= 1 -> Engine.clamp v 0 1 = v)%R.
Proof.
  intros [H0 H1]. unfold Engine.clamp. rewrite Rmin_right by exact H1.
  now apply Rmax_right.
Qed.

Ltac score_of_band root :=
  unfold Engine.fit_score_of, Engine.root_mean_square, Engine.deviations,
    Engine.deviation; simpl;
  rewrite (sqrt_of_square _ root) by lra;
  rewrite clamp_inside; lra.

(** A waist of 80 in the band from 75 to 85: deviation 0, fit score 1. *)
Example waist80_fits_M :
  Engine.fit_score_of Samples.waist80 (Samples.waistBand "M" 75 85) = 1%R.
Proof. score_of_band 0%R. Qed.

Example waist80_at_edge_of_S :
  Engine.fit_score_of Samples.waist80 (Samples.waistBand "S" 70 80) = 0%R.
Proof. score_of_band 1%R. Qed.

Example waist80_at_edge_of_L :
  Engine.fit_score_of Samples.waist80 (Samples.waistBand "L" 80 90) = 0%R.
Proof. score_of_band 1%R. Qed.

(** The catalog lists S, M, L; the response lists M first, and of S and L,
    which tie, the smaller size first. *)
Example pants_ranked_for_waist80 :
  Engine.recommend Samples.pants "MENS_PANTS" Samples.waist80 =
  Engine.Succeeded
    {| Engine.garment_category := "MENS_PANTS";
       Engine.garment_name := "Men's Pants";
       Engine.recommendations :=
         [ {| Engine.size := "M"; Engine.fit_score := 1%R |};
           {| Engine.size := "S"; Engine.fit_score := 0%R |};
           {| Engine.size := "L"; Engine.fit_score := 0%R |} ] |}.
Proof.
  unfold Engine.recommend. simpl Engine.find_category. cbv iota.
  unfold Samples.pants. simpl Engine.bands. simpl map.
  unfold Engine.score_band. simpl Engine.label.
  rewrite waist80_fits_M, waist80_at_edge_of_S, waist80_at_edge_of_L.
  repeat (simpl; unfold Engine.ltb;
          match goal with
          | |- context [Rlt_dec ?a ?b] => destruct (Rlt_dec a b); try lra
          end).
  reflexivity.
Qed.

(** ** The selection list of the studio as a whole *)

Section SelectionList.

Import Studio.

Lemma not_selected_id_absent (prev : list ClothItem) (item : ClothItem) :
  isSelected prev item = false -> ~ In (id item) (map id prev).
Proof.
  unfold isSelected. intros Hoff Hin. apply in_map_iff in Hin.
  destruct Hin as [i [Hid Hin]].
  assert (Hon : existsb (fun i => JS.strictEq (id i) (id item)) prev = true).
  { apply existsb_exists. exists i. split; [exact Hin|].
    rewrite Hid. apply strictEq_refl. }
  congruence.
Qed.

Lemma ids_distinct_in_kept (keep : ClothItem -> bool) (prev : list ClothItem) :
  NoDup (map id prev) -> NoDup (map id (filter keep prev)).
Proof.
  intros Hnd. induction prev as [|first rest IH]; simpl in *; [constructor|].
  apply NoDup_cons_iff in Hnd. destruct Hnd as [Hfresh Hrest].
  destruct (keep first); simpl; [|auto].
  apply NoDup_cons; [|auto].
  rewrite in_map_iff. intros [other [Hid Hin]]. apply filter_In in Hin.
  apply Hfresh. rewrite in_map_iff. exists other. tauto.
Qed.

(** The ids of the selection stay distinct: no toggle makes the list hold
    two items of one id. *)
Lemma handleToggleCloth_keeps_ids_distinct
    (prev : list ClothItem) (item : ClothItem) :
  NoDup (map id prev) -> NoDup (map id (handleToggleCloth item prev)).
Proof.
  intros Hnd. unfold handleToggleCloth.
  destruct (find _ prev) as [found|] eqn:Hfind.
  - now apply ids_distinct_in_kept.
  - apply find_none_existsb in Hfind.
    rewrite map_app. simpl.
    apply NoDup_app; [exact Hnd | repeat constructor; intros [] |].
    intros k Hin [Hk|[]]. subst k.
    now apply (not_selected_id_absent prev item).
Qed.

Lemma filter_out_one_id (prev : list ClothItem) (k : string) :
  NoDup (map id prev) -> In k (map id prev) ->
  S (List.length (filter (fun i => negb (JS.strictEq (id i) k)) prev))
  = List.length prev.
Proof.
  induction prev as [|a prev IH]; simpl; [intros _ []|].
  intros Hnd Hin. inversion Hnd as [|? ? Hnotin Hrest]; subst.
  destruct (JS.strictEq (id a) k) eqn:E; simpl.
  - apply strictEq_spec in E. subst k. f_equal.
    clear IH Hnd Hin Hrest. induction prev as [|b prev IH]; simpl; [reflexivity|].
    destruct (JS.strictEq (id b) (id a)) eqn:Eb; simpl.
    + apply strictEq_spec in Eb. exfalso. apply Hnotin. left. exact Eb.
    + f_equal. apply IH. intros H. apply Hnotin. now right.
  - f_equal. apply IH; [exact Hrest|].
    destruct Hin as [Hk|Hin]; [|exact Hin].
    subst k. rewrite strictEq_refl in E. discriminate.
Qed.

(** The count the studio shows beside "Selected Clothes" moves by exactly
    one with every toggle: one up when the item was not selected, and, the
    ids of the selection being distinct, one down when it was. *)
Lemma handleToggleCloth_moves_count_by_one
    (prev : list ClothItem) (item : ClothItem) :
  NoDup (map id prev) ->
  (isSelected prev item = false ->
     List.length (handleToggleCloth item prev) = S (List.length prev)) /\
  (isSelected prev item = true ->
     S (List.length (handleToggleCloth item prev)) = List.length prev).
Proof.
  intros Hnd. unfold handleToggleCloth, isSelected. split; intros Hsel.
  - apply find_none_existsb in Hsel. rewrite Hsel.
    rewrite length_app. simpl. lia.
  - destruct (find _ prev) as [found|] eqn:Hfind.
    + apply filter_out_one_id; [exact Hnd|].
      apply existsb_exists in Hsel. destruct Hsel as [i [Hin Hid]].
      apply strictEq_spec in Hid. rewrite <- Hid. now apply in_map.
    + apply find_none_existsb in Hfind. congruence.
Qed.

(** The item the try-on sends, [selectedClothes[0]], stays the first of the
    selection through every toggle of an item with another id. *)
Lemma handleToggleCloth_keeps_first
    (first : ClothItem) (rest : list ClothItem) (item : ClothItem) :
  id first <> id item ->
  nth_error (handleToggleCloth item (first :: rest)) 0 = Some first.
Proof.
  intros Hne. unfold handleToggleCloth.
  assert (Hoff : JS.strictEq (id first) (id item) = false)
    by now apply String.eqb_neq.
  simpl. rewrite Hoff.
  destruct (find _ rest); reflexivity.
Qed.

End SelectionList.

Lemma handleToggleCloth_keeps_ids_distinct_witness :
  NoDup (map Studio.id
           (Studio.handleToggleCloth Samples.dress [Samples.suit])).
Proof.
  apply handleToggleCloth_keeps_ids_distinct.
  repeat constructor; simpl; tauto.
Defined.

Lemma handleToggleCloth_moves_count_witness :
  List.length (Studio.handleToggleCloth Samples.dress [Samples.suit]) = 2 /\
  S (List.length
       (Studio.handleToggleCloth Samples.suit [Samples.suit; Samples.dress]))
  = 2.
Proof.
  split.
  - apply (handleToggleCloth_moves_count_by_one [Samples.suit] Samples.dress);
      [repeat constructor; simpl; tauto | reflexivity].
  - apply (handleToggleCloth_moves_count_by_one
             [Samples.suit; Samples.dress] Samples.suit); [|reflexivity].
    repeat constructor; simpl; try tauto. intros [H|[]]. discriminate.
Defined.

Lemma handleToggleCloth_keeps_first_witness :
  nth_error (Studio.handleToggleCloth Samples.dress
               [Samples.suit; Samples.dress]) 0
  = Some Samples.suit.
Proof. apply handleToggleCloth_keeps_first. discriminate. Defined.

(** ** What a run of the measurement form leaves on screen *)

Section MeasurementFormOutcome.

Variable Number : string -> JS.number.
Variable calculate : Api.MeasurementRequest -> Api.Settled.

(** Every run of [calculateMeasurements] ends in one of two ways.  Either
    the results on screen are the ones from before and an error is shown:
    a refused form, a rejected request and a response without success all
    end so, none of them clears results of an earlier run.  Or the server
    was asked once, it resolved with a response whose [success] is true,
    that response is the new result and the error is cleared.  In both
    cases at most one request went out. *)
Theorem calculateMeasurements_stores_successes_only (st : TryOn.State) :
  let after := fst (TryOn.calculateMeasurements Number calculate st) in
  let sent := snd (TryOn.calculateMeasurements Number calculate st) in
  (TryOn.results after = TryOn.results st /\ TryOn.error after <> None /\
   (sent = [] \/ exists req, sent = [req])) \/
  (exists req data,
     sent = [req] /\ calculate req = Api.Resolved data /\
     Api.success data = true /\
     Api.calibration_height req = Number (TryOn.height st) /\
     TryOn.results after = Some data /\ TryOn.error after = None /\
     TryOn.loading after = false).
Proof.
  unfold TryOn.calculateMeasurements.
  destruct (TryOn.frontImage st) as [front|];
    [|left; simpl; repeat split; [discriminate | now left]].
  destruct (TryOn.absent (Some front));
    [left; simpl; repeat split; [discriminate | now left]|].
  destruct (TryOn.heightRejected Number st);
    [left; simpl; repeat split; [discriminate | now left]|].
  cbv zeta.
  destruct (calculate (TryOn.requestOf Number front st)) as [data|detail] eqn:Hc.
  - destruct (Api.success data) eqn:Hs.
    + right. exists (TryOn.requestOf Number front st), data. simpl. auto 10.
    + left. simpl. repeat split; [discriminate | right; eauto].
  - left. simpl. repeat split; [discriminate | right; eauto].
Qed.

End MeasurementFormOutcome.

(** ** The outfit gallery *)

Section Gallery.

Import ClothCatalog.
Local Open Scope string_scope.

Lemma includes_spec (s sub : string) :
  JS.includes s sub = true <-> exists before after, s = before ++ sub ++ after.
Proof.
  induction s as [|c s IH].
  - simpl. rewrite orb_false_r. split.
    + intros H. apply (startsWith_spec "" sub) in H. destruct H as [rest H].
      exists "", rest. exact H.
    + intros [before [after H]].
      apply (startsWith_spec "" sub).
      destruct before; [now exists after | discriminate].
  - simpl JS.includes. rewrite orb_true_iff. split.
    + intros [H|H].
      * apply (startsWith_spec (String c s) sub) in H. destruct H as [rest H].
        exists "", rest. exact H.
      * apply IH in H. destruct H as [before [after H]].
        exists (String c before), after. simpl. now rewrite H.
    + intros [before [after H]]. destruct before as [|d before].
      * left. apply (startsWith_spec (String c s) sub). now exists after.
      * right. apply IH. simpl in H. injection H as _ H. now exists before, after.
Qed.

Lemma string_app_assoc (a b c : string) : (a ++ b) ++ c = a ++ b ++ c.
Proof. induction a as [|x a IH]; simpl; [reflexivity | now rewrite IH]. Qed.

Lemma string_app_empty (a : string) : a ++ "" = a.
Proof. induction a as [|x a IH]; simpl; [reflexivity | now rewrite IH]. Qed.

Lemma includes_trans (s t u : string) :
  JS.includes s t = true -> JS.includes t u = true -> JS.includes s u = true.
Proof.
  rewrite !includes_spec.
  intros [b1 [a1 ->]] [b2 [a2 ->]].
  exists (b1 ++ b2), (a2 ++ a1).
  now rewrite !string_app_assoc.
Qed.

Lemma toLowerCase_app (a b : string) :
  JS.toLowerCase (a ++ b) = JS.toLowerCase a ++ JS.toLowerCase b.
Proof. induction a as [|x a IH]; simpl; [reflexivity | now rewrite IH]. Qed.

Lemma matchesSearch_narrows (longer shorter : string) (item : Studio.ClothItem) :
  JS.includes (JS.toLowerCase longer) (JS.toLowerCase shorter) = true ->
  matchesSearch longer item = true -> matchesSearch shorter item = true.
Proof.
  intros Hq. unfold matchesSearch. rewrite !orb_true_iff.
  intros [H|H]; [left|right]; eapply includes_trans; eassumption.
Qed.

(** Typing on never adds an outfit: every outfit listed for a query that
    contains another query, upper and lower case set aside, is listed for
    that other query as well; so the list for [typed ++ more] and the list
    for [more ++ typed] lie within the list for [typed]. *)
Theorem filteredItems_narrows_with_query
    (typed more activeCategory : string) (item : Studio.ClothItem) :
  (forall longer,
     JS.includes (JS.toLowerCase longer) (JS.toLowerCase typed) = true ->
     In item (filteredItems longer activeCategory) ->
     In item (filteredItems typed activeCategory)) /\
  (In item (filteredItems (typed ++ more) activeCategory) ->
   In item (filteredItems typed activeCategory)) /\
  (In item (filteredItems (more ++ typed) activeCategory) ->
   In item (filteredItems typed activeCategory)).
Proof.
  assert (Hgen : forall longer,
     JS.includes (JS.toLowerCase longer) (JS.toLowerCase typed) = true ->
     In item (filteredItems longer activeCategory) ->
     In item (filteredItems typed activeCategory)).
  { intros longer Hq. unfold filteredItems. rewrite !filter_In, !andb_true_iff.
    intros [Hin [Hs Hc]]. repeat split; try assumption.
    eapply matchesSearch_narrows; eassumption. }
  split; [exact Hgen|]. split; apply Hgen; rewrite toLowerCase_app;
    apply includes_spec.
  - exists "", (JS.toLowerCase more). reflexivity.
  - exists (JS.toLowerCase more), "". now rewrite string_app_empty.
Qed.

Lemma includes_empty (s : string) : JS.includes s "" = true.
Proof. apply includes_spec. now exists "", s. Qed.

Lemma filter_all_kept (A : Type) (p : A -> bool) (l : list A) :
  (forall a, p a = true) -> filter p l = l.
Proof.
  intros Hp. induction l as [|a l IH]; simpl; [reflexivity|].
  now rewrite Hp, IH.
Qed.

Lemma filter_twice (A : Type) (p q : A -> bool) (l : list A) :
  filter p (filter q l) = filter (fun a => q a && p a) l.
Proof.
  induction l as [|a l IH]; simpl; [reflexivity|].
  destruct (q a); simpl; [destruct (p a)|]; now rewrite IH.
Qed.

(** With an empty query and the category All the gallery lists every
    outfit; a category button keeps, of the outfits the query lists under
    All, exactly those of its category, in the order of the gallery. *)
Theorem filteredItems_by_category
    (searchQuery activeCategory : string) (item : Studio.ClothItem) :
  filteredItems "" "All" = CLOTH_DATA /\
  (In item (filteredItems searchQuery activeCategory) <->
   In item (filteredItems searchQuery "All") /\
   (activeCategory = "All" \/ Studio.category item = activeCategory)) /\
  filteredItems searchQuery activeCategory
  = filter (matchesCategory activeCategory) (filteredItems searchQuery "All").
Proof.
  split; [|split].
  - unfold filteredItems. apply filter_all_kept.
    intros i. unfold matchesSearch. simpl JS.toLowerCase.
    now rewrite includes_empty.
  - unfold filteredItems. rewrite !filter_In, !andb_true_iff.
    unfold matchesCategory. rewrite !orb_true_iff, !strictEq_spec.
    simpl. intuition.
  - unfold filteredItems. rewrite filter_twice.
    apply filter_ext. intros i.
    replace (matchesCategory "All" i) with true by reflexivity.
    now rewrite andb_true_r.
Qed.

End Gallery.

(** ** The two requests of the studio *)

(** Case analysis on every test of the goal, innermost first. *)
Ltac has_no_match term :=
  tryif (match term with context [match _ with _ => _ end] => idtac end)
  then fail else idtac.

Ltac split_cases :=
  repeat match goal with
         | |- context [match ?scrutinee with _ => _ end] =>
             has_no_match scrutinee; destruct scrutinee eqn:?
         end.

Section StudioRequests.

Import StudioHandlers.
Local Open Scope string_scope.

Variable JSON_parse : string -> option JS.Value.
Variable fetchBlob : string -> Fetched.
Variable post : string -> FormData -> Posted.
Variable messageOf : JS.Error -> string.
Variable stringify : list Studio.ClothItem -> string.
Variable timestamp : string.

Local Abbreviation handleSimulate :=
  (StudioHandlers.handleSimulate JSON_parse fetchBlob post messageOf).
Local Abbreviation handleClothTryOn :=
  (StudioHandlers.handleClothTryOn JSON_parse fetchBlob post messageOf
     stringify timestamp).

Lemma extractImageUrl_returns_link (data : JS.Value) (url : string) :
  Studio.extractImageUrl JSON_parse data = JS.Return (Some url) ->
  Studio.isImageLink url = true.
Proof.
  unfold Studio.extractImageUrl.
  destruct (Studio.unwrapFirstItem data) as [unwrapped|e]; simpl;
    [|discriminate].
  intros [= H]. apply (finish_links_only JSON_parse) in H.
  destruct H as [raw [_ [Hraw ->]]]. now apply isImageLink_cleaned.
Qed.

(** What [handleSimulate] does with a response keeps both images in step:
    they stay as they were and an error is set, or both become the same
    link and the error stays as it was. *)
Lemma receiveAvatar_outcome (data : JS.Value) (st : State) :
  let after := receiveAvatar JSON_parse messageOf data st in
  (resultImage after = resultImage st /\ baseAvatar after = baseAvatar st /\
   error after <> None) \/
  (exists url, Studio.isImageLink url = true /\
               resultImage after = Some url /\ baseAvatar after = Some url /\
               error after = error st).
Proof.
  unfold receiveAvatar.
  destruct (JS.truthy data); [|left; simpl; repeat split; discriminate].
  destruct (Studio.extractImageUrl JSON_parse data) as [[url|]|e] eqn:Hx;
    try (left; simpl; repeat split; discriminate).
  destruct (JS.truthy (JS.Str url));
    [|left; simpl; repeat split; discriminate].
  right. exists url. simpl. repeat split.
  now apply extractImageUrl_returns_link in Hx.
Qed.

(** A run of [handleSimulate] either leaves both the result image and the
    base avatar as they were and shows an error, or sets both to one and
    the same link, with no error left.  It ends with [loading] false, leaves
    the selection alone, and posts at most once: to the avatar webhook, the
    photo as [image] and, as [outfit], the title of the first selected
    cloth or [Casual Suit]. *)
Theorem handleSimulate_moves_both_images (userImage : string) (st : State) :
  let after := fst (handleSimulate userImage st) in
  let done := snd (handleSimulate userImage st) in
  ((resultImage after = resultImage st /\ baseAvatar after = baseAvatar st /\
    error after <> None) \/
   (exists url, Studio.isImageLink url = true /\
                resultImage after = Some url /\ baseAvatar after = Some url /\
                error after = None)) /\
  loading after = false /\
  selectedClothes after = selectedClothes st /\
  alerts done = [] /\
  (posts done = [] \/
   exists b, fetchBlob userImage = FetchedBlob b /\
             posts done =
               [(N8N_AVATAR_WEBHOOK,
                 [("image", FilePart b "image.png");
                  ("outfit",
                   TextPart (match selectedClothes st with
                             | first :: _ => Studio.title first
                             | [] => "Casual Suit"
                             end))])]).
Proof.
  unfold StudioHandlers.handleSimulate.
  destruct (fetchBlob userImage) as [b|message] eqn:Hfetch; cbv zeta.
  - destruct (post N8N_AVATAR_WEBHOOK _) as [data|message].
    + pose proof (receiveAvatar_outcome data
                    (setError None (setLoading true st))) as Hout.
      cbv zeta in Hout. simpl fst. simpl snd.
      split.
      * destruct Hout as [[Hr [Hb He]]|[url [Hlink [Hr [Hb He]]]]].
        -- left. simpl. rewrite Hr, Hb. simpl. repeat split. exact He.
        -- right. exists url. simpl. rewrite Hr, Hb, He. simpl. auto.
      * simpl. repeat split.
        -- unfold receiveAvatar. split_cases; reflexivity.
        -- right. exists b. split; reflexivity.
    + simpl. repeat split; [left; repeat split; discriminate|].
      right. exists b. split; reflexivity.
  - simpl. repeat split; [left; repeat split; discriminate | now left].
Qed.

(** [handleClothTryOn] never touches the base avatar or the selection, so
    every try-on dresses the avatar of the last simulation, not the latest
    result.  With an empty selection it posts nothing.  Whatever it posts
    goes to the cloth webhook, carries the current result image as
    [avatar_url], and, when a base avatar is set, starts with that avatar's
    image under the name [image]. *)
Theorem handleClothTryOn_dresses_base_avatar (st : State) :
  let after := fst (handleClothTryOn st) in
  let done := snd (handleClothTryOn st) in
  baseAvatar after = baseAvatar st /\
  selectedClothes after = selectedClothes st /\
  (selectedClothes st = [] ->
     posts done = [] /\ alerts done = [] /\
     resultImage after = resultImage st /\
     error after = Some "Please select at least one item of clothing.") /\
  (forall url formData,
     In (url, formData) (posts done) ->
     url = N8N_CLOTH_WEBHOOK /\
     selectedClothes st <> [] /\
     In ("avatar_url", TextPart (orEmpty (resultImage st))) formData /\
     (forall avatar, baseAvatar st = Some avatar -> avatar <> "" ->
        exists b, fetchBlob avatar = FetchedBlob b /\
                  nth_error formData 0 = Some ("image", FilePart b "avatar.png"))).
Proof.
  unfold StudioHandlers.handleClothTryOn.
  destruct (selectedClothes st) as [|first rest] eqn:Hsel.
  { simpl. split; [reflexivity|]. split; [assumption|].
    split; [auto|]. intros ? ? []. }
  cbv zeta.
  assert (Hframe : forall form started,
            baseAvatar (fst (sendCloth JSON_parse post messageOf form started))
              = baseAvatar started /\
            selectedClothes (fst (sendCloth JSON_parse post messageOf form started))
              = selectedClothes started /\
            forall url formData,
              In (url, formData)
                 (posts (snd (sendCloth JSON_parse post messageOf form started))) ->
              url = N8N_CLOTH_WEBHOOK /\ formData = form).
  { intros form started. unfold sendCloth.
    split_cases; simpl; (split; [reflexivity|]); (split; [reflexivity|]);
      intros ? ? [[= <- <-]|[]]; auto. }
  assert (Hurl : forall avatarField,
            In ("avatar_url", TextPart (orEmpty (resultImage st)))
               (avatarField ++ clothFields fetchBlob stringify timestamp st)%list).
  { intros avatarField. apply in_or_app. right. unfold clothFields.
    apply in_or_app. left. now left. }
  destruct (JS.truthy (JS.Str (orEmpty (baseAvatar st)))) eqn:Htruthy.
  - destruct (fetchBlob (orEmpty (baseAvatar st))) as [b|message] eqn:Hfetch.
    + destruct (Hframe ([("image", FilePart b "avatar.png")]
                          ++ clothFields fetchBlob stringify timestamp st)%list
                       (setError None (setTryOnLoading true st)))
        as [Hb [Hs Hposts]].
      cbv beta iota zeta.
      destruct (sendCloth JSON_parse post messageOf _ _) as [sent eff].
      simpl in Hb, Hs, Hposts |- *. rewrite Hb, Hs, Hsel.
      split; [reflexivity|]. split; [reflexivity|]. split; [discriminate|].
      intros url formData Hin. destruct (Hposts url formData Hin) as [-> ->].
      split; [reflexivity|]. split; [discriminate|].
      split; [apply (Hurl [("image", FilePart b "avatar.png")])|].
      intros avatar Havatar _. exists b.
      rewrite Havatar in Hfetch. simpl in Hfetch. auto.
    + simpl. rewrite Hsel.
      split; [reflexivity|]. split; [reflexivity|]. split; [discriminate|].
      intros ? ? [].
  - destruct (Hframe ([] ++ clothFields fetchBlob stringify timestamp st)%list
                     (setError None (setTryOnLoading true st)))
      as [Hb [Hs Hposts]].
    cbv beta iota zeta.
    destruct (sendCloth JSON_parse post messageOf _ _) as [sent eff].
    simpl in Hb, Hs, Hposts |- *. rewrite Hb, Hs, Hsel.
    split; [reflexivity|]. split; [reflexivity|]. split; [discriminate|].
    intros url formData Hin. destruct (Hposts url formData Hin) as [-> ->].
    split; [reflexivity|]. split; [discriminate|]. split; [apply (Hurl [])|].
    intros avatar Havatar Hne. exfalso.
    rewrite Havatar in Htruthy. simpl in Htruthy.
    apply negb_false_iff, strictEq_spec in Htruthy. contradiction.
Qed.

(** The studio only ever shows links: when the result image and the base
    avatar are each empty or a string that starts with [http] or [data:],
    they are so again after [handleSimulate] and after [handleClothTryOn]. *)
Theorem studio_images_stay_links (userImage : string) (st : State) :
  linkOrNull (resultImage st) -> linkOrNull (baseAvatar st) ->
  (linkOrNull (resultImage (fst (handleSimulate userImage st))) /\
   linkOrNull (baseAvatar (fst (handleSimulate userImage st)))) /\
  (linkOrNull (resultImage (fst (handleClothTryOn st))) /\
   linkOrNull (baseAvatar (fst (handleClothTryOn st)))).
Proof.
  intros Hresult Hbase. split.
  - unfold StudioHandlers.handleSimulate.
    destruct (fetchBlob userImage) as [b|message]; [|now split].
    cbv zeta. destruct (post N8N_AVATAR_WEBHOOK _) as [data|message];
      [|now split].
    destruct (receiveAvatar_outcome data (setError None (setLoading true st)))
      as [[Hr [Hb _]]|[url [Hlink [Hr [Hb _]]]]];
      simpl; rewrite Hr, Hb; simpl; auto.
  - unfold StudioHandlers.handleClothTryOn.
    destruct (selectedClothes st); [now split|]. cbv zeta.
    assert (Hsend : forall form,
              let sent := fst (sendCloth JSON_parse post messageOf form
                                 (setError None (setTryOnLoading true st))) in
              linkOrNull (resultImage sent) /\ linkOrNull (baseAvatar sent)).
    { intros form. unfold sendCloth.
      destruct (post N8N_CLOTH_WEBHOOK form) as [data|message]; [|now split].
      destruct (JS.truthy data); [|now split].
      destruct (Studio.extractImageUrl JSON_parse data) as [[url|]|e] eqn:Hx;
        try now split.
      destruct (JS.truthy (JS.Str url)); [|now split].
      simpl. split; [|assumption].
      now apply extractImageUrl_returns_link in Hx. }
    destruct (JS.truthy (JS.Str (orEmpty (baseAvatar st)))).
    + destruct (fetchBlob (orEmpty (baseAvatar st))); [|now split].
      apply Hsend.
    + apply Hsend.
Qed.

End StudioRequests.

Lemma studio_images_stay_links_witness :
  (StudioHandlers.linkOrNull
     (StudioHandlers.resultImage
        (fst (StudioHandlers.handleSimulate Samples.rejectJson Samples.fetched
                Samples.answerWithLink Samples.errorText
                "data:image/jpeg;base64,/9j/4AAQ" Samples.dressedStudio))) /\
   StudioHandlers.linkOrNull
     (StudioHandlers.baseAvatar
        (fst (StudioHandlers.handleSimulate Samples.rejectJson Samples.fetched
                Samples.answerWithLink Samples.errorText
                "data:image/jpeg;base64,/9j/4AAQ" Samples.dressedStudio)))) /\
  (StudioHandlers.linkOrNull
     (StudioHandlers.resultImage
        (fst (StudioHandlers.handleClothTryOn Samples.rejectJson Samples.fetched
                Samples.answerWithLink Samples.errorText Samples.listing
                "2024-01-01T00:00:00.000Z" Samples.dressedStudio))) /\
   StudioHandlers.linkOrNull
     (StudioHandlers.baseAvatar
        (fst (StudioHandlers.handleClothTryOn Samples.rejectJson Samples.fetched
                Samples.answerWithLink Samples.errorText Samples.listing
                "2024-01-01T00:00:00.000Z" Samples.dressedStudio)))).
Proof. apply studio_images_stay_links; reflexivity. Defined.

(** ** The login and registration page *)

Section AuthPage.

Import Auth.
Local Open Scope string_scope.

Variable fetch : Request -> Fetched.
Variable messageOf : JS.Error -> string.
Variable toString : JS.Value -> string.
Variable stringify : JS.Value -> string.

Local Abbreviation loginSubmit :=
  (Auth.loginSubmit fetch messageOf toString stringify).
Local Abbreviation registerSubmit :=
  (Auth.registerSubmit fetch messageOf toString).
Local Abbreviation runTimer := (Auth.runTimer fetch toString stringify).
Local Abbreviation settle := (Auth.settle fetch toString stringify).

Lemma truthy_text (t : string) : JS.truthy (JS.Str t) = true <-> t <> "".
Proof.
  simpl. rewrite negb_true_iff. split.
  - intros Hne ->. now rewrite strictEq_refl in Hne.
  - intros Hne. destruct (JS.strictEq t "") eqn:E; [|reflexivity].
    apply strictEq_spec in E. contradiction.
Qed.

(** The checks of the registration listener, read as one test. *)
Lemma registration_checks (e u pw c : string) :
  validRegistration e u pw c <->
  (negb (JS.truthy (JS.Str (JS.trim e))) || negb (JS.truthy (JS.Str (JS.trim u)))
   || negb (JS.truthy (JS.Str pw)) || negb (JS.truthy (JS.Str c)) = false /\
   negb (JS.strictEq pw c) = false /\
   (String.length pw <? 8)%nat = false /\
   (String.length (JS.trim u) <? 3)%nat = false).
Proof.
  unfold validRegistration.
  rewrite !orb_false_iff, !negb_false_iff, !truthy_text, strictEq_spec,
    !Nat.ltb_ge.
  split.
  - intros [He [Hpw [Heq [H8 H3]]]]. subst c. repeat split; auto.
    intros Hu. rewrite Hu in H3. simpl in H3. lia.
  - tauto.
Qed.

(** The registration listener sends something exactly for a form that is
    filled in, whose two passwords are equal, whose password has at least 8
    code units and whose trimmed user name has at least 3.  What it sends is
    the trimmed e-mail and user name with the password as typed; and when
    that request is answered [ok] with a JSON body, one login follows whose
    user name is the e-mail address. *)
Theorem registerSubmit_sends_validated_data
    (email_field username_field password_field confirm_field : string)
    (p : Page) :
  let sent :=
    snd (settle (registerSubmit email_field username_field password_field
                   confirm_field p)) in
  let registration :=
    PostRegister (JS.trim email_field) (JS.trim username_field)
                 password_field password_field in
  let login := PostLogin (JS.trim email_field) password_field in
  (validRegistration email_field username_field password_field confirm_field
   <-> sent <> []) /\
  (sent = [] \/ sent = [registration] \/ sent = [registration; login]) /\
  (sent = [registration; login] <->
   validRegistration email_field username_field password_field confirm_field /\
   exists result, fetch registration = Responded true (Json result)).
Proof.
  cbv zeta. unfold Auth.registerSubmit.
  pose proof (registration_checks email_field username_field password_field
                confirm_field) as Hchecks.
  destruct (negb (JS.truthy (JS.Str (JS.trim email_field))) || _ || _ || _)
    eqn:Hfilled.
  { simpl. split; [|split].
    - split; [intros Hv; apply Hchecks in Hv; destruct Hv; discriminate
             | intros H; now contradiction H].
    - now left.
    - split; [discriminate|].
      intros [Hv _]. apply Hchecks in Hv. destruct Hv. discriminate. }
  destruct (negb (JS.strictEq password_field confirm_field)) eqn:Hsame.
  { simpl. split; [|split].
    - split; [intros Hv; apply Hchecks in Hv; destruct Hv as [_ [? _]];
              discriminate
             | intros H; now contradiction H].
    - now left.
    - split; [discriminate|].
      intros [Hv _]. apply Hchecks in Hv. destruct Hv as [_ [? _]].
      discriminate. }
  destruct (String.length password_field <? 8)%nat eqn:Hlong.
  { simpl. split; [|split].
    - split; [intros Hv; apply Hchecks in Hv; destruct Hv as [_ [_ [? _]]];
              discriminate
             | intros H; now contradiction H].
    - now left.
    - split; [discriminate|].
      intros [Hv _]. apply Hchecks in Hv. destruct Hv as [_ [_ [? _]]].
      discriminate. }
  destruct (String.length (JS.trim username_field) <? 3)%nat eqn:Hname.
  { simpl. split; [|split].
    - split; [intros Hv; apply Hchecks in Hv; destruct Hv as [_ [_ [_ ?]]];
              discriminate
             | intros H; now contradiction H].
    - now left.
    - split; [discriminate|].
      intros [Hv _]. apply Hchecks in Hv. destruct Hv as [_ [_ [_ ?]]].
      discriminate. }
  assert (Hvalid : validRegistration email_field username_field password_field
                     confirm_field) by (apply Hchecks; auto).
  assert (Hc : confirm_field = password_field)
    by (symmetry; apply Hvalid).
  rewrite Hc in *. cbv zeta.
  destruct (fetch (PostRegister _ _ _ _)) as [message|ok [result|message]]
    eqn:Hfetch.
  - simpl. split; [|split].
    + split; [discriminate | auto].
    + right. now left.
    + split; [discriminate | intros [_ [result [=]]]].
  - destruct ok.
    + simpl negb. cbv iota. unfold Auth.settle, Auth.runTimer.
      split; [|split].
      * split; [intros _; simpl; discriminate | auto].
      * right. right. simpl.
        destruct (fetch (PostLogin _ _)) as [?|? [?|?]]; try reflexivity.
        destruct ok; [|reflexivity].
        destruct (JS.get _ _); reflexivity.
      * split; [intros _; split; [exact Hvalid | now exists result]|].
        intros _. simpl.
        destruct (fetch (PostLogin _ _)) as [?|? [?|?]]; try reflexivity.
        destruct ok; [|reflexivity].
        destruct (JS.get _ _); reflexivity.
    + simpl. split; [|split].
      * split; [discriminate | auto].
      * right. now left.
      * split; [discriminate | intros [_ [r [=]]]].
  - simpl. split; [|split].
    + split; [discriminate | auto].
    + right. now left.
    + split; [discriminate | intros [_ [r [=]]]].
Qed.

(** The page never displays its error box and its success box together:
    not after a login, not after a registration with its automatic login,
    not after a click on a tab. *)
Theorem auth_page_shows_one_message (p : Page) :
  (forall u pw, atMostOneMessage (fst (settle (loginSubmit u pw p)))) /\
  (forall e u pw c, atMostOneMessage (fst (settle (registerSubmit e u pw c p)))) /\
  (forall i shown, clickTab i p = JS.Return shown -> atMostOneMessage shown).
Proof.
  split; [|split].
  - intros u pw.
    unfold Auth.settle, Auth.loginSubmit, Auth.runTimer, atMostOneMessage.
    split_cases; simpl; auto.
  - intros e u pw c.
    unfold Auth.settle, Auth.registerSubmit, Auth.runTimer,
      Auth.autoLoginFailed, clickTab, atMostOneMessage.
    split_cases; simpl; auto.
  - intros i shown. unfold clickTab, atMostOneMessage.
    destruct (nth_error (authTabs p) i); [|discriminate].
    intros [= <-]. simpl. auto.
Qed.

(** A login sends nothing, or one request with the trimmed user name and
    the password as typed.  It ends in one of two ways.  Either the server
    answered [ok] with a JSON body that is neither [null] nor [undefined]:
    then the body's [access_token] and [user] are in the storage, the
    success box is shown and the page leaves for [/app].  Or the storage
    and the address are as before, the error box is shown and the login
    button is as it was or enabled. *)
Theorem loginSubmit_opens_session_or_reports (u pw : string) (p : Page) :
  let after := fst (settle (loginSubmit u pw p)) in
  let sent := snd (settle (loginSubmit u pw p)) in
  (sent = [] \/ sent = [PostLogin (JS.trim u) pw]) /\
  ((exists result access_token,
      fetch (PostLogin (JS.trim u) pw) = Responded true (Json result) /\
      JS.get result "access_token" = JS.Return access_token /\
      getItem "auth_token" (localStorage after)
        = Some (text toString access_token) /\
      getItem "user" (localStorage after)
        = Some (stringify (JS.lookup "user" (JS.entries result))) /\
      location_href after = "/app" /\
      successMessage_display (messages after) = "flex") \/
   (localStorage after = localStorage p /\
    location_href after = location_href p /\
    errorMessage_display (messages after) = "flex" /\
    (loginBtn after = loginBtn p \/ loginBtn after = idle))).
Proof.
  cbv zeta. unfold Auth.loginSubmit, Auth.settle.
  destruct (negb (JS.truthy (JS.Str (JS.trim u))) || _).
  { simpl. split; [now left|]. right. repeat split. now left. }
  cbv zeta.
  destruct (fetch (PostLogin (JS.trim u) pw)) as [message|ok [result|message]]
    eqn:Hfetch;
    try (simpl; split; [now right|]; right; repeat split; now right).
  destruct ok;
    [|simpl; split; [now right|]; right; repeat split; now right].
  simpl negb. cbv iota.
  destruct (JS.get result "access_token") as [access_token|e] eqn:Htoken;
    [|simpl; split; [now right|]; right; repeat split; now right].
  split; [now right|]. left. exists result, access_token.
  simpl. repeat split. exact Htoken.
Qed.

(** Once the server has accepted a registration, this code never enables
    the Register button again and shows no error, whatever becomes of the
    automatic login.  The page leaves for [/app] or keeps its address and
    its storage.  And when the automatic login is answered with a JSON body
    but not [ok], nothing more happens: the page goes on saying that it is
    logging in. *)
Theorem accepted_registration_keeps_button_busy
    (email_field username_field password_field confirm_field : string)
    (p : Page) (result : JS.Value) :
  validRegistration email_field username_field password_field confirm_field ->
  fetch (PostRegister (JS.trim email_field) (JS.trim username_field)
           password_field password_field)
    = Responded true (Json result) ->
  let after :=
    fst (settle (registerSubmit email_field username_field password_field
                   confirm_field p)) in
  registerBtn after = busy /\
  errorMessage_display (messages after) = "none" /\
  (location_href after = "/app" \/
   (location_href after = location_href p /\
    localStorage after = localStorage p)) /\
  (forall refusal,
     fetch (PostLogin (JS.trim email_field) password_field)
       = Responded false (Json refusal) ->
     after = showSuccess "Account created! Logging you in..."
               (set_registerBtn busy (hideMessages p))).
Proof.
  intros Hvalid Hfetch. cbv zeta.
  pose proof Hvalid as Hchecks. apply registration_checks in Hchecks.
  destruct Hchecks as [Hfilled [Hsame [Hlong Hname]]].
  assert (Hc : confirm_field = password_field) by (symmetry; apply Hvalid).
  unfold Auth.registerSubmit.
  rewrite Hfilled, Hsame, Hlong, Hname. cbv zeta. rewrite Hc, Hfetch.
  simpl negb. cbv iota. unfold Auth.settle, Auth.runTimer.
  destruct (fetch (PostLogin _ _)) as [message|ok [loginResult|message]]
    eqn:Hlogin.
  - unfold Auth.autoLoginFailed, clickTab. simpl.
    split_cases; simpl; repeat split; auto; discriminate.
  - destruct ok.
    + destruct (JS.get loginResult "access_token").
      * simpl. repeat split; auto. discriminate.
      * unfold Auth.autoLoginFailed, clickTab. simpl.
        split_cases; simpl; repeat split; auto; discriminate.
    + simpl. repeat split; auto.
  - unfold Auth.autoLoginFailed, clickTab. simpl.
    split_cases; simpl; repeat split; auto; discriminate.
Qed.

End AuthPage.

Lemma accepted_registration_witness :
  Auth.validRegistration " ada@example.com " "ada" "correct horse" "correct horse" /\
  Auth.registerBtn
    (fst (Auth.settle Samples.creatingOnly Samples.plainText Samples.plainText
            (Auth.registerSubmit Samples.creatingOnly Samples.errorText
               Samples.plainText
               " ada@example.com " "ada" "correct horse" "correct horse"
               Samples.authPage)))
  = Auth.busy.
Proof.
  assert (Hvalid : Auth.validRegistration " ada@example.com " "ada"
                     "correct horse" "correct horse").
  { unfold Auth.validRegistration. simpl.
    repeat split; try discriminate; lia. }
  split; [exact Hvalid|].
  apply (accepted_registration_keeps_button_busy Samples.creatingOnly
           Samples.errorText Samples.plainText Samples.plainText
           " ada@example.com " "ada" "correct horse" "correct horse"
           Samples.authPage Samples.account Hvalid).
  reflexivity.
Defined.

(** ** The history of the static page *)

Section HistoryList.

Import History.

Variable toLocaleString : string -> string.
Variable capitalize : string -> string.
Variable fetch : string -> Fetched.

Local Abbreviation historyRow := (History.historyRow toLocaleString capitalize).
Local Abbreviation appendRows := (History.appendRows toLocaleString capitalize).
Local Abbreviation displayHistory :=
  (History.displayHistory toLocaleString capitalize).
Local Abbreviation fetchHistory :=
  (History.fetchHistory toLocaleString capitalize fetch).

Lemma historyRow_printable (item : HistoryItem) :
  printable item -> exists row, historyRow item = JS.Return row.
Proof.
  intros [Hgender [m [Hm [Hchest [Hwaist Hhip]]]]].
  unfold History.historyRow. rewrite Hm.
  destruct (item_gender item); [|contradiction].
  destruct (Api.chest m); [|contradiction].
  destruct (Api.waist m); [|contradiction].
  destruct (Api.hip m); [|contradiction].
  simpl. eauto.
Qed.

Lemma historyRow_unprintable (item : HistoryItem) :
  ~ printable item -> historyRow item = JS.Throw JS.TypeError.
Proof.
  intros Hbad. unfold History.historyRow.
  destruct (item_gender item) as [gender|] eqn:Hgender; [|reflexivity].
  destruct (item_measurements item) as [m|] eqn:Hm; [|reflexivity].
  destruct (Api.chest m) eqn:Hchest; [|reflexivity].
  destruct (Api.waist m) eqn:Hwaist; [|reflexivity].
  destruct (Api.hip m) eqn:Hhip; [|reflexivity].
  exfalso. apply Hbad. split; [congruence|].
  exists m. repeat split; congruence.
Qed.

Lemma appendRows_printable (before : list HistoryItem) :
  Forall printable before ->
  exists rows,
    Forall2 (fun item row => historyRow item = JS.Return row) before rows /\
    forall rest shown,
      appendRows (before ++ rest) shown = appendRows rest (shown ++ rows).
Proof.
  induction 1 as [|item before Hitem _ [rows [Hrows Hrun]]].
  - exists []. split; [constructor|].
    intros rest shown. now rewrite app_nil_r.
  - destruct (historyRow_printable item Hitem) as [row Hrow].
    exists (row :: rows). split; [now constructor|].
    intros rest shown. simpl. rewrite Hrow, Hrun.
    now rewrite <- app_assoc.
Qed.

(** One entry that cannot be printed cuts the history short, and nobody is
    told.  When the server answers with a history whose first entries can
    all be printed and whose next entry cannot (its chest is [null], say, as
    for a measurement without a side image), [fetchHistory] shows the rows
    of the first entries and none of the later ones, leaves the session as it
    is and shows no error. *)
Theorem fetchHistory_stops_at_first_unprintable
    (p : Page) (shown : HistoryList) (status : nat)
    (before after : list HistoryItem) (bad : HistoryItem) :
  noToken (session p) = false ->
  historyList (section p) = Some shown ->
  fetch (bearer (session p))
    = Responded status (Json true (Some (before ++ bad :: after))) ->
  status <> 401 ->
  Forall printable before ->
  ~ printable bad ->
  exists rows,
    Forall2 (fun item row => historyRow item = JS.Return row) before rows /\
    fst (fetchHistory p)
    = {| session := session p;
         section := {| historyList := Some (Rows rows);
                       historySection_display := "block" |} |}.
Proof.
  intros Htoken Hlist Hfetch Hstatus Hbefore Hbad.
  destruct (appendRows_printable before Hbefore) as [rows [Hrows Hrun]].
  exists rows. split; [exact Hrows|].
  unfold History.fetchHistory. rewrite Htoken, Hfetch.
  apply Nat.eqb_neq in Hstatus. rewrite Hstatus. simpl fst.
  unfold History.displayHistory. rewrite Hlist.
  assert (Happend : appendRows (before ++ bad :: after) []
                    = (rows, Some JS.TypeError)).
  { rewrite Hrun. simpl. now rewrite (historyRow_unprintable bad Hbad). }
  destruct (before ++ bad :: after) eqn:Hitems.
  - now destruct before.
  - now rewrite Happend.
Qed.

End HistoryList.

Lemma fetchHistory_stops_witness :
  fst (History.fetchHistory Samples.asWritten Samples.asWritten
         Samples.twoEntries Samples.historyPage)
  = {| History.session := History.session Samples.historyPage;
       History.section :=
         {| History.historyList :=
              Some (History.Rows
                      [ {| History.row_date := "2024-05-01T10:00:00";
                           History.row_gender := "female";
                           History.row_height := JS.Num (JS.Finite 175%Q);
                           History.row_units := "cm";
                           History.row_chest := 96%Q;
                           History.row_waist := 80%Q;
                           History.row_hip := 98%Q |} ]);
            History.historySection_display := "block" |} |}.
Proof.
  destruct (fetchHistory_stops_at_first_unprintable
              Samples.asWritten Samples.asWritten Samples.twoEntries
              Samples.historyPage (History.Markup "") 200
              [Samples.entryOf Samples.fullProfile]
              [Samples.entryOf Samples.fullProfile]
              (Samples.entryOf Samples.chestlessProfile))
    as [rows [Hrows Hpage]].
  - reflexivity.
  - reflexivity.
  - reflexivity.
  - discriminate.
  - repeat constructor; try discriminate.
    exists Samples.fullProfile. repeat split; discriminate.
  - intros [_ [m [Hm [Hchest _]]]]. injection Hm as <-. now apply Hchest.
  - rewrite Hpage. inversion Hrows as [|? ? ? ? Hrow Hrest]; subst.
    inversion Hrest; subst. injection Hrow as <-. reflexivity.
Defined.

(** ** The calculation of the static page *)

Section Calculation.

Import Measure.

Variable parseFloat : string -> JS.number.
Variable messageOf : JS.Error -> string.
Variable toString : JS.Value -> string.
Variable fetch : Request -> Fetched.

Local Abbreviation removeImage := (Measure.removeImage parseFloat).
Local Abbreviation requestOf := (Measure.requestOf parseFloat).
Local Abbreviation start := (Measure.start parseFloat).
Local Abbreviation resume := (Measure.resume messageOf toString).
Local Abbreviation calculateMeasurements :=
  (Measure.calculateMeasurements parseFloat messageOf toString fetch).
Local Abbreviation inStep := (Measure.inStep parseFloat).

Lemma validateForm_inStep (p : Script.Page) :
  inStep (Script.validateForm parseFloat p).
Proof. reflexivity. Qed.

(** [showResultsSection] displays the section and touches nothing else
    but the category select. *)
Lemma showResultsSection_frame (app : App) :
  form (fst (showResultsSection app)) = form app /\
  controls (fst (showResultsSection app)) = controls app /\
  session (fst (showResultsSection app)) = session app /\
  measurements (results (fst (showResultsSection app)))
    = measurements (results app) /\
  measurementsGrid (results (fst (showResultsSection app)))
    = measurementsGrid (results app) /\
  resultsSection_display (results (fst (showResultsSection app)))
    = "block"%string.
Proof.
  unfold showResultsSection.
  destruct (garmentCategories app); [simpl; auto 10|].
  destruct (JS.truthy (JS.Str (value (garmentCategorySelect app))));
    simpl; auto 10.
Qed.

(** [displayResults] when [drawSkeleton] is not called or returns. *)
Lemma displayResults_shown (data : Api.MeasurementResponse) (app : App) :
  skeletonThrows data = false ->
  snd (displayResults data app) = None /\
  form (fst (fst (displayResults data app))) = form app /\
  controls (fst (fst (displayResults data app))) = controls app /\
  session (fst (fst (displayResults data app))) = session app /\
  measurements (results (fst (fst (displayResults data app))))
    = measurements (results app) /\
  measurementsGrid (results (fst (fst (displayResults data app))))
    = Script.displayResults (Api.measurements data) /\
  resultsSection_display (results (fst (fst (displayResults data app))))
    = "block"%string.
Proof.
  unfold skeletonThrows, displayResults. intros Hdrawn. cbv beta zeta.
  assert (Hframe : forall handed,
            let carded :=
              set_results
                {| measurements := measurements (results app);
                   landmarks := landmarks (results app);
                   measurementsGrid := Script.displayResults (Api.measurements data);
                   skeleton := handed;
                   resultsSection_display := resultsSection_display (results app) |}
                app in
            form (fst (showResultsSection carded)) = form app /\
            controls (fst (showResultsSection carded)) = controls app /\
            session (fst (showResultsSection carded)) = session app /\
            measurements (results (fst (showResultsSection carded)))
              = measurements (results app) /\
            measurementsGrid (results (fst (showResultsSection carded)))
              = Script.displayResults (Api.measurements data) /\
            resultsSection_display (results (fst (showResultsSection carded)))
              = "block"%string).
  { intros handed carded. exact (showResultsSection_frame carded). }
  destruct (Api.front_landmarks data) as [front|].
  - destruct (JS.truthy front); simpl in Hdrawn.
    + rewrite Hdrawn. cbn [fst snd]. split; [reflexivity | apply Hframe].
    + cbn [fst snd]. split; [reflexivity | apply Hframe].
  - cbn [fst snd]. split; [reflexivity | apply Hframe].
Qed.

(** [displayResults] when [drawSkeleton] throws: the cards are in the grid,
    the section is as it was and no timer is set. *)
Lemma displayResults_thrown (data : Api.MeasurementResponse) (app : App) :
  skeletonThrows data = true ->
  displayResults data app
  = (set_results
       {| measurements := measurements (results app);
          landmarks := landmarks (results app);
          measurementsGrid := Script.displayResults (Api.measurements data);
          skeleton := Api.front_landmarks data;
          resultsSection_display := resultsSection_display (results app) |}
       app,
     [], Some JS.TypeError).
Proof.
  unfold skeletonThrows, displayResults. intros Hthrown.
  destruct (Api.front_landmarks data) as [front|]; [|discriminate].
  apply andb_true_iff in Hthrown. destruct Hthrown as [-> ->]. reflexivity.
Qed.

(** What [resume] leaves of the form: its state and its height as they
    were, the button enabled. *)
Lemma resume_form (settled : Fetched) (app : App) :
  Script.state (form (fst (resume settled app))) = Script.state (form app) /\
  Script.heightInput_value (Script.elements (form (fst (resume settled app))))
  = Script.heightInput_value (Script.elements (form app)) /\
  Script.calculateBtn_disabled (Script.elements (form (fst (resume settled app))))
  = false.
Proof.
  unfold Measure.resume.
  destruct settled as [message| |[error|message]|[data|message]];
    try (simpl; auto; fail).
  destruct (Api.success data); [|simpl; auto].
  simpl negb. cbv iota zeta.
  destruct (skeletonThrows data) eqn:Hskeleton.
  - rewrite (displayResults_thrown data _ Hskeleton). simpl. auto.
  - destruct (displayResults_shown data
                (set_results
                   {| measurements := Some (Api.measurements data);
                      landmarks := Some (Api.front_landmarks data,
                                         Api.side_landmarks data);
                      measurementsGrid := measurementsGrid (results app);
                      skeleton := skeleton (results app);
                      resultsSection_display :=
                        resultsSection_display (results app) |}
                   app) Hskeleton)
      as [Hnone [Hform _]].
    rewrite Hnone. cbn [fst snd form set_button set_controls set_form].
    rewrite Hform. simpl. auto.
Qed.

(** What [resume] makes of a response with [success] whose skeleton is
    drawn to the end. *)
Lemma resume_success (data : Api.MeasurementResponse) (app : App) :
  Api.success data = true ->
  skeletonThrows data = false ->
  measurements (results (fst (resume (Succeeded (Json data)) app)))
    = Some (Api.measurements data) /\
  measurementsGrid (results (fst (resume (Succeeded (Json data)) app)))
    = Script.displayResults (Api.measurements data) /\
  resultsSection_display (results (fst (resume (Succeeded (Json data)) app)))
    = "block"%string /\
  Script.errorMessage_display
    (Script.elements (form (fst (resume (Succeeded (Json data)) app))))
    = Script.errorMessage_display (Script.elements (form app)) /\
  session (fst (resume (Succeeded (Json data)) app)) = session app /\
  In FetchHistory (snd (resume (Succeeded (Json data)) app)).
Proof.
  intros Hsuccess Hskeleton. unfold Measure.resume.
  rewrite Hsuccess. simpl negb. cbv iota zeta.
  destruct (displayResults_shown data
              (set_results
                 {| measurements := Some (Api.measurements data);
                    landmarks := Some (Api.front_landmarks data,
                                       Api.side_landmarks data);
                    measurementsGrid := measurementsGrid (results app);
                    skeleton := skeleton (results app);
                    resultsSection_display :=
                      resultsSection_display (results app) |}
                 app) Hskeleton)
    as [Hnone [Hform [_ [Hsession [Hm [Hgrid Hshown]]]]]].
  rewrite Hnone.
  cbn [fst snd form results session set_button set_controls set_form].
  rewrite Hform, Hsession, Hm, Hgrid, Hshown. simpl.
  repeat split. apply in_or_app. right. now left.
Qed.

(** What [resume] makes of a response with [success] on whose landmarks
    [drawSkeleton] throws: the measurements are stored and their cards are
    in the grid, but the error is shown, the results section is as it was
    and nothing is started. *)
Lemma resume_thrown (data : Api.MeasurementResponse) (app : App) :
  Api.success data = true ->
  skeletonThrows data = true ->
  measurements (results (fst (resume (Succeeded (Json data)) app)))
    = Some (Api.measurements data) /\
  measurementsGrid (results (fst (resume (Succeeded (Json data)) app)))
    = Script.displayResults (Api.measurements data) /\
  resultsSection_display (results (fst (resume (Succeeded (Json data)) app)))
    = resultsSection_display (results app) /\
  Script.errorMessage_display
    (Script.elements (form (fst (resume (Succeeded (Json data)) app))))
    = "flex"%string /\
  Script.errorText_textContent
    (Script.elements (form (fst (resume (Succeeded (Json data)) app))))
    = messageOf JS.TypeError /\
  session (fst (resume (Succeeded (Json data)) app)) = session app /\
  snd (resume (Succeeded (Json data)) app) = [].
Proof.
  intros Hsuccess Hskeleton. unfold Measure.resume.
  rewrite Hsuccess. simpl negb. cbv iota zeta.
  rewrite (displayResults_thrown data _ Hskeleton). simpl. auto 10.
Qed.

(** Every handler of the form leaves the Calculate button in step with the
    form: after [removeImage], after the [onload] of a read and after
    [validateForm] the button is enabled exactly when a front image is
    stored and the height reads as a number above zero; [processFile]
    changes neither.  [removeImage] empties the slot it names ([front], or
    the side for any other name) and keeps the other, so that removing the
    front image disables the button whatever the height is. *)
Theorem form_handlers_keep_button_in_step :
  (forall type_ app, inStep (form (removeImage type_ app))) /\
  (forall r imageData p, inStep (Script.onload parseFloat r imageData p)) /\
  (forall p, inStep (Script.validateForm parseFloat p)) /\
  (forall file type_ p,
     inStep p -> inStep (fst (Script.processFile file type_ p))) /\
  (forall app,
     Script.frontImageData (Script.state (form (removeImage "front" app))) = None /\
     Script.sideImageData (Script.state (form (removeImage "front" app)))
       = Script.sideImageData (Script.state (form app)) /\
     Script.calculateBtn_disabled
       (Script.elements (form (removeImage "front" app))) = true) /\
  (forall type_ app,
     type_ <> "front"%string ->
     Script.sideImageData (Script.state (form (removeImage type_ app))) = None /\
     Script.frontImageData (Script.state (form (removeImage type_ app)))
       = Script.frontImageData (Script.state (form app))).
Proof.
  split; [|split; [|split; [|split; [|split]]]].
  - intros type_ app. unfold Measure.removeImage.
    destruct (JS.strictEq type_ "front"); reflexivity.
  - intros r imageData p. unfold Script.onload.
    destruct (JS.strictEq (Script.read_type r) "front"); reflexivity.
  - intros p. reflexivity.
  - intros file type_ p Hp. unfold Script.processFile.
    destruct (negb _); [exact Hp|].
    destruct (_ <? _)%N; exact Hp.
  - intros app. repeat split.
  - intros type_ app Hside. unfold Measure.removeImage.
    destruct (JS.strictEq type_ "front") eqn:E; [|split; reflexivity].
    apply strictEq_spec in E. contradiction.
Qed.

(** The end of a calculation enables the button without looking at the
    form.  When the front image is removed while the request runs, the
    button is disabled as long as the request runs and enabled once it has
    settled, however it settles: the page then offers Calculate on a form
    without a front image, and the request a click builds has [null] as
    its front image. *)
Theorem calculation_reenables_button_on_emptied_form
    (app : App) (settled : Fetched) :
  let waiting := fst (start app) in
  let emptied := removeImage "front" waiting in
  let ended := fst (resume settled emptied) in
  Script.calculateBtn_disabled (Script.elements (form waiting)) = true /\
  Script.calculateBtn_disabled (Script.elements (form emptied)) = true /\
  Script.calculateBtn_disabled (Script.elements (form ended)) = false /\
  Script.hasFrontImage (form ended) = false /\
  ~ inStep (form ended) /\
  front_image (requestOf ended) = None.
Proof.
  cbv zeta.
  destruct (resume_form settled (removeImage "front" (fst (start app))))
    as [Hstate [_ Henabled]].
  assert (Hfront : Script.hasFrontImage
                     (form (fst (resume settled
                                   (removeImage "front" (fst (start app))))))
                   = false).
  { unfold Script.hasFrontImage. rewrite Hstate. reflexivity. }
  split; [reflexivity|]. split; [reflexivity|]. split; [exact Henabled|].
  split; [exact Hfront|]. split.
  - unfold Measure.inStep. rewrite Henabled, Hfront. discriminate.
  - transitivity
      (Script.frontImageData
         (Script.state
            (form (fst (resume settled
                          (removeImage "front" (fst (start app)))))))).
    + reflexivity.
    + rewrite Hstate. reflexivity.
Qed.

(** A calculation with nothing in between sends exactly one request, built
    from the form as it is, and leaves the images of the form alone.  It
    ends with the button enabled and in one of four ways.  The server's
    response has [success] and its skeleton is drawn: its measurements are
    stored and shown and the history is fetched again.  Or the response has
    [success] but [drawSkeleton] throws on its landmarks: the measurements
    are stored all the same and their cards are in the grid, yet the error
    is shown, the results section is as it was and the history is not
    fetched.  Or the status was 401 and the session is logged out.  Or an
    error is shown and the results and the session are as before.  A button
    that was enabled and in step with the form still is. *)
Theorem calculateMeasurements_ends_in_four_ways (app : App) :
  let run := calculateMeasurements app in
  let after := fst (fst run) in
  snd (fst run) = [requestOf app] /\
  Script.state (form after) = Script.state (form app) /\
  Script.calculateBtn_disabled (Script.elements (form after)) = false /\
  btnText_textContent (controls after) = "Calculate Measurements"%string /\
  loadingSpinner_display (controls after) = "none"%string /\
  ((exists data,
      fetch (requestOf app) = Succeeded (Json data) /\
      Api.success data = true /\
      skeletonThrows data = false /\
      measurements (results after) = Some (Api.measurements data) /\
      measurementsGrid (results after)
        = Script.displayResults (Api.measurements data) /\
      resultsSection_display (results after) = "block"%string /\
      Script.errorMessage_display (Script.elements (form after)) = "none"%string /\
      session after = session app /\
      In FetchHistory (snd run)) \/
   (exists data,
      fetch (requestOf app) = Succeeded (Json data) /\
      Api.success data = true /\
      skeletonThrows data = true /\
      measurements (results after) = Some (Api.measurements data) /\
      measurementsGrid (results after)
        = Script.displayResults (Api.measurements data) /\
      resultsSection_display (results after)
        = resultsSection_display (results app) /\
      Script.errorMessage_display (Script.elements (form after)) = "flex"%string /\
      Script.errorText_textContent (Script.elements (form after))
        = messageOf JS.TypeError /\
      session after = session app /\
      snd run = []) \/
   (fetch (requestOf app) = Unauthorized /\
    session after = History.logout (session app) /\
    results after = results app /\ snd run = []) \/
   (Script.errorMessage_display (Script.elements (form after)) = "flex"%string /\
    results after = results app /\ session after = session app /\
    snd run = [])) /\
  (inStep (form app) ->
   Script.calculateBtn_disabled (Script.elements (form app)) = false ->
   inStep (form after)).
Proof.
  cbv zeta. unfold Measure.calculateMeasurements. cbv zeta.
  change (snd (start app)) with (requestOf app).
  destruct (resume_form (fetch (requestOf app)) (fst (start app)))
    as [Hstate [Hheight Henabled]].
  cbn [fst snd].
  split; [reflexivity|]. split; [exact Hstate|]. split; [exact Henabled|].
  split; [reflexivity|]. split; [reflexivity|]. split.
  - destruct (fetch (requestOf app))
      as [message| |[error|message]|[data|message]] eqn:Hfetch;
      try (right; right; right; unfold Measure.resume; simpl; auto; fail);
      try (right; right; left; unfold Measure.resume; simpl; auto; fail).
    destruct (Api.success data) eqn:Hsuccess.
    + destruct (skeletonThrows data) eqn:Hskeleton.
      * right. left. exists data.
        destruct (resume_thrown data (fst (start app)) Hsuccess Hskeleton)
          as [Hm [Hgrid [Hshown [Herror [Htext [Hsession Hpending]]]]]].
        split; [reflexivity|]. split; [exact Hsuccess|].
        split; [exact Hskeleton|]. split; [exact Hm|].
        split; [exact Hgrid|]. split; [exact Hshown|].
        split; [exact Herror|]. split; [exact Htext|].
        split; [exact Hsession | exact Hpending].
      * left. exists data.
        destruct (resume_success data (fst (start app)) Hsuccess Hskeleton)
          as [Hm [Hgrid [Hshown [Herror [Hsession Hpending]]]]].
        split; [reflexivity|]. split; [exact Hsuccess|].
        split; [exact Hskeleton|]. split; [exact Hm|].
        split; [exact Hgrid|]. split; [exact Hshown|].
        split; [rewrite Herror; reflexivity|].
        split; [rewrite Hsession; reflexivity | exact Hpending].
    + right. right. right. unfold Measure.resume. rewrite Hsuccess.
      simpl. auto.
  - intros Hstep Hbefore.
    unfold Measure.inStep, Script.hasFrontImage, Script.hasHeight in *.
    rewrite Hbefore in Hstep. rewrite Hstate, Hheight, Henabled.
    exact Hstep.
Qed.

End Calculation.

(** ** The end of a session *)

Section SessionEnd.

Import History.

Lemma getItem_removed (key : string) (store : list (string * string)) :
  Auth.getItem key (removeItem key store) = None.
Proof.
  induction store as [|[k v] store IH]; simpl; [reflexivity|].
  destruct (JS.strictEq k key) eqn:E; simpl; [exact IH|].
  now rewrite E.
Qed.

Lemma getItem_after_removal (key other : string) (store : list (string * string)) :
  JS.strictEq other key = false ->
  Auth.getItem key (removeItem other store) = Auth.getItem key store.
Proof.
  intros Hother.
  induction store as [|[k v] store IH]; simpl; [reflexivity|].
  destruct (JS.strictEq k other) eqn:E; simpl.
  - apply strictEq_spec in E. subst k. now rewrite Hother.
  - now rewrite IH.
Qed.

(** [logout] of the static page undoes what a login of the login page has
    stored: the storage holds neither [auth_token] nor [user] afterwards and
    every other key as before, the address is [/], and the login page, opened
    on that storage, stays open instead of leaving for [/app]. *)
Theorem logout_ends_session (s : Session) :
  Auth.getItem "auth_token" (localStorage (logout s)) = None /\
  Auth.getItem "user" (localStorage (logout s)) = None /\
  location_href (logout s) = "/"%string /\
  (forall key,
     key <> "auth_token"%string -> key <> "user"%string ->
     Auth.getItem key (localStorage (logout s))
     = Auth.getItem key (localStorage s)) /\
  (forall p, Auth.localStorage p = localStorage (logout s) ->
             Auth.openPage p = p).
Proof.
  assert (Htoken : Auth.getItem "auth_token" (localStorage (logout s)) = None).
  { simpl. rewrite getItem_after_removal by reflexivity.
    apply getItem_removed. }
  split; [exact Htoken|]. split; [apply getItem_removed|].
  split; [reflexivity|]. split.
  - intros key Htok Huser. simpl.
    rewrite !getItem_after_removal; [reflexivity| |].
    + destruct (JS.strictEq "auth_token" key) eqn:E; [|reflexivity].
      apply strictEq_spec in E. now contradiction Htok.
    + destruct (JS.strictEq "user" key) eqn:E; [|reflexivity].
      apply strictEq_spec in E. now contradiction Huser.
  - intros p Hp. unfold Auth.openPage. now rewrite Hp, Htoken.
Qed.

End SessionEnd.

(** ** The size panel of the static page *)

Section SizePanelOutcome.

Import SizePanel.

Variable Recommendation : Type.
Variable fetch : Request -> Fetched Recommendation.

Local Abbreviation getSizeRecommendations :=
  (SizePanel.getSizeRecommendations Recommendation fetch).
Local Abbreviation handleCategoryChange :=
  (SizePanel.handleCategoryChange Recommendation fetch).

(** The recommended size under the pose detection follows the grid only
    when there is something to recommend.  A run of [getSizeRecommendations]
    either got an [ok] response with [success] and a first recommendation:
    then the grid holds the cards of the response, the first one flagged,
    and the recommended size is that first recommendation with the name of
    the garment.  Or the recommended size and its display are left as they
    were, while the grid is untouched (no measurements yet), says that
    nothing is available, or shows an error: the size recommended for an
    earlier category stays on the page. *)
Theorem recommended_size_changes_only_with_recommendations
    (category : string) (measurements : option Api.Measurements)
    (panel : Panel Recommendation) :
  let after := fst (getSizeRecommendations category measurements panel) in
  let sent := snd (getSizeRecommendations category measurements panel) in
  (exists m data bestFit others,
     measurements = Some m /\
     sent = [ {| garment_category := category; request_measurements := m |} ] /\
     fetch {| garment_category := category; request_measurements := m |}
       = Responded Recommendation true (Measure.Json data) /\
     success Recommendation data = true /\
     recommendations Recommendation data = Some (bestFit :: others) /\
     sizeRecGrid Recommendation after
       = Cards Recommendation
           ((bestFit, true) :: map (fun r => (r, false)) others) /\
     recommendedSizeContent Recommendation after
       = BestFit Recommendation bestFit (garment_name Recommendation data) /\
     recommendedSizeDisplay_display Recommendation after = "block"%string /\
     sizeRecommendationSection_display Recommendation after = "block"%string) \/
  (recommendedSizeContent Recommendation after
     = recommendedSizeContent Recommendation panel /\
   recommendedSizeDisplay_display Recommendation after
     = recommendedSizeDisplay_display Recommendation panel /\
   ((after = panel /\ sent = [] /\ measurements = None) \/
    sizeRecGrid Recommendation after = NoRecommendations Recommendation \/
    exists message,
      sizeRecGrid Recommendation after = ErrorText Recommendation message)).
Proof.
  cbv zeta. unfold SizePanel.getSizeRecommendations.
  destruct measurements as [m|];
    [|right; split; [reflexivity|]; split; [reflexivity|]; left; auto].
  cbv zeta.
  destruct (fetch _) as [message|ok [data|message]] eqn:Hfetch.
  { right. split; [reflexivity|]. split; [reflexivity|].
    right. right. now exists message. }
  2:{ right. destruct ok; simpl; (split; [reflexivity|]);
        (split; [reflexivity|]); right; right; eauto. }
  destruct ok.
  2:{ right. split; [reflexivity|]. split; [reflexivity|].
      right. right. simpl. eauto. }
  simpl negb. cbv iota.
  destruct (hasRecommendations Recommendation data) eqn:Hhas.
  2:{ right. split; [reflexivity|]. split; [reflexivity|].
      right. left. reflexivity. }
  unfold hasRecommendations in Hhas. apply andb_true_iff in Hhas.
  destruct Hhas as [Hsuccess Hrecs].
  destruct (recommendations Recommendation data) as [[|bestFit others]|] eqn:Hlist;
    try discriminate.
  left. exists m, data, bestFit, others.
  split; [reflexivity|]. split; [reflexivity|]. split; [exact Hfetch|].
  split; [exact Hsuccess|]. split; [exact Hlist|].
  unfold showBestSize. rewrite Hlist. simpl.
  split; [|auto].
  f_equal. unfold SizeRecs.displaySizeRecommendations. simpl.
  now rewrite combine_seq_flags.
Qed.

End SizePanelOutcome.

(** ** The category select of the static page *)

Section CategorySelect.

Import SizePanel.

(** [loadGarmentCategories] leaves the select in one of three states.  The
    response was not [ok] and nothing has changed, so the categories of an
    earlier gender stay selectable.  Or the select holds a single notice
    without a value, and [state.garmentCategories] is empty or as before.
    Or the server's list was filtered for the gender: the options are the
    categories that passed, in the server's order, they are what
    [state.garmentCategories] holds, and the first of them is selected.  In
    every case the value of the select is the value of one of its options
    if it was before. *)
Theorem loadGarmentCategories_selects_for_gender
    (settled : CategoriesFetched) (selectedGender : string) (c : Chooser) :
  let after := loadGarmentCategories settled selectedGender c in
  ((exists body, settled = CategoriesResponded false body) /\ after = c \/
   (exists text,
      select_options after = [ {| option_value := ""; option_text := text |} ] /\
      select_value after = ""%string /\
      (garmentCategories after = garmentCategories c \/
       garmentCategories after = [])) \/
   (exists allCategories first others,
      settled = CategoriesResponded true (Some allCategories) /\
      Categories.loadGarmentCategories selectedGender allCategories
        = first :: others /\
      garmentCategories after = first :: others /\
      map option_value (select_options after)
        = map Categories.key (first :: others) /\
      map option_text (select_options after)
        = map Categories.name (first :: others) /\
      select_value after = Categories.key first /\
      Categories.loadGarmentCategories_keeps selectedGender first = true /\
      In first allCategories)) /\
  (In (select_value c) (map option_value (select_options c)) ->
   In (select_value after) (map option_value (select_options after))).
Proof.
  cbv zeta. unfold loadGarmentCategories.
  destruct settled as [|ok body].
  { split; [right; left; eexists; simpl; auto | simpl; auto]. }
  destruct ok; simpl negb; cbv iota.
  2:{ split; [left; eauto | auto]. }
  destruct body as [allCategories|].
  2:{ split; [right; left; eexists; simpl; auto | simpl; auto]. }
  destruct (Categories.loadGarmentCategories selectedGender allCategories)
    as [|first others] eqn:Hfiltered.
  { split; [right; left; eexists; simpl; auto | simpl; auto]. }
  assert (Hfirst : In first (Categories.loadGarmentCategories selectedGender
                               allCategories))
    by (rewrite Hfiltered; now left).
  apply filter_In in Hfirst. destruct Hfirst as [Hin Hkeeps].
  split.
  - right. right. exists allCategories, first, others. simpl.
    rewrite !map_map. simpl. auto 10.
  - intros _. simpl. now left.
Qed.

End CategorySelect.

(** ** The size recommendations of the React client *)

Section RecommendationsLoaded.

Import RecommendationsView.

Variable Response : Type.
Variable getRecommendation : Request -> Settled Response.

Local Abbreviation fetchRecommendation :=
  (RecommendationsView.fetchRecommendation Response getRecommendation).
Local Abbreviation fetchCategories :=
  (RecommendationsView.fetchCategories Response getRecommendation).

(** What [fetchRecommendation] leaves: one request for the category, the
    loading flag down, and either the new recommendation without an error
    or the old recommendation with an error. *)
Lemma fetchRecommendation_outcome
    (category : string) (m : Api.Measurements) (st : State Response) :
  let after := fst (fetchRecommendation category m st) in
  snd (fetchRecommendation category m st)
    = [ {| measurements := m; garment_category := category |} ] /\
  loading Response after = false /\
  categories Response after = categories Response st /\
  selectedCategory Response after = selectedCategory Response st /\
  ((exists data, recommendation Response after = Some data /\
                 error Response after = None) \/
   (recommendation Response after = recommendation Response st /\
    error Response after <> None)).
Proof.
  cbv zeta. unfold RecommendationsView.fetchRecommendation. cbv zeta.
  destruct (getRecommendation _) as [data|detail]; simpl.
  - repeat split. left. now exists data.
  - repeat split. right. split; [reflexivity | discriminate].
Qed.

(** [fetchCategories] selects only within the gender.  Either a category
    passed the filter: then the first that passed is the selected category,
    the list holds the categories that passed, one recommendation was
    requested for that category with the measurements, and it is shown or an
    error is.  Or nothing passed or the load failed: then no request is
    sent and the selected category and the recommendation on screen are
    those from before, also when they belong to the other gender. *)
Theorem fetchCategories_selects_within_gender
    (settled : CategoriesSettled) (gender : Categories.Gender)
    (m : Api.Measurements) (st : State Response) :
  let after := fst (fetchCategories settled gender m st) in
  let sent := snd (fetchCategories settled gender m st) in
  (exists data first others,
     settled = CategoriesResolved data /\
     Categories.fetchCategories gender data = first :: others /\
     In first data /\
     Categories.fetchCategories_keeps gender first = true /\
     categories Response after = first :: others /\
     selectedCategory Response after = Categories.key first /\
     sent = [ {| measurements := m;
                 garment_category := Categories.key first |} ] /\
     loading Response after = false /\
     ((exists shown, recommendation Response after = Some shown /\
                     error Response after = None) \/
      (recommendation Response after = recommendation Response st /\
       error Response after <> None))) \/
  (sent = [] /\
   selectedCategory Response after = selectedCategory Response st /\
   recommendation Response after = recommendation Response st /\
   loading Response after = loading Response st /\
   ((categories Response after = [] /\
     error Response after = error Response st) \/
    (categories Response after = categories Response st /\
     error Response after = Some "Failed to load garment categories"%string))).
Proof.
  cbv zeta. unfold RecommendationsView.fetchCategories.
  destruct settled as [data|]; [|right; simpl; auto 10].
  cbv zeta.
  destruct (Categories.fetchCategories gender data) as [|first others]
    eqn:Hfiltered; [right; simpl; auto 10|].
  assert (Hfirst : In first (Categories.fetchCategories gender data))
    by (rewrite Hfiltered; now left).
  apply filter_In in Hfirst. destruct Hfirst as [Hin Hkeeps].
  destruct (fetchRecommendation_outcome (Categories.key first) m
              (setSelectedCategory Response (Categories.key first)
                 (setCategories Response (first :: others) st)))
    as [Hsent [Hloading [Hcategories [Hselected Hshown]]]].
  left. exists data, first, others.
  split; [reflexivity|]. split; [exact Hfiltered|]. split; [exact Hin|].
  split; [exact Hkeeps|]. split; [exact Hcategories|].
  split; [exact Hselected|]. split; [exact Hsent|].
  split; [exact Hloading | exact Hshown].
Qed.

End RecommendationsLoaded.

(** ** The measurement cards of the two clients *)

Section MeasurementCards.

Import ResultCards.

(** The React client prints a card for every measurement, and 0 where the
    response has [null]; the static page prints no card there.  So for a
    response without a chest the React client shows a chest of 0 and the
    static page shows no chest; and when no measurement is [null] the two
    clients print the same numbers, in the same order for a response that
    lists its measurements in the order of the interface. *)
Theorem react_cards_print_null_as_zero (m : Api.Measurements) :
  List.length (cards m) = 6 /\
  (forall key field,
     In (key, field) measurementEntries -> field m = None ->
     In {| caption := replaceUnderscore key; number := 0%Q;
           card_units := Api.measurement_units m |} (cards m)) /\
  (Api.chest m = None ->
   In {| caption := "chest"; number := 0%Q;
         card_units := Api.measurement_units m |} (cards m) /\
   forall card, In card (Script.displayResults m) ->
                Script.card_label card <> "Chest"%string) /\
  (List.length (Script.displayResults m) = 6 ->
   map number (cards m) = map Script.card_value (Script.displayResults m)).
Proof.
  split; [reflexivity|]. split; [|split].
  - intros key field Hin Hnull. unfold cards.
    apply in_map_iff. exists (key, field). simpl. now rewrite Hnull.
  - intros Hchest. split.
    + unfold cards. simpl. right. left. now rewrite Hchest.
    + intros card. unfold Script.displayResults. simpl. rewrite Hchest.
      destruct (Api.shoulder_width m), (Api.waist m), (Api.hip m),
        (Api.height m), (Api.inseam m); simpl;
        intuition (subst; simpl; discriminate).
  - unfold Script.displayResults, cards. simpl.
    destruct (Api.shoulder_width m), (Api.chest m), (Api.waist m),
      (Api.hip m), (Api.height m), (Api.inseam m); simpl;
      try discriminate.
    reflexivity.
Qed.

End MeasurementCards.

(** ** The demo request *)

Section DemoRequested.

Import BookDemo.

Variable submitRequest : DemoRequest -> Settled.

Local Abbreviation handleSubmit := (BookDemo.handleSubmit submitRequest).

(** A submit of the demo form sends the form once, as it is, and ends with
    [loading] false.  When the server answers with [success], the thanks are
    shown with no error, and the timer then closes the modal, hides the
    thanks and empties the form.  In every other case the form keeps what
    was typed, the modal stays as it is and an error is shown. *)
Theorem handleSubmit_keeps_form_unless_accepted (st : State) :
  let run := handleSubmit st in
  let after := fst (fst run) in
  snd (fst run) = [formData st] /\
  loading after = false /\
  formData after = formData st /\
  isOpen after = isOpen st /\
  ((exists response_message,
      submitRequest (formData st) = Resolved true response_message /\
      submitted after = true /\ error after = None /\
      formData (settle run) = emptyForm /\
      submitted (settle run) = false /\
      isOpen (settle run) = false) \/
   (error after <> None /\
    submitted after = submitted st /\
    settle run = after)).
Proof.
  cbv zeta. unfold BookDemo.handleSubmit. cbv zeta.
  destruct (submitRequest (formData st)) as [success response_message|detail]
    eqn:Hsettled.
  - destruct success; simpl.
    + repeat split. left. exists response_message. repeat split.
    + repeat split. right. repeat split. discriminate.
  - simpl. repeat split. right. repeat split. discriminate.
Qed.

End DemoRequested.

(** ** What the clients stop before it is sent *)

Section ClientValidation.

Variable Number : string -> JS.number.
Variable parseFloat : string -> JS.number.
Variable calculate : Api.MeasurementRequest -> Api.Settled.



End ClientValidation.


